(** * Adaptive thermostat controller: a shallow embedding and its properties

    This development embeds [src/lib/adaptive-controller.js] (class
    [AdaptiveController]) and the activation latch of the input handler in
    [src/nodes/smart-thermostat.js], and states the properties of the
    specification over that embedding.

    Conventions of the embedding.

    - Numbers.  Every finite IEEE double is a rational, and the controller only
      adds, subtracts, multiplies, divides, compares, takes [Math.abs],
      [Math.min], [Math.max], [Math.sign], [Math.round] and one [Math.sqrt]
      inside a comparison.  Numeric fields are therefore values of [Q] and the
      arithmetic is exact: rounding error of the floating-point unit is outside
      the model.  [NaN] and the infinities appear only where the source tests
      for them or parses them: in the arguments of the setters (type [jsval])
      and in the times of schedule slots (type [number]).
    - Time.  [Date.now()] is an integer number of milliseconds, a [Z].  One call
      of a method is one instant: every [Date.now()] evaluated during a call
      reads the same value [now clk] of the clock handed to the call.
    - Mutation.  The instance ([this]) is a record [Controller]; a method is a
      function from the record to the new record (and a result, if any).
    - Strings stay strings: thermal mode, operating mode and trend labels are
      compared with [===] in the source and with [String.eqb] here.  A string
      of the model is the UTF-8 encoding of the source's string, one [ascii]
      per byte. *)

From Stdlib Require Import QArith Qround Qabs Qminmax Lqa Lia ZArith Bool.
From Stdlib Require Import Ascii String.
From stdpp Require Import base strings gmap list.

Local Open Scope Q_scope.

(** ** Numbers *)

(** [a < b] on numbers, as a boolean. *)
Definition Qltb (a b : Q) : bool := negb (Qle_bool b a).

(** [Math.min(Math.max(value, min), max)], the method [clamp]. *)
Definition clamp (value min max : Q) : Q := Qmin (Qmax value min) max.

(** [Math.round]: the nearest integer, ties towards plus infinity. *)
Definition Math_round (x : Q) : Z := Qfloor (x + 0.5).

(** [Math.sign]. *)
Definition Math_sign (x : Q) : Q := inject_Z (Z.sgn (Qnum x)).

(** [Math.sqrt(v) > b] for [0 <= v].  The square root is not rational, the
    comparison is: a negative [b] is below every root, and for [0 <= b] the
    root exceeds [b] exactly when [v] exceeds [b * b]. *)
Definition sqrt_gt (v b : Q) : bool :=
  if Qltb b 0 then true else Qltb (b * b) v.

(** A number that may be [NaN] or an infinity: what [Number(str)] returns. *)
Inductive number : Type :=
  | Nan
  | Infty (negative : bool)
  | Finite (x : Q).

(** [a * b] for a finite, positive [b]. *)
Definition number_scale (a : number) (b : Q) : number :=
  match a with
  | Nan => Nan
  | Infty negative => Infty negative
  | Finite x => Finite (x * b)
  end.

(** [a + b]: opposite infinities add up to [NaN]. *)
Definition number_add (a b : number) : number :=
  match a, b with
  | Nan, _ | _, Nan => Nan
  | Infty n, Infty m => if Bool.eqb n m then Infty n else Nan
  | Infty n, Finite _ | Finite _, Infty n => Infty n
  | Finite x, Finite y => Finite (x + y)
  end.

(** [a <= b] for a finite [b]: false for [NaN]. *)
Definition number_le (a : number) (b : Q) : bool :=
  match a with
  | Nan => false
  | Infty negative => negative
  | Finite x => Qle_bool x b
  end.

(** [a || 0] where [a] is a number or [undefined] ([None]): [undefined],
    [NaN] and zero are falsy. *)
Definition number_or_zero (a : option number) : number :=
  match a with
  | Some (Finite x) => if Qeq_bool x 0 then Finite 0 else Finite x
  | Some (Infty negative) => Infty negative
  | Some Nan | None => Finite 0
  end.

(** Truthiness of a nullable number: [null], [undefined] and [0] are falsy. *)
Definition truthyZ (o : option Z) : bool :=
  match o with Some t => negb (t =? 0)%Z | None => false end.

(** [config.x || d] for a numeric option: the default replaces a missing or
    zero entry. *)
Definition or_default (o : option Q) (d : Q) : Q :=
  match o with Some x => if Qeq_bool x 0 then d else x | None => d end.

(** ** Values handed to the setters

    The host passes whatever a message carried.  [JObj k] is an object or array
    whose conversion to a property key is the string [k] (for the array
    [['heating']] that is ["heating"]). *)
Inductive jsval : Type :=
  | JUndefined
  | JNull
  | JBool (b : bool)
  | JNum (x : Q)
  | JNaN
  | JInf (negative : bool)
  | JStr (s : string)
  | JObj (key : string).

(** ** Schedule and clock *)

(** A slot [{time: "06:00", temp: 21}].  A slot without [time] behaves as one
    whose [time] is the empty string (both are falsy).  [temp] is a number, or
    [None] when the slot has no [temp] ([undefined]). *)
Record Slot : Type := mkSlot {
  time : string;
  temp : option Q
}.

(** The array of slots under a day name.  When today has no slots the source
    returns the [temp] of yesterday's last slot without testing it
    ([yesterdaySchedule[yesterdaySchedule.length - 1].temp]); a last slot
    without [temp] would make the target [NaN], which no numeric field of the
    model can hold.  The arrays of the model are therefore the empty array and
    the arrays whose last slot carries a number; any slot before the last may
    lack its [temp]. *)
Inductive DaySchedule : Type :=
  | NoSlots
  | Slots (earlier : list Slot) (lastTime : string) (lastTemp : Q).

(** The elements of the array, in order. *)
Definition slotsOf (daySchedule : DaySchedule) : list Slot :=
  match daySchedule with
  | NoSlots => []
  | Slots earlier lastTime lastTemp =>
      earlier ++ [mkSlot lastTime (Some lastTemp)]
  end.

(** [daySchedule[daySchedule.length - 1]] of a non-empty array. *)
Definition lastSlot (daySchedule : DaySchedule) : option Slot :=
  match daySchedule with
  | NoSlots => None
  | Slots _ lastTime lastTemp => Some (mkSlot lastTime (Some lastTemp))
  end.

(** The weekly schedule: the object's day entries that are arrays, keyed by
    day name, and its [timezone] selector. *)
Record Schedule : Type := mkSchedule {
  days : gmap string DaySchedule;
  timezone : option string
}.

(** Weekday, hour and minute as [getTimeInTimezone] returns them. *)
Record TimeOfDay : Type := mkTimeOfDay {
  dayIndex : nat;
  hours : Z;
  minutes : Z
}.

(** The clock/time provider: the current instant and, for a timezone selector,
    the time of day in that zone (the result of [getTimeInTimezone], whose
    fallback to local time for an invalid identifier lives in the provider). *)
Record Clock : Type := mkClock {
  now : Z;
  getTimeInTimezone : option string -> TimeOfDay
}.

(** An entry [{temp, timestamp}] of the temperature history. *)
Record Reading : Type := mkReading {
  rtemp : Q;
  timestamp : Z
}.

(** ** The controller instance

    The fields of [this], under their names.  [null] is [None].  Four
    fields are left out: [outputHistory], which is only ever assigned the
    empty array, and the constants [samplesNeeded], [adaptationInterval] and
    [trendWindowSize], which follow the record as definitions. *)

Record Controller : Type := mkController {
  minTemp : Q;
  maxTemp : Q;
  targetTemp : Q;
  baseTargetTemp : Q;
  hysteresis : Q;
  sampleInterval : Q;
  learningEnabled : bool;
  maxOutputChange : Q;
  precision : Q;
  mode : string;
  operatingMode : string;
  schedule : option Schedule;
  boostActive : bool;
  boostTemp : option Q;
  boostEndTime : option Z;
  awayMode : bool;
  awayTemp : Q;
  Kp : Q;
  Ki : Q;
  Kd : Q;
  integral : Q;
  lastError : Q;
  lastTemp : option Q;
  lastOutput : option Q;
  lastUpdateTime : option Z;
  learningPhase : bool;
  temperatureHistory : list Reading;
  learningStartTime : option Z;
  learningComplete : bool;
  performanceHistory : list Q;
  trendWindow : list Q;
  parametersChanged : bool
}.

(** Constants the constructor fixes and nothing changes. *)
Definition samplesNeeded : nat := 30.
Definition adaptationInterval : nat := 100.
Definition trendWindowSize : nat := 5.

(** *** Field updates *)

Definition set_targetTemp (v : Q) (s : Controller) : Controller :=
  {| minTemp := minTemp s; maxTemp := maxTemp s; targetTemp := v;
     baseTargetTemp := baseTargetTemp s; hysteresis := hysteresis s;
     sampleInterval := sampleInterval s; learningEnabled := learningEnabled s;
     maxOutputChange := maxOutputChange s; precision := precision s;
     mode := mode s; operatingMode := operatingMode s; schedule := schedule s;
     boostActive := boostActive s; boostTemp := boostTemp s;
     boostEndTime := boostEndTime s; awayMode := awayMode s;
     awayTemp := awayTemp s; Kp := Kp s; Ki := Ki s; Kd := Kd s;
     integral := integral s; lastError := lastError s; lastTemp := lastTemp s;
     lastOutput := lastOutput s; lastUpdateTime := lastUpdateTime s;
     learningPhase := learningPhase s;
     temperatureHistory := temperatureHistory s;
     learningStartTime := learningStartTime s;
     learningComplete := learningComplete s;
     performanceHistory := performanceHistory s; trendWindow := trendWindow s;
     parametersChanged := parametersChanged s |}.

Definition set_baseTargetTemp (v : Q) (s : Controller) : Controller :=
  {| minTemp := minTemp s; maxTemp := maxTemp s; targetTemp := targetTemp s;
     baseTargetTemp := v; hysteresis := hysteresis s;
     sampleInterval := sampleInterval s; learningEnabled := learningEnabled s;
     maxOutputChange := maxOutputChange s; precision := precision s;
     mode := mode s; operatingMode := operatingMode s; schedule := schedule s;
     boostActive := boostActive s; boostTemp := boostTemp s;
     boostEndTime := boostEndTime s; awayMode := awayMode s;
     awayTemp := awayTemp s; Kp := Kp s; Ki := Ki s; Kd := Kd s;
     integral := integral s; lastError := lastError s; lastTemp := lastTemp s;
     lastOutput := lastOutput s; lastUpdateTime := lastUpdateTime s;
     learningPhase := learningPhase s;
     temperatureHistory := temperatureHistory s;
     learningStartTime := learningStartTime s;
     learningComplete := learningComplete s;
     performanceHistory := performanceHistory s; trendWindow := trendWindow s;
     parametersChanged := parametersChanged s |}.

Definition set_mode (v : string) (s : Controller) : Controller :=
  {| minTemp := minTemp s; maxTemp := maxTemp s; targetTemp := targetTemp s;
     baseTargetTemp := baseTargetTemp s; hysteresis := hysteresis s;
     sampleInterval := sampleInterval s; learningEnabled := learningEnabled s;
     maxOutputChange := maxOutputChange s; precision := precision s; mode := v;
     operatingMode := operatingMode s; schedule := schedule s;
     boostActive := boostActive s; boostTemp := boostTemp s;
     boostEndTime := boostEndTime s; awayMode := awayMode s;
     awayTemp := awayTemp s; Kp := Kp s; Ki := Ki s; Kd := Kd s;
     integral := integral s; lastError := lastError s; lastTemp := lastTemp s;
     lastOutput := lastOutput s; lastUpdateTime := lastUpdateTime s;
     learningPhase := learningPhase s;
     temperatureHistory := temperatureHistory s;
     learningStartTime := learningStartTime s;
     learningComplete := learningComplete s;
     performanceHistory := performanceHistory s; trendWindow := trendWindow s;
     parametersChanged := parametersChanged s |}.

Definition set_operatingMode (v : string) (s : Controller) : Controller :=
  {| minTemp := minTemp s; maxTemp := maxTemp s; targetTemp := targetTemp s;
     baseTargetTemp := baseTargetTemp s; hysteresis := hysteresis s;
     sampleInterval := sampleInterval s; learningEnabled := learningEnabled s;
     maxOutputChange := maxOutputChange s; precision := precision s;
     mode := mode s; operatingMode := v; schedule := schedule s;
     boostActive := boostActive s; boostTemp := boostTemp s;
     boostEndTime := boostEndTime s; awayMode := awayMode s;
     awayTemp := awayTemp s; Kp := Kp s; Ki := Ki s; Kd := Kd s;
     integral := integral s; lastError := lastError s; lastTemp := lastTemp s;
     lastOutput := lastOutput s; lastUpdateTime := lastUpdateTime s;
     learningPhase := learningPhase s;
     temperatureHistory := temperatureHistory s;
     learningStartTime := learningStartTime s;
     learningComplete := learningComplete s;
     performanceHistory := performanceHistory s; trendWindow := trendWindow s;
     parametersChanged := parametersChanged s |}.

Definition set_schedule (v : option Schedule) (s : Controller) : Controller :=
  {| minTemp := minTemp s; maxTemp := maxTemp s; targetTemp := targetTemp s;
     baseTargetTemp := baseTargetTemp s; hysteresis := hysteresis s;
     sampleInterval := sampleInterval s; learningEnabled := learningEnabled s;
     maxOutputChange := maxOutputChange s; precision := precision s;
     mode := mode s; operatingMode := operatingMode s; schedule := v;
     boostActive := boostActive s; boostTemp := boostTemp s;
     boostEndTime := boostEndTime s; awayMode := awayMode s;
     awayTemp := awayTemp s; Kp := Kp s; Ki := Ki s; Kd := Kd s;
     integral := integral s; lastError := lastError s; lastTemp := lastTemp s;
     lastOutput := lastOutput s; lastUpdateTime := lastUpdateTime s;
     learningPhase := learningPhase s;
     temperatureHistory := temperatureHistory s;
     learningStartTime := learningStartTime s;
     learningComplete := learningComplete s;
     performanceHistory := performanceHistory s; trendWindow := trendWindow s;
     parametersChanged := parametersChanged s |}.

Definition set_boost (v0 : bool) (v1 : option Q) (v2 : option Z) (s : Controller) : Controller :=
  {| minTemp := minTemp s; maxTemp := maxTemp s; targetTemp := targetTemp s;
     baseTargetTemp := baseTargetTemp s; hysteresis := hysteresis s;
     sampleInterval := sampleInterval s; learningEnabled := learningEnabled s;
     maxOutputChange := maxOutputChange s; precision := precision s;
     mode := mode s; operatingMode := operatingMode s; schedule := schedule s;
     boostActive := v0; boostTemp := v1; boostEndTime := v2;
     awayMode := awayMode s; awayTemp := awayTemp s; Kp := Kp s; Ki := Ki s;
     Kd := Kd s; integral := integral s; lastError := lastError s;
     lastTemp := lastTemp s; lastOutput := lastOutput s;
     lastUpdateTime := lastUpdateTime s; learningPhase := learningPhase s;
     temperatureHistory := temperatureHistory s;
     learningStartTime := learningStartTime s;
     learningComplete := learningComplete s;
     performanceHistory := performanceHistory s; trendWindow := trendWindow s;
     parametersChanged := parametersChanged s |}.

Definition set_awayMode (v : bool) (s : Controller) : Controller :=
  {| minTemp := minTemp s; maxTemp := maxTemp s; targetTemp := targetTemp s;
     baseTargetTemp := baseTargetTemp s; hysteresis := hysteresis s;
     sampleInterval := sampleInterval s; learningEnabled := learningEnabled s;
     maxOutputChange := maxOutputChange s; precision := precision s;
     mode := mode s; operatingMode := operatingMode s; schedule := schedule s;
     boostActive := boostActive s; boostTemp := boostTemp s;
     boostEndTime := boostEndTime s; awayMode := v; awayTemp := awayTemp s;
     Kp := Kp s; Ki := Ki s; Kd := Kd s; integral := integral s;
     lastError := lastError s; lastTemp := lastTemp s;
     lastOutput := lastOutput s; lastUpdateTime := lastUpdateTime s;
     learningPhase := learningPhase s;
     temperatureHistory := temperatureHistory s;
     learningStartTime := learningStartTime s;
     learningComplete := learningComplete s;
     performanceHistory := performanceHistory s; trendWindow := trendWindow s;
     parametersChanged := parametersChanged s |}.

Definition set_awayTemp (v : Q) (s : Controller) : Controller :=
  {| minTemp := minTemp s; maxTemp := maxTemp s; targetTemp := targetTemp s;
     baseTargetTemp := baseTargetTemp s; hysteresis := hysteresis s;
     sampleInterval := sampleInterval s; learningEnabled := learningEnabled s;
     maxOutputChange := maxOutputChange s; precision := precision s;
     mode := mode s; operatingMode := operatingMode s; schedule := schedule s;
     boostActive := boostActive s; boostTemp := boostTemp s;
     boostEndTime := boostEndTime s; awayMode := awayMode s; awayTemp := v;
     Kp := Kp s; Ki := Ki s; Kd := Kd s; integral := integral s;
     lastError := lastError s; lastTemp := lastTemp s;
     lastOutput := lastOutput s; lastUpdateTime := lastUpdateTime s;
     learningPhase := learningPhase s;
     temperatureHistory := temperatureHistory s;
     learningStartTime := learningStartTime s;
     learningComplete := learningComplete s;
     performanceHistory := performanceHistory s; trendWindow := trendWindow s;
     parametersChanged := parametersChanged s |}.

Definition set_Kp (v : Q) (s : Controller) : Controller :=
  {| minTemp := minTemp s; maxTemp := maxTemp s; targetTemp := targetTemp s;
     baseTargetTemp := baseTargetTemp s; hysteresis := hysteresis s;
     sampleInterval := sampleInterval s; learningEnabled := learningEnabled s;
     maxOutputChange := maxOutputChange s; precision := precision s;
     mode := mode s; operatingMode := operatingMode s; schedule := schedule s;
     boostActive := boostActive s; boostTemp := boostTemp s;
     boostEndTime := boostEndTime s; awayMode := awayMode s;
     awayTemp := awayTemp s; Kp := v; Ki := Ki s; Kd := Kd s;
     integral := integral s; lastError := lastError s; lastTemp := lastTemp s;
     lastOutput := lastOutput s; lastUpdateTime := lastUpdateTime s;
     learningPhase := learningPhase s;
     temperatureHistory := temperatureHistory s;
     learningStartTime := learningStartTime s;
     learningComplete := learningComplete s;
     performanceHistory := performanceHistory s; trendWindow := trendWindow s;
     parametersChanged := parametersChanged s |}.

Definition set_Ki (v : Q) (s : Controller) : Controller :=
  {| minTemp := minTemp s; maxTemp := maxTemp s; targetTemp := targetTemp s;
     baseTargetTemp := baseTargetTemp s; hysteresis := hysteresis s;
     sampleInterval := sampleInterval s; learningEnabled := learningEnabled s;
     maxOutputChange := maxOutputChange s; precision := precision s;
     mode := mode s; operatingMode := operatingMode s; schedule := schedule s;
     boostActive := boostActive s; boostTemp := boostTemp s;
     boostEndTime := boostEndTime s; awayMode := awayMode s;
     awayTemp := awayTemp s; Kp := Kp s; Ki := v; Kd := Kd s;
     integral := integral s; lastError := lastError s; lastTemp := lastTemp s;
     lastOutput := lastOutput s; lastUpdateTime := lastUpdateTime s;
     learningPhase := learningPhase s;
     temperatureHistory := temperatureHistory s;
     learningStartTime := learningStartTime s;
     learningComplete := learningComplete s;
     performanceHistory := performanceHistory s; trendWindow := trendWindow s;
     parametersChanged := parametersChanged s |}.

Definition set_Kd (v : Q) (s : Controller) : Controller :=
  {| minTemp := minTemp s; maxTemp := maxTemp s; targetTemp := targetTemp s;
     baseTargetTemp := baseTargetTemp s; hysteresis := hysteresis s;
     sampleInterval := sampleInterval s; learningEnabled := learningEnabled s;
     maxOutputChange := maxOutputChange s; precision := precision s;
     mode := mode s; operatingMode := operatingMode s; schedule := schedule s;
     boostActive := boostActive s; boostTemp := boostTemp s;
     boostEndTime := boostEndTime s; awayMode := awayMode s;
     awayTemp := awayTemp s; Kp := Kp s; Ki := Ki s; Kd := v;
     integral := integral s; lastError := lastError s; lastTemp := lastTemp s;
     lastOutput := lastOutput s; lastUpdateTime := lastUpdateTime s;
     learningPhase := learningPhase s;
     temperatureHistory := temperatureHistory s;
     learningStartTime := learningStartTime s;
     learningComplete := learningComplete s;
     performanceHistory := performanceHistory s; trendWindow := trendWindow s;
     parametersChanged := parametersChanged s |}.

Definition set_integral (v : Q) (s : Controller) : Controller :=
  {| minTemp := minTemp s; maxTemp := maxTemp s; targetTemp := targetTemp s;
     baseTargetTemp := baseTargetTemp s; hysteresis := hysteresis s;
     sampleInterval := sampleInterval s; learningEnabled := learningEnabled s;
     maxOutputChange := maxOutputChange s; precision := precision s;
     mode := mode s; operatingMode := operatingMode s; schedule := schedule s;
     boostActive := boostActive s; boostTemp := boostTemp s;
     boostEndTime := boostEndTime s; awayMode := awayMode s;
     awayTemp := awayTemp s; Kp := Kp s; Ki := Ki s; Kd := Kd s; integral := v;
     lastError := lastError s; lastTemp := lastTemp s;
     lastOutput := lastOutput s; lastUpdateTime := lastUpdateTime s;
     learningPhase := learningPhase s;
     temperatureHistory := temperatureHistory s;
     learningStartTime := learningStartTime s;
     learningComplete := learningComplete s;
     performanceHistory := performanceHistory s; trendWindow := trendWindow s;
     parametersChanged := parametersChanged s |}.

Definition set_lastError (v : Q) (s : Controller) : Controller :=
  {| minTemp := minTemp s; maxTemp := maxTemp s; targetTemp := targetTemp s;
     baseTargetTemp := baseTargetTemp s; hysteresis := hysteresis s;
     sampleInterval := sampleInterval s; learningEnabled := learningEnabled s;
     maxOutputChange := maxOutputChange s; precision := precision s;
     mode := mode s; operatingMode := operatingMode s; schedule := schedule s;
     boostActive := boostActive s; boostTemp := boostTemp s;
     boostEndTime := boostEndTime s; awayMode := awayMode s;
     awayTemp := awayTemp s; Kp := Kp s; Ki := Ki s; Kd := Kd s;
     integral := integral s; lastError := v; lastTemp := lastTemp s;
     lastOutput := lastOutput s; lastUpdateTime := lastUpdateTime s;
     learningPhase := learningPhase s;
     temperatureHistory := temperatureHistory s;
     learningStartTime := learningStartTime s;
     learningComplete := learningComplete s;
     performanceHistory := performanceHistory s; trendWindow := trendWindow s;
     parametersChanged := parametersChanged s |}.

Definition set_lastTemp (v : option Q) (s : Controller) : Controller :=
  {| minTemp := minTemp s; maxTemp := maxTemp s; targetTemp := targetTemp s;
     baseTargetTemp := baseTargetTemp s; hysteresis := hysteresis s;
     sampleInterval := sampleInterval s; learningEnabled := learningEnabled s;
     maxOutputChange := maxOutputChange s; precision := precision s;
     mode := mode s; operatingMode := operatingMode s; schedule := schedule s;
     boostActive := boostActive s; boostTemp := boostTemp s;
     boostEndTime := boostEndTime s; awayMode := awayMode s;
     awayTemp := awayTemp s; Kp := Kp s; Ki := Ki s; Kd := Kd s;
     integral := integral s; lastError := lastError s; lastTemp := v;
     lastOutput := lastOutput s; lastUpdateTime := lastUpdateTime s;
     learningPhase := learningPhase s;
     temperatureHistory := temperatureHistory s;
     learningStartTime := learningStartTime s;
     learningComplete := learningComplete s;
     performanceHistory := performanceHistory s; trendWindow := trendWindow s;
     parametersChanged := parametersChanged s |}.

Definition set_lastOutput (v : option Q) (s : Controller) : Controller :=
  {| minTemp := minTemp s; maxTemp := maxTemp s; targetTemp := targetTemp s;
     baseTargetTemp := baseTargetTemp s; hysteresis := hysteresis s;
     sampleInterval := sampleInterval s; learningEnabled := learningEnabled s;
     maxOutputChange := maxOutputChange s; precision := precision s;
     mode := mode s; operatingMode := operatingMode s; schedule := schedule s;
     boostActive := boostActive s; boostTemp := boostTemp s;
     boostEndTime := boostEndTime s; awayMode := awayMode s;
     awayTemp := awayTemp s; Kp := Kp s; Ki := Ki s; Kd := Kd s;
     integral := integral s; lastError := lastError s; lastTemp := lastTemp s;
     lastOutput := v; lastUpdateTime := lastUpdateTime s;
     learningPhase := learningPhase s;
     temperatureHistory := temperatureHistory s;
     learningStartTime := learningStartTime s;
     learningComplete := learningComplete s;
     performanceHistory := performanceHistory s; trendWindow := trendWindow s;
     parametersChanged := parametersChanged s |}.

Definition set_lastUpdateTime (v : option Z) (s : Controller) : Controller :=
  {| minTemp := minTemp s; maxTemp := maxTemp s; targetTemp := targetTemp s;
     baseTargetTemp := baseTargetTemp s; hysteresis := hysteresis s;
     sampleInterval := sampleInterval s; learningEnabled := learningEnabled s;
     maxOutputChange := maxOutputChange s; precision := precision s;
     mode := mode s; operatingMode := operatingMode s; schedule := schedule s;
     boostActive := boostActive s; boostTemp := boostTemp s;
     boostEndTime := boostEndTime s; awayMode := awayMode s;
     awayTemp := awayTemp s; Kp := Kp s; Ki := Ki s; Kd := Kd s;
     integral := integral s; lastError := lastError s; lastTemp := lastTemp s;
     lastOutput := lastOutput s; lastUpdateTime := v;
     learningPhase := learningPhase s;
     temperatureHistory := temperatureHistory s;
     learningStartTime := learningStartTime s;
     learningComplete := learningComplete s;
     performanceHistory := performanceHistory s; trendWindow := trendWindow s;
     parametersChanged := parametersChanged s |}.

Definition set_learningPhase (v : bool) (s : Controller) : Controller :=
  {| minTemp := minTemp s; maxTemp := maxTemp s; targetTemp := targetTemp s;
     baseTargetTemp := baseTargetTemp s; hysteresis := hysteresis s;
     sampleInterval := sampleInterval s; learningEnabled := learningEnabled s;
     maxOutputChange := maxOutputChange s; precision := precision s;
     mode := mode s; operatingMode := operatingMode s; schedule := schedule s;
     boostActive := boostActive s; boostTemp := boostTemp s;
     boostEndTime := boostEndTime s; awayMode := awayMode s;
     awayTemp := awayTemp s; Kp := Kp s; Ki := Ki s; Kd := Kd s;
     integral := integral s; lastError := lastError s; lastTemp := lastTemp s;
     lastOutput := lastOutput s; lastUpdateTime := lastUpdateTime s;
     learningPhase := v; temperatureHistory := temperatureHistory s;
     learningStartTime := learningStartTime s;
     learningComplete := learningComplete s;
     performanceHistory := performanceHistory s; trendWindow := trendWindow s;
     parametersChanged := parametersChanged s |}.

Definition set_learningComplete (v : bool) (s : Controller) : Controller :=
  {| minTemp := minTemp s; maxTemp := maxTemp s; targetTemp := targetTemp s;
     baseTargetTemp := baseTargetTemp s; hysteresis := hysteresis s;
     sampleInterval := sampleInterval s; learningEnabled := learningEnabled s;
     maxOutputChange := maxOutputChange s; precision := precision s;
     mode := mode s; operatingMode := operatingMode s; schedule := schedule s;
     boostActive := boostActive s; boostTemp := boostTemp s;
     boostEndTime := boostEndTime s; awayMode := awayMode s;
     awayTemp := awayTemp s; Kp := Kp s; Ki := Ki s; Kd := Kd s;
     integral := integral s; lastError := lastError s; lastTemp := lastTemp s;
     lastOutput := lastOutput s; lastUpdateTime := lastUpdateTime s;
     learningPhase := learningPhase s;
     temperatureHistory := temperatureHistory s;
     learningStartTime := learningStartTime s; learningComplete := v;
     performanceHistory := performanceHistory s; trendWindow := trendWindow s;
     parametersChanged := parametersChanged s |}.

Definition set_temperatureHistory (v : list Reading) (s : Controller) : Controller :=
  {| minTemp := minTemp s; maxTemp := maxTemp s; targetTemp := targetTemp s;
     baseTargetTemp := baseTargetTemp s; hysteresis := hysteresis s;
     sampleInterval := sampleInterval s; learningEnabled := learningEnabled s;
     maxOutputChange := maxOutputChange s; precision := precision s;
     mode := mode s; operatingMode := operatingMode s; schedule := schedule s;
     boostActive := boostActive s; boostTemp := boostTemp s;
     boostEndTime := boostEndTime s; awayMode := awayMode s;
     awayTemp := awayTemp s; Kp := Kp s; Ki := Ki s; Kd := Kd s;
     integral := integral s; lastError := lastError s; lastTemp := lastTemp s;
     lastOutput := lastOutput s; lastUpdateTime := lastUpdateTime s;
     learningPhase := learningPhase s; temperatureHistory := v;
     learningStartTime := learningStartTime s;
     learningComplete := learningComplete s;
     performanceHistory := performanceHistory s; trendWindow := trendWindow s;
     parametersChanged := parametersChanged s |}.

Definition set_learningStartTime (v : option Z) (s : Controller) : Controller :=
  {| minTemp := minTemp s; maxTemp := maxTemp s; targetTemp := targetTemp s;
     baseTargetTemp := baseTargetTemp s; hysteresis := hysteresis s;
     sampleInterval := sampleInterval s; learningEnabled := learningEnabled s;
     maxOutputChange := maxOutputChange s; precision := precision s;
     mode := mode s; operatingMode := operatingMode s; schedule := schedule s;
     boostActive := boostActive s; boostTemp := boostTemp s;
     boostEndTime := boostEndTime s; awayMode := awayMode s;
     awayTemp := awayTemp s; Kp := Kp s; Ki := Ki s; Kd := Kd s;
     integral := integral s; lastError := lastError s; lastTemp := lastTemp s;
     lastOutput := lastOutput s; lastUpdateTime := lastUpdateTime s;
     learningPhase := learningPhase s;
     temperatureHistory := temperatureHistory s; learningStartTime := v;
     learningComplete := learningComplete s;
     performanceHistory := performanceHistory s; trendWindow := trendWindow s;
     parametersChanged := parametersChanged s |}.

Definition set_performanceHistory (v : list Q) (s : Controller) : Controller :=
  {| minTemp := minTemp s; maxTemp := maxTemp s; targetTemp := targetTemp s;
     baseTargetTemp := baseTargetTemp s; hysteresis := hysteresis s;
     sampleInterval := sampleInterval s; learningEnabled := learningEnabled s;
     maxOutputChange := maxOutputChange s; precision := precision s;
     mode := mode s; operatingMode := operatingMode s; schedule := schedule s;
     boostActive := boostActive s; boostTemp := boostTemp s;
     boostEndTime := boostEndTime s; awayMode := awayMode s;
     awayTemp := awayTemp s; Kp := Kp s; Ki := Ki s; Kd := Kd s;
     integral := integral s; lastError := lastError s; lastTemp := lastTemp s;
     lastOutput := lastOutput s; lastUpdateTime := lastUpdateTime s;
     learningPhase := learningPhase s;
     temperatureHistory := temperatureHistory s;
     learningStartTime := learningStartTime s;
     learningComplete := learningComplete s; performanceHistory := v;
     trendWindow := trendWindow s; parametersChanged := parametersChanged s |}.

Definition set_trendWindow (v : list Q) (s : Controller) : Controller :=
  {| minTemp := minTemp s; maxTemp := maxTemp s; targetTemp := targetTemp s;
     baseTargetTemp := baseTargetTemp s; hysteresis := hysteresis s;
     sampleInterval := sampleInterval s; learningEnabled := learningEnabled s;
     maxOutputChange := maxOutputChange s; precision := precision s;
     mode := mode s; operatingMode := operatingMode s; schedule := schedule s;
     boostActive := boostActive s; boostTemp := boostTemp s;
     boostEndTime := boostEndTime s; awayMode := awayMode s;
     awayTemp := awayTemp s; Kp := Kp s; Ki := Ki s; Kd := Kd s;
     integral := integral s; lastError := lastError s; lastTemp := lastTemp s;
     lastOutput := lastOutput s; lastUpdateTime := lastUpdateTime s;
     learningPhase := learningPhase s;
     temperatureHistory := temperatureHistory s;
     learningStartTime := learningStartTime s;
     learningComplete := learningComplete s;
     performanceHistory := performanceHistory s; trendWindow := v;
     parametersChanged := parametersChanged s |}.

Definition set_parametersChanged (v : bool) (s : Controller) : Controller :=
  {| minTemp := minTemp s; maxTemp := maxTemp s; targetTemp := targetTemp s;
     baseTargetTemp := baseTargetTemp s; hysteresis := hysteresis s;
     sampleInterval := sampleInterval s; learningEnabled := learningEnabled s;
     maxOutputChange := maxOutputChange s; precision := precision s;
     mode := mode s; operatingMode := operatingMode s; schedule := schedule s;
     boostActive := boostActive s; boostTemp := boostTemp s;
     boostEndTime := boostEndTime s; awayMode := awayMode s;
     awayTemp := awayTemp s; Kp := Kp s; Ki := Ki s; Kd := Kd s;
     integral := integral s; lastError := lastError s; lastTemp := lastTemp s;
     lastOutput := lastOutput s; lastUpdateTime := lastUpdateTime s;
     learningPhase := learningPhase s;
     temperatureHistory := temperatureHistory s;
     learningStartTime := learningStartTime s;
     learningComplete := learningComplete s;
     performanceHistory := performanceHistory s; trendWindow := trendWindow s;
     parametersChanged := v |}.

(** ** Construction *)

(** The configuration object handed to the constructor; [None] is a missing
    entry. *)
Record Config : Type := mkConfig {
  cfg_minTemp : option Q;
  cfg_maxTemp : option Q;
  cfg_targetTemp : option Q;
  cfg_hysteresis : option Q;
  cfg_sampleInterval : option Q;
  cfg_learningEnabled : option bool;
  cfg_maxOutputChange : option Q;
  cfg_precision : option Q;
  cfg_mode : string;
  cfg_operatingMode : string;
  cfg_schedule : option Schedule;
  cfg_awayTemp : option Q;
  cfg_Kp : option Q;
  cfg_Ki : option Q;
  cfg_Kd : option Q
}.

(** [s || d] on strings: the empty (or missing) string is falsy. *)
Definition str_or (s d : string) : string :=
  if String.eqb s "" then d else s.

(** [constructor(config)]. *)
Definition constructor (config : Config) : Controller :=
  let learning :=
    match cfg_learningEnabled config with Some false => false | _ => true end in
  {| minTemp := or_default (cfg_minTemp config) 15;
     maxTemp := or_default (cfg_maxTemp config) 25;
     targetTemp := or_default (cfg_targetTemp config) 21;
     baseTargetTemp := or_default (cfg_targetTemp config) 21;
     hysteresis := or_default (cfg_hysteresis config) 0.2;
     sampleInterval := or_default (cfg_sampleInterval config) 60000;
     learningEnabled := learning;
     maxOutputChange := or_default (cfg_maxOutputChange config) 0.5;
     precision := or_default (cfg_precision config) 0.5;
     mode := str_or (cfg_mode config) "heat";
     operatingMode := str_or (cfg_operatingMode config) "manual";
     schedule := cfg_schedule config;
     boostActive := false;
     boostTemp := None;
     boostEndTime := None;
     awayMode := false;
     awayTemp := or_default (cfg_awayTemp config) 16;
     Kp := or_default (cfg_Kp config) 1;
     Ki := or_default (cfg_Ki config) 0.02;
     Kd := or_default (cfg_Kd config) 0.5;
     integral := 0;
     lastError := 0;
     lastTemp := None;
     lastOutput := None;
     lastUpdateTime := None;
     learningPhase := learning;
     temperatureHistory := [];
     learningStartTime := None;
     learningComplete := false;
     performanceHistory := [];
     trendWindow := [];
     parametersChanged := false |}.

(** The configuration the node builds when every entry of its form is left
    empty. *)
Definition defaultConfig : Config :=
  {| cfg_minTemp := None; cfg_maxTemp := None; cfg_targetTemp := None;
     cfg_hysteresis := None; cfg_sampleInterval := None;
     cfg_learningEnabled := None; cfg_maxOutputChange := None;
     cfg_precision := None; cfg_mode := "heat"; cfg_operatingMode := "manual";
     cfg_schedule := None; cfg_awayTemp := None;
     cfg_Kp := None; cfg_Ki := None; cfg_Kd := None |}.

(** ** Rounding and the result record *)

(** [roundToPrecision(value)]. *)
Definition roundToPrecision (s : Controller) (value : Q) : Q :=
  inject_Z (Math_round (value / precision s)) * precision s.

(** The record [{ P, I, D, adjustment }] that [calculatePID] returns (the
    one-letter names are taken in Rocq, hence the prefix). *)
Record PidResult : Type := mkPidResult {
  pid_P : Q;
  pid_I : Q;
  pid_D : Q;
  adjustment : Q
}.

(** [Math.round(x * 100) / 100]. *)
Definition round2 (x : Q) : Q := inject_Z (Math_round (x * 100)) / 100.

(** The entries of the debug record that the activation latch and the
    properties below read; the remaining entries of the source's record are
    copies of instance fields. *)
Record Debug : Type := mkDebug {
  d_currentTemp : Q;
  d_targetTemp : Q;
  d_setpoint : Q;
  d_error : Q;
  d_trend : string;
  d_mode : string;
  d_activeMode : string;
  d_learningComplete : bool;
  d_operatingMode : string;
  d_pidTerms : option (Q * Q * Q)
}.

Record Result : Type := mkResult {
  output : Q;
  debug : Debug
}.

(** [createOutput(output, currentTemp, error, trend, pidResult, activeMode)]. *)
Definition createOutput (s : Controller) (out currentTemp error : Q)
    (trend : string) (pidResult : option PidResult) (activeMode : string)
    : Result :=
  {| output := roundToPrecision s out;
     debug :=
       {| d_currentTemp := currentTemp;
          d_targetTemp := targetTemp s;
          d_setpoint := roundToPrecision s out;
          d_error := round2 error;
          d_trend := trend;
          d_mode := mode s;
          d_activeMode := str_or activeMode (mode s);
          d_learningComplete := learningComplete s;
          d_operatingMode := operatingMode s;
          d_pidTerms :=
            match pidResult with
            | Some r => Some (round2 (pid_P r), round2 (pid_I r), round2 (pid_D r))
            | None => None
            end |} |}.

(** ** Setters *)

(** [typeof v === 'number' && !isNaN(v)]. *)
Definition numeric (v : jsval) : bool :=
  match v with JNum _ | JInf _ => true | _ => false end.

(** [setSetpoint(temp)]: a number that is not [NaN] becomes the base target,
    clamped; everything else is ignored.  An infinity clamps to the bound on
    its side. *)
Definition setSetpoint (arg : jsval) (s : Controller) : Controller :=
  let accept (t : Q) :=
    set_integral 0 (set_targetTemp t (set_baseTargetTemp t s)) in
  match arg with
  | JNum x => accept (clamp x (minTemp s) (maxTemp s))
  | JInf false => accept (maxTemp s)
  | JInf true => accept (Qmin (minTemp s) (maxTemp s))
  | _ => s
  end.

(** [list.includes(v)] for a list of strings: only a string can be strictly
    equal to a member. *)
Definition includes (l : list string) (v : jsval) : option string :=
  match v with
  | JStr x => if existsb (String.eqb x) l then Some x else None
  | _ => None
  end.

(** [setOperatingMode(mode)]. *)
Definition setOperatingMode (arg : jsval) (s : Controller) : Controller :=
  match includes ["manual"; "schedule"; "off"] arg with
  | Some m => set_integral 0 (set_operatingMode m s)
  | None => s
  end.

(** The string an argument is converted to when it indexes an object.  The
    key of a number is made of digits, sign, point and exponent (or is
    ["NaN"], ["Infinity"]); no such key occurs in the objects indexed below,
    which [None] records. *)
Definition propertyKey (v : jsval) : option string :=
  match v with
  | JStr x => Some x
  | JObj k => Some k
  | JUndefined => Some "undefined"
  | JNull => Some "null"
  | JBool true => Some "true"
  | JBool false => Some "false"
  | JNum _ | JNaN | JInf _ => None
  end.

(** Property names every object literal inherits from [Object.prototype]; the
    value found under them is a function or object, never a string. *)
Definition inheritedKeys : list string :=
  ["constructor"; "hasOwnProperty"; "isPrototypeOf"; "propertyIsEnumerable";
   "toLocaleString"; "toString"; "valueOf"; "__proto__"; "__defineGetter__";
   "__defineSetter__"; "__lookupGetter__"; "__lookupSetter__"].

(** [modeMap[mode]] for the literal
    [{ heating: 'heat', cooling: 'cool', auto: 'heat_cool' }]; [None] is
    [undefined]. *)
Definition modeMap (v : jsval) : option jsval :=
  match propertyKey v with
  | Some k =>
      if String.eqb k "heating" then Some (JStr "heat")
      else if String.eqb k "cooling" then Some (JStr "cool")
      else if String.eqb k "auto" then Some (JStr "heat_cool")
      else if existsb (String.eqb k) inheritedKeys then Some (JObj k)
      else None
  | None => None
  end.

(** [setMode(mode)]: legacy names are mapped first, then the normalized value
    must be one of the three thermal modes. *)
Definition setMode (arg : jsval) (s : Controller) : Controller :=
  let normalizedMode := match modeMap arg with Some v => v | None => arg end in
  match includes ["heat"; "cool"; "heat_cool"] normalizedMode with
  | Some m => set_integral 0 (set_mode m s)
  | None => s
  end.

(** [setSchedule(schedule)]; [None] is an argument that is not an object. *)
Definition setSchedule (arg : option Schedule) (s : Controller) : Controller :=
  match arg with
  | Some sch => set_schedule (Some sch) s
  | None => s
  end.

(** The argument of [setBoost]: [false], or an object whose [temp] and
    [duration] have been read with [parseFloat] and [parseInt] ([None] is
    [NaN]); [BoostOther] is any other value. *)
Inductive BoostArg : Type :=
  | BoostFalse
  | BoostObject (btemp : option Q) (duration : option Z)
  | BoostOther.

(** [setBoost(boost)]. *)
Definition setBoost (clk : Clock) (arg : BoostArg) (s : Controller) : Controller :=
  match arg with
  | BoostFalse => set_boost false None None s
  | BoostObject (Some t) (Some d) =>
      if (0 <? d)%Z
      then set_boost true (Some (clamp t (minTemp s) (maxTemp s)))
                     (Some (now clk + d * 60 * 1000)%Z) s
      else s
  | _ => s
  end.


(** [hasParametersChanged()]: the flag, and the instance with the flag
    cleared. *)
Definition hasParametersChanged (s : Controller) : bool * Controller :=
  (parametersChanged s, set_parametersChanged false s).

(** ** Target resolution *)

(** [checkBoostExpiry()]. *)
Definition checkBoostExpiry (clk : Clock) (s : Controller) : Controller :=
  if boostActive s && truthyZ (boostEndTime s) &&
     match boostEndTime s with Some e => (e <? now clk)%Z | None => false end
  then set_boost false None None s
  else s.

Definition dayNames : list string :=
  ["sunday"; "monday"; "tuesday"; "wednesday"; "thursday"; "friday"; "saturday"].

(** [this.schedule[dayNames[i]]] reduced to what the source asks of it: the
    array when the entry is a non-empty array, the empty array otherwise. *)
Definition daySlots (sch : Schedule) (i : nat) : DaySchedule :=
  match dayNames !! i with
  | Some d => default NoSlots (days sch !! d)
  | None => NoSlots
  end.

(** [str.split(c)]. *)
Fixpoint split (c : ascii) (str : string) : list string :=
  match str with
  | EmptyString => [EmptyString]
  | String a rest =>
      if Ascii.eqb a c then EmptyString :: split c rest
      else match split c rest with
           | piece :: pieces => String a piece :: pieces
           | [] => [String a EmptyString]
           end
  end.

(** *** [Number(str)]

    The conversion of a string to a number: blanks around the literal are
    dropped; the empty literal is 0; a literal is a binary, octal or
    hexadecimal integer ([0b], [0o], [0x], unsigned), or an optional sign
    followed by [Infinity] or by decimal digits with an optional fraction and
    an optional exponent; anything else is [NaN].  The value is the rational
    the literal denotes: as for all arithmetic of the model, the rounding of
    that value to a double (and with it the overflow of a literal beyond the
    largest double to an infinity) is left out. *)

(** The blanks: tab, line feed, vertical tab, form feed, carriage return and
    space, by their byte. *)
Definition blank1 (a : N) : bool :=
  ((9 <=? a) && (a <=? 13) || (a =? 32))%N.

(** The no-break space U+00A0, in two bytes. *)
Definition blank2 (a b : N) : bool :=
  ((a =? 194) && (b =? 160))%N.

(** The blanks of three bytes: U+1680, U+2000 to U+200A, the line and
    paragraph separators U+2028 and U+2029, U+202F, U+205F, U+3000 and the
    byte order mark U+FEFF. *)
Definition blank3 (a b c : N) : bool :=
  ((a =? 225) && (b =? 154) && (c =? 128) ||
   (a =? 226) && (b =? 128) &&
     ((128 <=? c) && (c <=? 138) || (c =? 168) || (c =? 169) || (c =? 175)) ||
   (a =? 226) && (b =? 129) && (c =? 159) ||
   (a =? 227) && (b =? 128) && (c =? 128) ||
   (a =? 239) && (b =? 187) && (c =? 191))%N.

(** The bytes left once the leading blanks are dropped.  With [backwards] the
    bytes come last byte first, and so do the bytes of each blank. *)
Fixpoint dropBlanks (backwards : bool) (l : list N) : list N :=
  match l with
  | a :: l1 =>
      if blank1 a then dropBlanks backwards l1
      else
        match l1 with
        | b :: l2 =>
            if (if backwards then blank2 b a else blank2 a b)
            then dropBlanks backwards l2
            else
              match l2 with
              | c :: l3 =>
                  if (if backwards then blank3 c b a else blank3 a b c)
                  then dropBlanks backwards l3
                  else l
              | [] => l
              end
        | [] => l
        end
  | [] => []
  end.

(** The bytes of [str] without the blanks at either end. *)
Definition trimBlanks (str : string) : list N :=
  rev (dropBlanks true
         (rev (dropBlanks false (map N_of_ascii (list_ascii_of_string str))))).

(** The value of a digit in a radix of at most 16, if the byte is one. *)
Definition digitValue (radix a : N) : option N :=
  let v :=
    if ((48 <=? a) && (a <=? 57))%N then Some (a - 48)%N
    else if ((97 <=? a) && (a <=? 102))%N then Some (a - 87)%N
    else if ((65 <=? a) && (a <=? 70))%N then Some (a - 55)%N
    else None in
  match v with
  | Some d => if (d <? radix)%N then Some d else None
  | None => None
  end.

(** The value of a run of digits that makes up the whole of [l]; the empty
    run has the value [acc]. *)
Fixpoint digitsValue (radix : N) (l : list N) (acc : N) : option N :=
  match l with
  | [] => Some acc
  | a :: rest =>
      match digitValue radix a with
      | Some d => digitsValue radix rest (acc * radix + d)%N
      | None => None
      end
  end.

(** The longest run of decimal digits at the head of [l], and the rest. *)
Fixpoint leadingDigits (l : list N) : list N * list N :=
  match l with
  | a :: rest =>
      if ((48 <=? a) && (a <=? 57))%N
      then let '(ds, tail) := leadingDigits rest in (a :: ds, tail)
      else ([], l)
  | [] => ([], [])
  end.

(** [0b...], [0o...], [0x...] with at least one digit, prefix letter in
    either case. *)
Definition nonDecimalLiteral (l : list N) : option N :=
  match l with
  | 48%N :: x :: ((_ :: _) as ds) =>
      if ((x =? 98) || (x =? 66))%N then digitsValue 2 ds 0
      else if ((x =? 111) || (x =? 79))%N then digitsValue 8 ds 0
      else if ((x =? 120) || (x =? 88))%N then digitsValue 16 ds 0
      else None
  | _ => None
  end.

(** The exponent part after the mantissa: nothing, or [e] or [E], an optional
    sign and at least one digit. *)
Definition exponentPart (l : list N) : option Z :=
  match l with
  | [] => Some 0%Z
  | x :: rest =>
      if ((x =? 101) || (x =? 69))%N
      then
        match rest with
        | 43%N :: ((_ :: _) as ds) =>
            option_map Z.of_N (digitsValue 10 ds 0)
        | 45%N :: ((_ :: _) as ds) =>
            option_map (fun e => (- Z.of_N e)%Z) (digitsValue 10 ds 0)
        | _ :: _ => option_map Z.of_N (digitsValue 10 rest 0)
        | [] => None
        end
      else None
  end.

(** Two byte sequences are the same. *)
Fixpoint sameBytes (a b : list N) : bool :=
  match a, b with
  | [], [] => true
  | x :: a', y :: b' => (x =? y)%N && sameBytes a' b'
  | _, _ => false
  end.

(** [mantissa * 10 ^ scale]. *)
Definition scaled (mantissa : N) (scale : Z) : Q :=
  if (0 <=? scale)%Z
  then inject_Z (Z.of_N mantissa * 10 ^ scale)
  else Qmake (Z.of_N mantissa) (Z.to_pos (10 ^ (- scale))).

(** An unsigned decimal literal: [Infinity], or digits, an optional point
    with an optional fraction, and an optional exponent, with at least one
    digit before the exponent. *)
Definition unsignedDecimalLiteral (l : list N) : number :=
  if sameBytes l [73; 110; 102; 105; 110; 105; 116; 121]%N
  then Infty false
  else
    let '(whole, afterWhole) := leadingDigits l in
    let '(fraction, afterFraction) :=
      match afterWhole with
      | 46%N :: rest => leadingDigits rest
      | _ => ([], afterWhole)
      end in
    match whole ++ fraction with
    | [] => Nan
    | mantissa =>
        match digitsValue 10 mantissa 0, exponentPart afterFraction with
        | Some m, Some e => Finite (scaled m (e - Z.of_nat (length fraction)))
        | _, _ => Nan
        end
    end.

(** [- a]. *)
Definition number_opp (a : number) : number :=
  match a with
  | Nan => Nan
  | Infty negative => Infty (negb negative)
  | Finite x => Finite (- x)
  end.

(** [Number(str)]. *)
Definition Number (str : string) : number :=
  match trimBlanks str with
  | [] => Finite 0
  | l =>
      match nonDecimalLiteral l with
      | Some n => Finite (inject_Z (Z.of_N n))
      | None =>
          match l with
          | 43%N :: rest => unsignedDecimalLiteral rest
          | 45%N :: rest => number_opp (unsignedDecimalLiteral rest)
          | _ => unsignedDecimalLiteral l
          end
      end
  end.

(** [slotHours * 60 + (slotMins || 0)] after
    [[slotHours, slotMins] = slot.time.split(':').map(Number)]; a time
    without a colon leaves [slotMins] undefined. *)
Definition slotMinutes (slot : Slot) : number :=
  match map Number (split ":" (time slot)) with
  | slotHours :: rest =>
      number_add (number_scale slotHours 60) (number_or_zero (head rest))
  | [] => Nan
  end.

(** [slot.temp !== undefined]. *)
Definition hasTemp (slot : Slot) : bool :=
  match temp slot with Some _ => true | None => false end.

(** The loop of [getScheduledTemp]: [activeSlot] becomes each slot that has a
    [time] and a [temp] and lies at or before [currentTime]; the last such
    slot, in list order, remains. *)
Definition findActiveSlot (daySchedule : list Slot) (currentTime : Q)
    : option Slot :=
  fold_left
    (fun activeSlot slot =>
       if negb (String.eqb (time slot) "") && hasTemp slot
       then if number_le (slotMinutes slot) currentTime
            then Some slot
            else activeSlot
       else activeSlot)
    daySchedule None.

(** [getScheduledTemp()]. *)
Definition getScheduledTemp (clk : Clock) (s : Controller) : Q :=
  match schedule s with
  | None => baseTargetTemp s
  | Some sch =>
      let t := getTimeInTimezone clk (timezone sch) in
      let daySchedule := daySlots sch (dayIndex t) in
      let yesterdayIndex := ((dayIndex t + 6) mod 7)%nat in
      let yesterdaySchedule := daySlots sch yesterdayIndex in
      match daySchedule with
      | NoSlots =>
          match yesterdaySchedule with
          | Slots _ _ lastTemp => lastTemp
          | NoSlots => baseTargetTemp s
          end
      | Slots _ _ _ =>
          let currentTime := inject_Z (hours t * 60 + minutes t) in
          let activeSlot :=
            match findActiveSlot (slotsOf daySchedule) currentTime with
            | Some slot => Some slot
            | None => lastSlot yesterdaySchedule
            end in
          match activeSlot with
          | Some slot =>
              match temp slot with
              | Some v => v
              | None => baseTargetTemp s
              end
          | None => baseTargetTemp s
          end
      end
  end.

(** [calculateEffectiveTarget()]. *)
Definition calculateEffectiveTarget (clk : Clock) (s : Controller) : Controller :=
  let effectiveTemp := baseTargetTemp s in
  let effectiveTemp :=
    match schedule s with
    | Some _ => getScheduledTemp clk s
    | None => effectiveTemp
    end in
  let effectiveTemp :=
    if awayMode s then Qmin effectiveTemp (awayTemp s) else effectiveTemp in
  let effectiveTemp :=
    match boostActive s, boostTemp s with
    | true, Some b => b
    | _, _ => effectiveTemp
    end in
  set_targetTemp (clamp effectiveTemp (minTemp s) (maxTemp s)) s.

(** [syncSchedule()]: the recomputed target and the instance holding it. *)
Definition syncSchedule (clk : Clock) (s : Controller) : Q * Controller :=
  let s' := calculateEffectiveTarget clk s in (targetTemp s', s').

(** ** PID core *)

(** [calculatePID(error, dt, activeMode)]. *)
Definition calculatePID (error dt : Q) (activeMode : string) (s : Controller)
    : PidResult * Controller :=
  let absError := Qabs error in
  let P := Kp s * absError in
  let integral1 :=
    if String.eqb activeMode "heat"
    then integral s + error * dt
    else integral s + (- error) * dt in
  let divisor := if Qeq_bool (2 * Ki s) 0 then 1 else 2 * Ki s in
  let integralLimit := (maxTemp s - minTemp s) / divisor in
  let integral2 := clamp integral1 0 integralLimit in
  let I := Ki s * integral2 in
  let errorChange := Qabs error - Qabs (lastError s) in
  let derivative := if Qltb 0 dt then errorChange / dt else 0 in
  let D := Kd s * derivative in
  ({| pid_P := P; pid_I := I; pid_D := D; adjustment := P + I + D |},
   set_integral integral2 s).

(** ** History and trend *)

(** [recordTemperature(temp, timestamp)]. *)
Definition recordTemperature (t : Q) (ts : Z) (s : Controller) : Controller :=
  let oneHourAgo := (ts - 3600000)%Z in
  let history :=
    filter (fun r => (oneHourAgo < timestamp r)%Z)
           (temperatureHistory s ++ [mkReading t ts]) in
  let window := trendWindow s ++ [t] in
  let window :=
    if (trendWindowSize <? length window)%nat then tail window else window in
  set_trendWindow window (set_temperatureHistory history s).

(** [detectTrend()]. *)
Definition detectTrend (s : Controller) : string :=
  if (length (trendWindow s) <? 3)%nat then "unknown"
  else
    let first := default 0 (head (trendWindow s)) in
    let final := default 0 (last (trendWindow s)) in
    let diff := final - first in
    if Qltb 0.1 diff then "heating"
    else if Qltb diff (-0.1) then "cooling"
    else "stable".

(** ** Learning *)

Record Characteristics : Type := mkCharacteristics {
  timeConstant : Q;
  deadTime : Q
}.

(** The first loop of [estimateThermalCharacteristics]: the largest
    [|temps[i] - temps[0]|] seen so far and the first index reaching it. *)
Fixpoint scanMaxChange (t0 : Q) (temps : list Q) (i : nat) (acc : Q * nat)
    : Q * nat :=
  match temps with
  | [] => acc
  | x :: rest =>
      let change := Qabs (x - t0) in
      scanMaxChange t0 rest (S i) (if Qltb (fst acc) change then (change, i) else acc)
  end.

(** The two search loops: the first index below [changeEndIdx] whose
    temperature has reached [target] in the direction of the change. *)
Fixpoint firstReaching (t0 tEnd target : Q) (temps : list Q) (i : nat)
    : option nat :=
  match temps with
  | [] => None
  | x :: rest =>
      if (Qltb t0 tEnd && Qle_bool target x) || (Qltb tEnd t0 && Qle_bool x target)
      then Some i
      else firstReaching t0 tEnd target rest (S i)
  end.

(** [estimateThermalCharacteristics()]. *)
Definition estimateThermalCharacteristics (s : Controller) : Characteristics :=
  if (length (temperatureHistory s) <? 10)%nat then mkCharacteristics 0 0
  else
    let temps := map rtemp (temperatureHistory s) in
    let times := map timestamp (temperatureHistory s) in
    let at_temp i := default 0 (temps !! i) in
    let at_time i := default 0%Z (times !! i) in
    let t0 := at_temp 0%nat in
    let '(maxChange, changeEndIdx) := scanMaxChange t0 (tail temps) 1 (0, 0%nat) in
    if Qltb maxChange 0.5 then mkCharacteristics 0 0
    else
      let tEnd := at_temp changeEndIdx in
      let target63 := t0 + 0.632 * (tEnd - t0) in
      let timeConstantIdx :=
        default changeEndIdx
          (firstReaching t0 tEnd target63 (take changeEndIdx temps) 0) in
      let tc := inject_Z (at_time timeConstantIdx - at_time 0%nat) / 1000 in
      let target10 := t0 + 0.1 * (tEnd - t0) in
      let deadTimeIdx :=
        default 0%nat
          (firstReaching t0 tEnd target10 (take changeEndIdx temps) 0) in
      let dead := inject_Z (at_time deadTimeIdx - at_time 0%nat) / 1000 in
      mkCharacteristics tc dead.

(** The bounds every tuning step re-imposes on the gains. *)
Definition limitGains (s : Controller) : Controller :=
  let s := set_Kp (clamp (Kp s) 0.1 5) s in
  let s := set_Ki (clamp (Ki s) 0.001 0.5) s in
  set_Kd (clamp (Kd s) 0 2) s.

(** [adaptPIDParameters(characteristics)]. *)
Definition adaptPIDParameters (c : Characteristics) (s : Controller) : Controller :=
  if Qle_bool (timeConstant c) 0 || Qle_bool (deadTime c) 0 then s
  else
    let ratio := deadTime c / timeConstant c in
    let s :=
      if Qltb ratio 0.1 then
        let kp := 1.35 / ratio in
        set_Kd (kp * 0.37 * deadTime c)
          (set_Ki (kp / (2.5 * deadTime c)) (set_Kp kp s))
      else if Qltb ratio 0.5 then
        let kp := (1.35 + 0.25 * ratio) / ratio in
        set_Kd (kp * (0.37 - 0.3 * ratio) * deadTime c)
          (set_Ki (kp / ((2.5 - 2.0 * ratio) * deadTime c)) (set_Kp kp s))
      else
        let kp := 0.9 / ratio in
        set_Kd (kp * 0.2 * deadTime c)
          (set_Ki (kp / (3.3 * deadTime c)) (set_Kp kp s)) in
    set_parametersChanged true (limitGains s).

(** [learn(currentTemp, error, dt)]; the three arguments are not read. *)
Definition learn (clk : Clock) (s : Controller) : Controller :=
  let s :=
    if truthyZ (learningStartTime s) then s
    else set_learningStartTime (Some (now clk)) s in
  if (length (temperatureHistory s) <? samplesNeeded)%nat then s
  else
    let characteristics := estimateThermalCharacteristics s in
    let s :=
      if Qltb 0 (timeConstant characteristics) && Qltb 0 (deadTime characteristics)
      then set_learningPhase false
             (set_learningComplete true (adaptPIDParameters characteristics s))
      else s in
    let learningDuration := (now clk - default 0 (learningStartTime s))%Z in
    if (3600000 <? learningDuration)%Z
    then set_learningPhase false (set_learningComplete true s)
    else s.

(** ** Continuous adaptation *)

(** [array.reduce((a, b) => a + b, 0)]. *)
Definition sum (l : list Q) : Q := fold_left Qplus l 0.

(** [continuousAdaptation()]. *)
Definition continuousAdaptation (s : Controller) : Controller :=
  if (length (performanceHistory s) <? adaptationInterval)%nat then s
  else
    let recentErrors :=
      drop (length (performanceHistory s) - adaptationInterval)
           (performanceHistory s) in
    let n := inject_Z (Z.of_nat (length recentErrors)) in
    let avgError := sum recentErrors / n in
    let variance :=
      sum (map (fun e => (e - avgError) * (e - avgError)) recentErrors) / n in
    let oldKp := Kp s in
    let oldKd := Kd s in
    let s1 :=
      if sqrt_gt variance (avgError * 0.5)
      then set_Kd (Kd s * 0.95) (set_Kp (Kp s * 0.95) s)
      else if Qltb (hysteresis s * 2) avgError
      then set_Kp (Kp s * 1.02) s
      else s in
    let s2 := limitGains s1 in
    if negb (Qeq_bool (Kp s2) oldKp) || negb (Qeq_bool (Kd s2) oldKd)
    then set_parametersChanged true s2
    else s2.

(** [trackPerformance(error)]. *)
Definition trackPerformance (error : Q) (s : Controller) : Controller :=
  let history := performanceHistory s ++ [Qabs error] in
  let history := if (1000 <? length history)%nat then tail history else history in
  let s := set_performanceHistory history s in
  if (adaptationInterval <=? length history)%nat &&
     (length history mod adaptationInterval =? 0)%nat
  then continuousAdaptation s
  else s.

(** ** The control cycle *)

(** The elapsed time [dt] in seconds that [update] measures. *)
Definition elapsed (clk : Clock) (s : Controller) : Q :=
  if truthyZ (lastUpdateTime s)
  then inject_Z (now clk - default 0%Z (lastUpdateTime s)) / 1000
  else sampleInterval s / 1000.

(** The head of [update]: stamp the call, expire the boost, resolve the
    target. *)
Definition beginCycle (clk : Clock) (s : Controller) : Controller :=
  calculateEffectiveTarget clk
    (checkBoostExpiry clk (set_lastUpdateTime (Some (now clk)) s)).

(** The two early returns of [update] for a room that is already past the
    target in the direction the mode pushes. *)
Definition modeMismatch (s : Controller) (error : Q) : bool :=
  (String.eqb (mode s) "heat" && Qltb error 0) ||
  (String.eqb (mode s) "cool" && Qltb 0 error).

(** The setpoint before clamping and rounding: PID bias, minimum step, rate
    limit. *)
Definition shapeOutput (s : Controller) (activeMode : string) (inHysteresis : bool)
    (adj : Q) : Q :=
  let rawOutput :=
    if String.eqb activeMode "cool" then
      let raw := targetTemp s - adj in
      let maxCool := targetTemp s - precision s in
      if negb inHysteresis && Qltb maxCool raw then maxCool else raw
    else
      let raw := targetTemp s + adj in
      let minHeat := targetTemp s + precision s in
      if negb inHysteresis && Qltb raw minHeat then minHeat else raw in
  match lastOutput s with
  | Some previous =>
      let maxChange := maxOutputChange s in
      let change := rawOutput - previous in
      if Qltb maxChange (Qabs change)
      then previous + Math_sign change * maxChange
      else rawOutput
  | None => rawOutput
  end.

(** The direction in force during a cycle: [activeMode] in [update]. *)
Definition activeModeOf (s : Controller) (error : Q) : string :=
  if String.eqb (mode s) "heat_cool"
  then (if Qltb 0 error then "heat" else "cool")
  else mode s.

(** The early return of [update] for a room past the target: emit the
    target, store it as last setpoint, relax the accumulator. *)
Definition idleCycle (currentTemp error : Q) (activeMode : string)
    (s : Controller) : Result * Controller :=
  let out := roundToPrecision s (targetTemp s) in
  let s := set_lastOutput (Some out) s in
  let s := set_integral (Qmax 0 (integral s - Qabs error)) s in
  (createOutput s out currentTemp error "idle" None activeMode, s).

(** The rest of [update] once neither early return applies: learning step,
    PID, shaping, bookkeeping, adaptation, trend. *)
Definition regulate (clk : Clock) (currentTemp error dt : Q)
    (activeMode : string) (inHysteresis : bool) (s : Controller)
    : Result * Controller :=
  let s :=
    if learningPhase s && negb (learningComplete s) then learn clk s else s in
  let '(pidResult, s) := calculatePID error dt activeMode s in
  let rawOutput := shapeOutput s activeMode inHysteresis (adjustment pidResult) in
  let out := roundToPrecision s (clamp rawOutput (minTemp s) (maxTemp s)) in
  let s := set_lastError error s in
  let s := set_lastTemp (Some currentTemp) s in
  let s := set_lastOutput (Some out) s in
  let s := if negb (learningPhase s) then trackPerformance error s else s in
  let trend := if inHysteresis then "stable" else detectTrend s in
  (createOutput s out currentTemp error trend (Some pidResult) activeMode, s).

(** [update(currentTemp)]: the result record and the instance after the
    call. *)
Definition update (clk : Clock) (currentTemp : Q) (s : Controller)
    : Result * Controller :=
  let dt := elapsed clk s in
  let s := beginCycle clk s in
  if String.eqb (operatingMode s) "off" then
    let offOutput := roundToPrecision s (minTemp s) in
    (createOutput s offOutput currentTemp 0 "off" None (mode s), s)
  else
    let s := recordTemperature currentTemp (now clk) s in
    let error := targetTemp s - currentTemp in
    let activeMode := activeModeOf s error in
    let inHysteresis := Qltb (Qabs error) (hysteresis s) in
    if modeMismatch s error
    then idleCycle currentTemp error activeMode s
    else regulate clk currentTemp error dt activeMode inHysteresis s.

(** A run of the controller: the instance after each sample of a sequence. *)
Fixpoint run (s : Controller) (samples : list (Clock * Q)) : list Controller :=
  match samples with
  | [] => []
  | (clk, t) :: rest => let s' := snd (update clk t s) in s' :: run s' rest
  end.

(** ** The activation latch of the node *)

(** The two latch variables the input handler keeps between messages. *)
Record Latch : Type := mkLatch {
  wasHeatingActive : bool;
  wasCoolingActive : bool
}.

(** The proactive condition of the cooling direction as the handler computes
    it: [setpointBelowTarget && tempRising && error < 0]. *)
Definition coolingProactive (prec : Q) (result : Result) : bool :=
  let setpointBelowTarget :=
    Qltb (output result) (d_targetTemp (debug result) - prec) in
  let tempRising := String.eqb (d_trend (debug result)) "warming" in
  setpointBelowTarget && tempRising && Qltb (d_error (debug result)) 0.

(** The proactive condition of the heating direction:
    [setpointAboveTarget && tempFalling && error > 0]. *)
Definition heatingProactive (prec : Q) (result : Result) : bool :=
  let setpointAboveTarget :=
    Qltb (d_targetTemp (debug result) + prec) (output result) in
  let tempFalling := String.eqb (d_trend (debug result)) "cooling" in
  setpointAboveTarget && tempFalling && Qltb 0 (d_error (debug result)).

(** The latch step of the input handler, from [controllerConfig.hysteresis],
    [controllerConfig.precision] and the result of [update]: the new latch
    and [isActive]. *)
Definition activation (hyst prec : Q) (result : Result) (l : Latch)
    : Latch * bool :=
  let activeMode := d_activeMode (debug result) in
  let error := d_error (debug result) in
  if String.eqb (d_operatingMode (debug result)) "off" then
    (mkLatch false false, false)
  else if String.eqb activeMode "heat" then
    let heating :=
      if Qltb hyst error then true
      else if heatingProactive prec result then true
      else if Qle_bool error 0 then false
      else wasHeatingActive l in
    (mkLatch heating (wasCoolingActive l), heating)
  else if String.eqb activeMode "cool" then
    let cooling :=
      if Qltb error (- hyst) then true
      else if coolingProactive prec result then true
      else if Qle_bool 0 error then false
      else wasCoolingActive l in
    (mkLatch (wasHeatingActive l) cooling, cooling)
  else (l, false).

(** One message through the node: the control cycle, then the latch, with
    the hysteresis and precision the controller was built from. *)
Definition onInput (clk : Clock) (currentTemp : Q) (sl : Controller * Latch)
    : Result * bool * (Controller * Latch) :=
  let '(s, l) := sl in
  let '(result, s') := update clk currentTemp s in
  let '(l', isActive) := activation (hysteresis s) (precision s) result l in
  (result, isActive, (s', l')).

(** A sequence of messages through the node: the result and [isActive] of
    each message, oldest first, from an instance and latch. *)
Fixpoint feed (sl : Controller * Latch) (samples : list (Clock * Q))
    : list (Result * bool) :=
  match samples with
  | [] => []
  | (clk, t) :: rest =>
      let '(result, isActive, sl') := onInput clk t sl in
      (result, isActive) :: feed sl' rest
  end.

(** ** Notions used to state the properties *)

(** The instance of a cycle outside mode off once the reading is recorded. *)
Definition recorded (clk : Clock) (currentTemp : Q) (s : Controller) : Controller :=
  recordTemperature currentTemp (now clk) (beginCycle clk s).

(** The signed error [targetTemp - currentTemp] of a cycle, measured against
    the target the cycle resolves. *)
Definition cycleError (clk : Clock) (currentTemp : Q) (s : Controller) : Q :=
  targetTemp (recorded clk currentTemp s) - currentTemp.

(** A cycle regulates when it takes neither early return of [update]: the
    operating mode is not off and the room is not past the target in the
    direction of the mode. *)
Definition regulating (clk : Clock) (currentTemp : Q) (s : Controller) : bool :=
  negb (String.eqb (operatingMode s) "off") &&
  negb (modeMismatch (recorded clk currentTemp s) (cycleError clk currentTemp s)).

(** The instance of a regulating cycle when it reaches the PID step: reading
    recorded, learning step taken if learning is in progress. *)
Definition beforePID (clk : Clock) (currentTemp : Q) (s : Controller) : Controller :=
  let s := recorded clk currentTemp s in
  if learningPhase s && negb (learningComplete s) then learn clk s else s.

(** The fields a cycle reads and never writes. *)
Definition settings (s : Controller) : Q * Q * Q * Q * Q * string * string :=
  (minTemp s, maxTemp s, precision s, maxOutputChange s, hysteresis s,
   mode s, operatingMode s).

(** The anti-windup bound [(maxTemp - minTemp) / (2 * Ki)]. *)
Definition integralLimit (s : Controller) : Q :=
  (maxTemp s - minTemp s) / (2 * Ki s).

(** The invariants of the data model the accumulator bound rests on: ordered
    temperature bounds, an integral gain at or above the floor 0.001 that
    every tuning step imposes, and an accumulator within its bounds. *)
Definition wellFormed (s : Controller) : Prop :=
  minTemp s <= maxTemp s /\ 0.001 <= Ki s /\
  0 <= integral s <= integralLimit s.



(** ** Sample instances used to exercise the properties *)

Definition sampleSchedule : Schedule :=
  {| days := <["monday" := Slots [mkSlot "06:00" (Some 21)] "22:00" 18]>
             (<["tuesday" := Slots [] "06:30" 20]> ∅);
     timezone := None |}.

(** A clock reading instant [t], Tuesday 02:00 in every zone. *)
Definition tuesdayNight (t : Z) : Clock :=
  {| now := t; getTimeInTimezone := fun _ => mkTimeOfDay 2 2 0 |}.

(** A clock reading instant [t] with the time of day at Sunday 12:00. *)
Definition sundayNoon (t : Z) : Clock :=
  {| now := t; getTimeInTimezone := fun _ => mkTimeOfDay 0 12 0 |}.

(** The controller the node builds from an empty form. *)
Definition fresh : Controller := constructor defaultConfig.

(** The fresh controller after one reading of 20 degrees: it has pushed the
    setpoint to 23.0 and holds an integral of 60. *)
Definition warmedUp : Controller := snd (update (sundayNoon 1000) 20 fresh).

(** The fresh controller switched off. *)
Definition switchedOff : Controller := setOperatingMode (JStr "off") fresh.

(** A controller configured with the gains (5, 0.5, 2), and a step response
    sampled every five seconds: 20 degrees, then 20.2 from the second
    reading, then 21 from the twenty-first. *)
Definition tunedConfig : Config :=
  {| cfg_minTemp := None; cfg_maxTemp := None; cfg_targetTemp := None;
     cfg_hysteresis := None; cfg_sampleInterval := None;
     cfg_learningEnabled := None; cfg_maxOutputChange := None;
     cfg_precision := None; cfg_mode := "heat"; cfg_operatingMode := "manual";
     cfg_schedule := None; cfg_awayTemp := None;
     cfg_Kp := Some 5; cfg_Ki := Some 0.5; cfg_Kd := Some 2 |}.

Definition stepResponse (count : nat) : list (Clock * Q) :=
  map (fun i : nat =>
         (sundayNoon (1000 + 5000 * Z.of_nat i),
          if (i <? 1)%nat then 20 else if (i <? 20)%nat then 20.2 else 21))
      (seq 0 count).

(** The instance after the first 29 readings of the step response, and the
    clock of the thirtieth. *)
Definition beforeTuning : Controller :=
  default (constructor tunedConfig)
          (last (run (constructor tunedConfig) (stepResponse 29))).

Definition tuningClock : Clock := sundayNoon (1000 + 5000 * 29).


(** A cooling controller with the default settings and a room warming past
    the target of 21 degrees: the fifth reading stands 0.2 above the target
    while the five-sample window has risen by 0.3. *)
Definition coolingConfig : Config :=
  {| cfg_minTemp := None; cfg_maxTemp := None; cfg_targetTemp := None;
     cfg_hysteresis := None; cfg_sampleInterval := None;
     cfg_learningEnabled := None; cfg_maxOutputChange := None;
     cfg_precision := None; cfg_mode := "cool"; cfg_operatingMode := "manual";
     cfg_schedule := None; cfg_awayTemp := None;
     cfg_Kp := None; cfg_Ki := None; cfg_Kd := None |}.

Definition warmingReadings : list (Clock * Q) :=
  [(sundayNoon 60000, 20.9); (sundayNoon 120000, 21); (sundayNoon 180000, 21.2);
   (sundayNoon 240000, 21.2); (sundayNoon 300000, 21.2)].

(** The mirror image for heating: a room cooling to 0.2 below the target. *)
Definition coolingDownReadings : list (Clock * Q) :=
  [(sundayNoon 60000, 21.1); (sundayNoon 120000, 21); (sundayNoon 180000, 20.8);
   (sundayNoon 240000, 20.8); (sundayNoon 300000, 20.8)].

(** Readings of 20 degrees every five minutes, fourteen of them: the last one
    arrives 65 minutes after the first. *)
Definition sparseReadings : list (Clock * Q) :=
  map (fun i : nat => (sundayNoon (1000 + 300000 * Z.of_nat i), 20)) (seq 0 14).

(** The fresh controller after the first thirteen sparse readings, and the
    clock of the fourteenth. *)
Definition beforeTimeout : Controller :=
  default fresh (last (run fresh (take 13 sparseReadings))).

Definition timeoutClock : Clock := sundayNoon (1000 + 300000 * 13).

(** ** Tactics for field reads *)

(** Read a field through a field update.  Each step proves the read for
    arbitrary arguments and rewrites with it, so that the equation checked
    is about variables, not about the instance at hand. *)
Ltac field_step :=
  match goal with
  | |- context [?f (set_boost ?a ?b ?c ?s)] =>
      let H := fresh "Hfield" in
      first
        [ assert (H : forall a' b' c' s', f (set_boost a' b' c' s') = f s')
            by (intros; reflexivity)
        | assert (H : forall a' b' c' s', f (set_boost a' b' c' s') = a')
            by (intros; reflexivity)
        | assert (H : forall a' b' c' s', f (set_boost a' b' c' s') = b')
            by (intros; reflexivity)
        | assert (H : forall a' b' c' s', f (set_boost a' b' c' s') = c')
            by (intros; reflexivity) ];
      rewrite !H; clear H
  | |- context [?f (?g ?v ?s)] =>
      match type of (g v s) with Controller => idtac end;
      match type of s with Controller => idtac end;
      let H := fresh "Hfield" in
      first
        [ assert (H : forall v' s', f (g v' s') = f s') by (intros; reflexivity)
        | assert (H : forall v' s', f (g v' s') = v') by (intros; reflexivity) ];
      rewrite !H; clear H
  end.

Ltac fields := repeat field_step.

Ltac fields_in H := revert H; fields; intros H.

Ltac fields_cbv :=
  cbv [
       set_targetTemp set_baseTargetTemp set_mode set_operatingMode
       set_schedule set_boost set_awayMode set_awayTemp set_Kp set_Ki set_Kd
       set_integral set_lastError set_lastTemp set_lastOutput
       set_lastUpdateTime set_learningPhase set_learningComplete
       set_temperatureHistory set_learningStartTime set_performanceHistory
       set_trendWindow set_parametersChanged minTemp maxTemp targetTemp
       baseTargetTemp hysteresis sampleInterval learningEnabled
       maxOutputChange precision mode operatingMode schedule boostActive
       boostTemp boostEndTime awayMode awayTemp Kp Ki Kd integral lastError
       lastTemp lastOutput lastUpdateTime learningPhase temperatureHistory
       learningStartTime learningComplete performanceHistory trendWindow
       parametersChanged].

(** Close an equation between two instances built from the same instance by
    field updates. *)
Ltac same_instance s := destruct s; fields_cbv; reflexivity.

(** ** Further methods of the controller *)

(** The test of the scan of [getCurrentScheduleSlot]: the slot has a
    [time], and [slotMinutes <= currentTime] (false for [NaN]). *)
Definition atOrBefore (currentTime : Q) (slot : Slot) : bool :=
  negb (String.eqb (time slot) "") &&
  number_le (slotMinutes slot) currentTime.

(** [getCurrentScheduleSlot()]: the scan runs from the last slot of today
    backwards and stops at the first slot at or before the current time,
    whether or not it has a [temp]; [None] is [null]. *)
Definition getCurrentScheduleSlot (clk : Clock) (s : Controller) : option Slot :=
  match schedule s with
  | None => None
  | Some sch =>
      let t := getTimeInTimezone clk (timezone sch) in
      let daySchedule := daySlots sch (dayIndex t) in
      match daySchedule with
      | NoSlots => None
      | Slots _ _ _ =>
          let currentTime := inject_Z (hours t * 60 + minutes t) in
          List.find (atOrBefore currentTime) (rev (slotsOf daySchedule))
      end
  end.

(** The object [getState()] returns and [setState(state)] reads.  An entry
    is [None] when the object lacks it ([undefined]); an entry that can be
    [null] holds an option of its own. *)
Record StateBlob : Type := mkStateBlob {
  b_minTemp : option Q;
  b_maxTemp : option Q;
  b_targetTemp : option Q;
  b_baseTargetTemp : option Q;
  b_hysteresis : option Q;
  b_learningEnabled : option bool;
  b_mode : option string;
  b_Kp : option Q;
  b_Ki : option Q;
  b_Kd : option Q;
  b_integral : option Q;
  b_lastError : option Q;
  b_lastTemp : option (option Q);
  b_lastOutput : option (option Q);
  b_learningPhase : option bool;
  b_learningComplete : option bool;
  b_temperatureHistory : option (list Reading);
  b_performanceHistory : option (list Q);
  b_operatingMode : option string;
  b_schedule : option (option Schedule);
  b_boostActive : option bool;
  b_boostTemp : option (option Q);
  b_boostEndTime : option (option Z);
  b_awayMode : option bool;
  b_awayTemp : option Q
}.

(** [getState()]. *)
Definition getState (s : Controller) : StateBlob :=
  {| b_minTemp := Some (minTemp s);
     b_maxTemp := Some (maxTemp s);
     b_targetTemp := Some (targetTemp s);
     b_baseTargetTemp := Some (baseTargetTemp s);
     b_hysteresis := Some (hysteresis s);
     b_learningEnabled := Some (learningEnabled s);
     b_mode := Some (mode s);
     b_Kp := Some (Kp s);
     b_Ki := Some (Ki s);
     b_Kd := Some (Kd s);
     b_integral := Some (integral s);
     b_lastError := Some (lastError s);
     b_lastTemp := Some (lastTemp s);
     b_lastOutput := Some (lastOutput s);
     b_learningPhase := Some (learningPhase s);
     b_learningComplete := Some (learningComplete s);
     b_temperatureHistory := Some (temperatureHistory s);
     b_performanceHistory := Some (performanceHistory s);
     b_operatingMode := Some (operatingMode s);
     b_schedule := Some (schedule s);
     b_boostActive := Some (boostActive s);
     b_boostTemp := Some (boostTemp s);
     b_boostEndTime := Some (boostEndTime s);
     b_awayMode := Some (awayMode s);
     b_awayTemp := Some (awayTemp s) |}.

(** [if (state.x !== undefined) this.x = state.x]. *)
Definition restore {A : Type} (entry : option A)
    (set : A -> Controller -> Controller) (s : Controller) : Controller :=
  match entry with
  | Some v => set v s
  | None => s
  end.

(** [setState(state)]; [None] is a falsy argument.  The entries are taken
    in the order of the source. *)
Definition setState (state : option StateBlob) (s : Controller) : Controller :=
  match state with
  | None => s
  | Some b =>
      let s := restore (b_Kp b) set_Kp s in
      let s := restore (b_Ki b) set_Ki s in
      let s := restore (b_Kd b) set_Kd s in
      let s := restore (b_integral b) set_integral s in
      let s := restore (b_lastError b) set_lastError s in
      let s := restore (b_lastTemp b) set_lastTemp s in
      let s := restore (b_lastOutput b) set_lastOutput s in
      let s := restore (b_learningPhase b) set_learningPhase s in
      let s := restore (b_learningComplete b) set_learningComplete s in
      let s := restore (b_temperatureHistory b) set_temperatureHistory s in
      let s := restore (b_performanceHistory b) set_performanceHistory s in
      let s := restore (b_mode b) set_mode s in
      let s := restore (b_baseTargetTemp b) set_baseTargetTemp s in
      let s := restore (b_operatingMode b) set_operatingMode s in
      let s := restore (b_schedule b) set_schedule s in
      let s :=
        restore (b_boostActive b)
                (fun v s => set_boost v (boostTemp s) (boostEndTime s) s) s in
      let s :=
        restore (b_boostTemp b)
                (fun v s => set_boost (boostActive s) v (boostEndTime s) s) s in
      let s :=
        restore (b_boostEndTime b)
                (fun v s => set_boost (boostActive s) (boostTemp s) v s) s in
      let s := restore (b_awayMode b) set_awayMode s in
      restore (b_awayTemp b) set_awayTemp s
  end.

(** [reset()]. *)
Definition reset (s : Controller) : Controller :=
  let s := set_integral 0 s in
  let s := set_lastError 0 s in
  let s := set_lastTemp None s in
  let s := set_lastOutput None s in
  let s := set_lastUpdateTime None s in
  let s := set_learningPhase (learningEnabled s) s in
  let s := set_temperatureHistory [] s in
  let s := set_learningStartTime None s in
  let s := set_learningComplete false s in
  let s := set_performanceHistory [] s in
  let s := set_trendWindow [] s in
  let s := set_Kp 1 s in
  let s := set_Ki 0.01 s in
  set_Kd 0.5 s.

(** The fields [getState] writes and [setState] reads back. *)
Definition persisted (s : Controller) :=
  (Kp s, Ki s, Kd s, integral s, lastError s, lastTemp s, lastOutput s,
   learningPhase s, learningComplete s, temperatureHistory s,
   performanceHistory s, mode s, baseTargetTemp s, operatingMode s,
   schedule s, boostActive s, boostTemp s, boostEndTime s, awayMode s,
   awayTemp s).

(** The fields [setState] never writes. *)
Definition unpersisted (s : Controller) :=
  (minTemp s, maxTemp s, targetTemp s, hysteresis s, sampleInterval s,
   learningEnabled s, maxOutputChange s, precision s, lastUpdateTime s,
   learningStartTime s, trendWindow s, parametersChanged s).

(** The choices of the user that a control cycle reads. *)
Definition userChoices (s : Controller) :=
  (baseTargetTemp s, schedule s, awayMode s, awayTemp s, sampleInterval s,
   learningEnabled s).

(** A boost is in force: flagged active with a stored temperature. *)
Definition boosting (s : Controller) : bool :=
  boostActive s && match boostTemp s with Some _ => true | None => false end.

(** An instance past learning whose performance buffer is full: a thousand
    errors of 0.1 degrees. *)
Definition fullBuffer : Controller :=
  set_performanceHistory (repeat 0.1 1000)
    (set_learningComplete true (set_learningPhase false fresh)).

(** The bounds [adaptPIDParameters] and [continuousAdaptation] impose on the
    gains. *)
Definition gainsInBounds (s : Controller) : Prop :=
  (0.1 <= Kp s <= 5) /\ (0.001 <= Ki s <= 0.5) /\ (0 <= Kd s <= 2).

(** The history holds no reading half a degree or more away from its first
    one. *)
Definition flatHistory (s : Controller) : Prop :=
  match temperatureHistory s with
  | [] => True
  | first :: rest =>
      Forall (fun r => Qabs (rtemp r - rtemp first) < 0.5) rest
  end.

(** Thirty readings of 20 degrees a minute apart, recorded on the fresh
    controller. *)
Definition steadyRoom : Controller :=
  default fresh
    (last (run fresh
             (map (fun i : nat => (sundayNoon (1000 + 60000 * Z.of_nat i), 20))
                  (seq 0 30)))).

(** A schedule with two Sunday slots, and the fresh controller holding it. *)
Definition sundaySchedule : Schedule :=
  {| days := <["sunday" := Slots [mkSlot "06:00" (Some 21)] "22:00" 18]> ∅;
     timezone := None |}.

Definition scheduled : Controller := set_schedule (Some sundaySchedule) fresh.

(** The clock of a Sunday at 07:00. *)
Definition sundayMorning (t : Z) : Clock :=
  {| now := t; getTimeInTimezone := fun _ => mkTimeOfDay 0 7 0 |}.

(** The three boost fields. *)
Definition boostTriple (s : Controller) : bool * option Q * option Z :=
  (boostActive s, boostTemp s, boostEndTime s).




(** * Properties *)

(** ** Arithmetic helpers *)

Lemma Qltb_lt (a b : Q) : Qltb a b = true <-> a < b.
Proof.
  unfold Qltb. rewrite negb_true_iff, <- not_true_iff_false, Qle_bool_iff.
  split; [apply Qnot_le_lt | apply Qlt_not_le].
Qed.

Lemma Qltb_ge (a b : Q) : Qltb a b = false <-> b <= a.
Proof.
  unfold Qltb. rewrite negb_false_iff. apply Qle_bool_iff.
Qed.

Lemma Qle_bool_gt (a b : Q) : Qle_bool a b = false <-> b < a.
Proof.
  rewrite <- not_true_iff_false, Qle_bool_iff.
  split; [apply Qnot_le_lt | apply Qlt_not_le].
Qed.

Lemma clamp_bounds (v lo hi : Q) : lo <= hi -> lo <= clamp v lo hi <= hi.
Proof.
  intros Hle. unfold clamp. split.
  - apply Q.min_glb; [apply Q.le_max_r | exact Hle].
  - apply Q.le_min_r.
Qed.

Lemma clamp_inside (v lo hi : Q) : lo <= v <= hi -> clamp v lo hi == v.
Proof.
  intros [Hlo Hhi]. unfold clamp.
  rewrite (Q.max_l v lo Hlo). apply Q.min_l, Hhi.
Qed.

Lemma Qhalf (p : Q) : p / 2 == 0.5 * p.
Proof. field. Qed.

(** [Math.round] brackets its argument: [x - 1/2 < round x <= x + 1/2]. *)
Lemma Math_round_bracket (x : Q) :
  x - 0.5 < inject_Z (Math_round x) /\ inject_Z (Math_round x) <= x + 0.5.
Proof.
  unfold Math_round. split.
  - pose proof (Qlt_floor (x + 0.5)) as H.
    rewrite inject_Z_plus in H. change (inject_Z 1) with 1 in H. lra.
  - apply Qfloor_le.
Qed.

Lemma Math_round_integer (k : Z) : Math_round (inject_Z k) = k.
Proof.
  unfold Math_round.
  assert (Hlo : (k <= Qfloor (inject_Z k + 0.5))%Z).
  { rewrite <- (Qfloor_Z k) at 1. apply Qfloor_resp_le. lra. }
  assert (Hhi : (Qfloor (inject_Z k + 0.5) < k + 1)%Z).
  { rewrite Zlt_Qlt. pose proof (Qfloor_le (inject_Z k + 0.5)) as H.
    rewrite inject_Z_plus. change (inject_Z 1) with 1. lra. }
  lia.
Qed.

(** ** Rounding to the precision step *)

Lemma roundToPrecision_near (s : Controller) (x : Q) :
  0 < precision s ->
  Qabs (roundToPrecision s x - x) <= precision s / 2.
Proof.
  intros Hp. unfold roundToPrecision.
  destruct (Math_round_bracket (x / precision s)) as [Hlo Hhi].
  set (k := inject_Z (Math_round (x / precision s))) in *.
  assert (Hx : x == (x / precision s) * precision s) by (field; lra).
  set (q := x / precision s) in *. clearbody k. clearbody q.
  rewrite Qhalf. apply Qabs_Qle_condition. split.
  - assert (H : (q - 0.5) * precision s <= k * precision s)
      by (apply Qmult_le_compat_r; lra).
    lra.
  - assert (H : k * precision s <= (q + 0.5) * precision s)
      by (apply Qmult_le_compat_r; lra).
    lra.
Qed.

Lemma roundToPrecision_idempotent (s : Controller) (x : Q) :
  0 < precision s ->
  roundToPrecision s (roundToPrecision s x) == roundToPrecision s x.
Proof.
  intros Hp. unfold roundToPrecision at 1.
  set (k := Math_round (x / precision s)).
  assert (Hk : roundToPrecision s x / precision s == inject_Z k).
  { unfold roundToPrecision. fold k. field. lra. }
  rewrite (Qfloor_comp _ _ (Qplus_comp _ _ Hk _ _ (Qeq_refl 0.5))
           : Math_round (roundToPrecision s x / precision s)
             = Math_round (inject_Z k)).
  rewrite Math_round_integer. reflexivity.
Qed.

(** C7. For every number [x] and every positive precision,
    [roundToPrecision x] is an integer multiple of the precision and lies
    within half a precision step of [x]. *)
Theorem roundToPrecision_multiple_within_half_step (s : Controller) (x : Q) :
  0 < precision s ->
  (exists k : Z, roundToPrecision s x == inject_Z k * precision s) /\
  Qabs (roundToPrecision s x - x) <= precision s / 2.
Proof.
  intros Hp. split.
  - exists (Math_round (x / precision s)). reflexivity.
  - apply roundToPrecision_near, Hp.
Qed.

Lemma roundToPrecision_multiple_within_half_step_witness :
  (exists k : Z,
      roundToPrecision (constructor defaultConfig) 21.3
      == inject_Z k * precision (constructor defaultConfig)) /\
  Qabs (roundToPrecision (constructor defaultConfig) 21.3 - 21.3)
  <= precision (constructor defaultConfig) / 2.
Proof.
  apply (roundToPrecision_multiple_within_half_step (constructor defaultConfig) 21.3).
  reflexivity.
Defined.

(** ** Target resolution *)

Lemma checkBoostExpiry_not_expired (clk : Clock) (s : Controller) :
  (forall e, boostEndTime s = Some e -> (now clk <= e)%Z) ->
  checkBoostExpiry clk s = s.
Proof.
  intros Hlive. unfold checkBoostExpiry.
  destruct (boostEndTime s) as [e|] eqn:He.
  - specialize (Hlive e eq_refl).
    replace (e <? now clk)%Z with false by (symmetry; apply Z.ltb_ge, Hlive).
    now rewrite andb_false_r.
  - now rewrite andb_false_r.
Qed.

Lemma calculateEffectiveTarget_boost (clk : Clock) (s : Controller) (b : Q) :
  boostActive s = true -> boostTemp s = Some b ->
  targetTemp (calculateEffectiveTarget clk s) = clamp b (minTemp s) (maxTemp s).
Proof.
  intros Ha Hb. unfold calculateEffectiveTarget. rewrite Ha, Hb. reflexivity.
Qed.

(** C1. Whenever boost is active (flag set, temperature stored, current
    instant not past the expiry), the effective target that a cycle
    resolves is the boost temperature clamped to [[minTemp, maxTemp]],
    whatever the away flag, the away temperature, the schedule and the
    manual base target are. *)
Theorem boost_overrides_away_schedule_manual
    (clk : Clock) (s : Controller) (b : Q)
    (away : bool) (awayT : Q) (sch : option Schedule) (base : Q) :
  boostActive s = true ->
  boostTemp s = Some b ->
  (forall e, boostEndTime s = Some e -> (now clk <= e)%Z) ->
  let s' :=
    set_awayMode away (set_awayTemp awayT (set_schedule sch
      (set_baseTargetTemp base s))) in
  targetTemp (calculateEffectiveTarget clk (checkBoostExpiry clk s'))
  = clamp b (minTemp s) (maxTemp s) /\
  targetTemp (beginCycle clk s') = clamp b (minTemp s) (maxTemp s) /\
  fst (syncSchedule clk s') = clamp b (minTemp s) (maxTemp s).
Proof.
  intros Ha Hb Hlive s'.
  repeat split.
  - rewrite (checkBoostExpiry_not_expired clk s' Hlive).
    exact (calculateEffectiveTarget_boost clk s' b Ha Hb).
  - unfold beginCycle.
    rewrite (checkBoostExpiry_not_expired clk
               (set_lastUpdateTime (Some (now clk)) s') Hlive).
    exact (calculateEffectiveTarget_boost clk
             (set_lastUpdateTime (Some (now clk)) s') b Ha Hb).
  - exact (calculateEffectiveTarget_boost clk s' b Ha Hb).
Qed.

Lemma boost_overrides_away_schedule_manual_witness :
  let s := setBoost (tuesdayNight 1000) (BoostObject (Some 24) (Some 60%Z))
             (constructor defaultConfig) in
  targetTemp
    (beginCycle (tuesdayNight 61000)
       (set_awayMode true (set_awayTemp 16 (set_schedule (Some sampleSchedule)
          (set_baseTargetTemp 19 s)))))
  = clamp 24 (minTemp s) (maxTemp s).
Proof.
  intros s.
  refine (proj1 (proj2 (boost_overrides_away_schedule_manual
            (tuesdayNight 61000) s 24 true 16 (Some sampleSchedule) 19
            eq_refl eq_refl _))).
  intros e He. injection He as <-. cbn. lia.
Defined.

Lemma findActiveSlot_none (l : list Slot) (currentTime : Q) :
  Forall (fun slot => atOrBefore currentTime slot = false) l ->
  findActiveSlot l currentTime = None.
Proof.
  unfold findActiveSlot. induction 1 as [|slot l Hslot _ IH]; [reflexivity|].
  cbn [fold_left]. unfold atOrBefore in Hslot.
  destruct (negb (String.eqb (time slot) "")); cbn [andb] in *; [|exact IH].
  rewrite Hslot. destruct (hasTemp slot); exact IH.
Qed.

(** C6. With Monday holding exactly the slots 06:00 and 22:00, and Tuesday
    holding no slot list, an empty one, or no slot at or before the query
    time, a lookup on Tuesday at 02:00 yields the temperature of Monday's
    22:00 slot. *)
Theorem schedule_carries_over_midnight
    (clk : Clock) (s : Controller) (sch : Schedule) (monday : DaySchedule)
    (t06 : option Q) (t22 : Q) :
  schedule s = Some sch ->
  getTimeInTimezone clk (timezone sch) = mkTimeOfDay 2 2 0 ->
  days sch !! "monday" = Some monday ->
  slotsOf monday = [mkSlot "06:00" t06; mkSlot "22:00" (Some t22)] ->
  (forall tuesday : DaySchedule,
      days sch !! "tuesday" = Some tuesday ->
      Forall (fun slot => atOrBefore 120 slot = false) (slotsOf tuesday)) ->
  getScheduledTemp clk s = t22.
Proof.
  intros Hsch Hclk Hday Hmon Htue.
  assert (Hlast : monday = Slots [mkSlot "06:00" t06] "22:00" t22).
  { destruct monday as [|earlier lastTime lastTemp]; [discriminate Hmon|].
    cbn [slotsOf] in Hmon.
    change [mkSlot "06:00" t06; mkSlot "22:00" (Some t22)]
      with ([mkSlot "06:00" t06] ++ [mkSlot "22:00" (Some t22)]) in Hmon.
    apply app_inj_tail in Hmon as [-> Heq].
    injection Heq as -> ->. reflexivity. }
  subst monday. unfold getScheduledTemp.
  rewrite Hsch, Hclk. cbn [dayIndex hours minutes].
  change ((2 + 6) mod 7)%nat with 1%nat.
  unfold daySlots. cbn [lookup list_lookup dayNames].
  rewrite Hday.
  destruct (days sch !! "tuesday") as [tuesday|] eqn:Htoday;
    cbn [default from_option id].
  - specialize (Htue tuesday eq_refl).
    destruct tuesday as [|earlier lastTime lastTemp]; [reflexivity|].
    change (inject_Z (2 * 60 + 0)) with 120.
    rewrite (findActiveSlot_none _ 120 Htue).
    reflexivity.
  - reflexivity.
Qed.

Lemma schedule_carries_over_midnight_witness :
  getScheduledTemp (tuesdayNight 1000)
    (set_schedule (Some sampleSchedule) fresh) = 18.
Proof.
  apply (schedule_carries_over_midnight (tuesdayNight 1000)
           (set_schedule (Some sampleSchedule) fresh) sampleSchedule
           (Slots [mkSlot "06:00" (Some 21)] "22:00" 18) (Some 21) 18).
  - reflexivity.
  - reflexivity.
  - vm_compute. reflexivity.
  - reflexivity.
  - intros tuesday Htue. vm_compute in Htue. injection Htue as <-.
    repeat constructor.
Defined.

(** ** The one-shot flag and the setters *)

Lemma hasParametersChanged_reads_then_clears (s : Controller) :
  let '(v, s1) := hasParametersChanged s in
  let '(w, s2) := hasParametersChanged s1 in
  v = parametersChanged s /\ w = false /\ parametersChanged s2 = false /\
  s1 = set_parametersChanged false s /\ s2 = s1.
Proof. cbn. repeat split. Qed.

Lemma includes_not_member (l : list string) (x : string) :
  ~ In x l -> includes l (JStr x) = None.
Proof.
  intros Hx. cbn.
  destruct (existsb (String.eqb x) l) eqn:E; [|reflexivity].
  apply existsb_exists in E as (y & Hy & Heq).
  apply String.eqb_eq in Heq. now subst y.
Qed.

(** C9 (amended). A setter ignores invalid input and leaves the whole
    instance as it was: the manual-target setter for every argument that is
    not a number or is [NaN]; the operating-mode setter for every string
    other than manual, schedule and off; the thermal-mode setter for every
    string other than heat, cool, heat_cool and the legacy names heating,
    cooling and auto, which it accepts.  The setters are total functions:
    no call fails. *)
Theorem setters_ignore_invalid_input (s : Controller) :
  (forall arg, numeric arg = false -> setSetpoint arg s = s) /\
  (forall str, ~ In str ["manual"; "schedule"; "off"] ->
               setOperatingMode (JStr str) s = s) /\
  (forall str,
      ~ In str ["heat"; "cool"; "heat_cool"; "heating"; "cooling"; "auto"] ->
      setMode (JStr str) s = s).
Proof.
  split; [|split].
  - intros arg Harg. destruct arg as [| |b|x| |n|x|k]; try reflexivity;
      discriminate Harg.
  - intros str Hstr. unfold setOperatingMode.
    now rewrite (includes_not_member _ _ Hstr).
  - intros str Hstr. unfold setMode, modeMap. cbn [propertyKey].
    destruct (String.eqb_spec str "heating") as [->|_];
      [exfalso; apply Hstr; cbn; tauto|].
    destruct (String.eqb_spec str "cooling") as [->|_];
      [exfalso; apply Hstr; cbn; tauto|].
    destruct (String.eqb_spec str "auto") as [->|_];
      [exfalso; apply Hstr; cbn; tauto|].
    destruct (existsb (String.eqb str) inheritedKeys); [reflexivity|].
    rewrite includes_not_member; [reflexivity|].
    intros Hin. apply Hstr. cbn in Hin |- *. tauto.
Qed.

Lemma setters_ignore_invalid_input_witness :
  setSetpoint JNaN warmedUp = warmedUp /\
  setOperatingMode (JStr "auto") warmedUp = warmedUp /\
  setMode (JStr "eco") warmedUp = warmedUp.
Proof.
  destruct (setters_ignore_invalid_input warmedUp) as (Hset & Hop & Hmode).
  split; [|split].
  - apply Hset. reflexivity.
  - apply Hop. cbn. intros [H|[H|[H|[]]]]; discriminate H.
  - apply Hmode. cbn. intros [H|[H|[H|[H|[H|[H|[]]]]]]]; discriminate H.
Defined.

(** C9 as stated fails: ["heating"] is outside heat, cool and heat_cool, yet
    the thermal-mode setter accepts it and resets the accumulator. *)
Lemma setMode_accepts_legacy_name :
  ~ In "heating" ["heat"; "cool"; "heat_cool"] /\
  setMode (JStr "heating") warmedUp <> warmedUp /\
  ~ integral (setMode (JStr "heating") warmedUp) == integral warmedUp.
Proof.
  split; [|split].
  - cbn. intros [H|[H|[H|[]]]]; discriminate H.
  - intros H. apply (f_equal integral) in H. vm_compute in H. discriminate H.
  - vm_compute. discriminate.
Qed.

(** ** The parameters-changed flag *)

Lemma Qeq_bool_refl (x : Q) : Qeq_bool x x = true.
Proof. apply Qeq_bool_iff. reflexivity. Qed.

Lemma adaptPIDParameters_raises_flag (c : Characteristics) (s : Controller) :
  0 < timeConstant c -> 0 < deadTime c ->
  parametersChanged (adaptPIDParameters c s) = true.
Proof.
  intros Htc Hdead. unfold adaptPIDParameters.
  replace (Qle_bool (timeConstant c) 0) with false
    by (symmetry; apply Qle_bool_gt, Htc).
  replace (Qle_bool (deadTime c) 0) with false
    by (symmetry; apply Qle_bool_gt, Hdead).
  reflexivity.
Qed.

Lemma continuousAdaptation_flag (s : Controller) :
  let s' := continuousAdaptation s in
  parametersChanged s'
  = parametersChanged s
    || negb (Qeq_bool (Kp s') (Kp s)) || negb (Qeq_bool (Kd s') (Kd s)).
Proof.
  cbv zeta. unfold continuousAdaptation.
  destruct (length (performanceHistory s) <? adaptationInterval)%nat.
  - rewrite !Qeq_bool_refl. cbn. now rewrite !orb_false_r.
  - match goal with
    | |- context [if ?c then set_parametersChanged true ?s2 else _] =>
        set (changed := c); set (tuned := s2)
    end.
    assert (Hflag : parametersChanged tuned = parametersChanged s).
    { subst tuned. unfold limitGains.
      destruct (sqrt_gt _ _); [reflexivity|]. destruct (Qltb _ _); reflexivity. }
    assert (Hc : changed
                 = negb (Qeq_bool (Kp tuned) (Kp s))
                   || negb (Qeq_bool (Kd tuned) (Kd s))) by reflexivity.
    clearbody changed tuned. rewrite <- orb_assoc.
    destruct changed; cbn [parametersChanged set_parametersChanged Kp Kd];
      rewrite <- Hc.
    + now rewrite orb_true_r.
    + now rewrite orb_false_r.
Qed.

Lemma continuousAdaptation_Ki (s : Controller) :
  0.001 <= Ki s <= 0.5 -> Ki (continuousAdaptation s) == Ki s.
Proof.
  intros HKi. unfold continuousAdaptation.
  destruct (length (performanceHistory s) <? adaptationInterval)%nat;
    [reflexivity|].
  match goal with
  | |- context [if ?c then set_parametersChanged true ?s2 else _] =>
      set (changed := c); set (tuned := s2)
  end.
  assert (HK : Ki tuned == Ki s).
  { subst tuned. unfold limitGains.
    destruct (sqrt_gt _ _); [|destruct (Qltb _ _)];
      apply clamp_inside; exact HKi. }
  destruct changed; exact HK.
Qed.

(** C8 (amended). A tuning step that applies (positive time constant and
    dead time) raises the flag unconditionally.  A continuous-adaptation
    step raises it exactly when Kp or Kd differs from its value before the
    adjustment; with Ki already inside its bounds [[0.001, 0.5]] that is
    exactly when one of Kp, Ki, Kd differs.  Reading the flag returns its
    value and clears it, so two consecutive reads return [(v, false)]. *)
Theorem parameters_changed_flag (s : Controller) (c : Characteristics) :
  (0 < timeConstant c -> 0 < deadTime c ->
   parametersChanged (adaptPIDParameters c s) = true) /\
  (let s' := continuousAdaptation s in
   parametersChanged s'
   = parametersChanged s
     || negb (Qeq_bool (Kp s') (Kp s)) || negb (Qeq_bool (Kd s') (Kd s))) /\
  (let s' := continuousAdaptation s in
   0.001 <= Ki s <= 0.5 -> parametersChanged s = false ->
   (parametersChanged s' = true <->
    ~ (Kp s' == Kp s /\ Ki s' == Ki s /\ Kd s' == Kd s))) /\
  (let '(v, s1) := hasParametersChanged s in
   let '(w, s2) := hasParametersChanged s1 in
   v = parametersChanged s /\ w = false /\
   s1 = set_parametersChanged false s /\ s2 = s1).
Proof.
  split; [exact (adaptPIDParameters_raises_flag c s)|].
  split; [exact (continuousAdaptation_flag s)|].
  split; [|cbn; repeat split].
  cbv zeta. intros HKi Hflag.
  rewrite (continuousAdaptation_flag s), Hflag. cbn [orb].
  pose proof (continuousAdaptation_Ki s HKi) as HK.
  rewrite orb_true_iff, !negb_true_iff, <- !not_true_iff_false, !Qeq_bool_iff.
  split.
  - intros [H|H] (Hp & _ & Hd); contradiction.
  - intros H.
    destruct (Qeq_dec (Kp (continuousAdaptation s)) (Kp s)) as [Hp|Hp];
      [|now left].
    destruct (Qeq_dec (Kd (continuousAdaptation s)) (Kd s)) as [Hd|Hd];
      [|now right].
    exfalso. apply H. repeat split; assumption.
Qed.

Lemma parameters_changed_flag_witness :
  parametersChanged
    (adaptPIDParameters (mkCharacteristics 100 5) beforeTuning) = true.
Proof.
  apply (proj1 (parameters_changed_flag beforeTuning (mkCharacteristics 100 5)));
    reflexivity.
Defined.

(** C8 as stated fails: the thirtieth reading of the step response tunes the
    controller to the gains it already had, and the flag is raised all the
    same. *)
Lemma tuning_raises_flag_without_change :
  let s' := snd (update tuningClock 21 beforeTuning) in
  parametersChanged beforeTuning = false /\
  parametersChanged s' = true /\
  Kp s' == Kp beforeTuning /\ Ki s' == Ki beforeTuning /\
  Kd s' == Kd beforeTuning.
Proof. vm_compute. repeat split; congruence. Qed.

(** ** The cycle in operating mode off *)

(** What the head of a cycle writes: the instant of the call, the boost
    triple and the target; every other field is carried over. *)
Lemma checkBoostExpiry_frame (clk : Clock) (s : Controller) :
  exists active btemp expiry, checkBoostExpiry clk s = set_boost active btemp expiry s.
Proof.
  unfold checkBoostExpiry.
  match goal with |- context [if ?c then _ else _] => destruct c end.
  - now exists false, None, None.
  - exists (boostActive s), (boostTemp s), (boostEndTime s). now destruct s.
Qed.

Lemma calculateEffectiveTarget_frame (clk : Clock) (s : Controller) :
  exists target, calculateEffectiveTarget clk s = set_targetTemp target s.
Proof. unfold calculateEffectiveTarget. eexists. reflexivity. Qed.

Lemma beginCycle_frame (clk : Clock) (s : Controller) :
  let s' := beginCycle clk s in
  s' = set_targetTemp (targetTemp s')
         (set_boost (boostActive s') (boostTemp s') (boostEndTime s')
            (set_lastUpdateTime (Some (now clk)) s)).
Proof.
  cbv zeta. unfold beginCycle.
  destruct (checkBoostExpiry_frame clk (set_lastUpdateTime (Some (now clk)) s))
    as (active & btemp & expiry & ->).
  destruct (calculateEffectiveTarget_frame clk
              (set_boost active btemp expiry
                 (set_lastUpdateTime (Some (now clk)) s))) as (target & ->).
  reflexivity.
Qed.

Lemma beginCycle_operatingMode (clk : Clock) (s : Controller) :
  operatingMode (beginCycle clk s) = operatingMode s.
Proof. rewrite beginCycle_frame. reflexivity. Qed.

(** C10 (amended). In operating mode off, [update] returns the minimum
    temperature rounded to the precision step and changes nothing of the
    instance but the instant of the last update, the boost triple (expiry)
    and the effective target: the histories, the trend window, the
    accumulator, the last error, the last temperature and the last setpoint
    stay as they were. *)
Theorem update_off_frame (clk : Clock) (currentTemp : Q) (s : Controller) :
  operatingMode s = "off" ->
  0 < precision s ->
  let '(result, s') := update clk currentTemp s in
  output result == roundToPrecision s (minTemp s) /\
  s' = set_targetTemp (targetTemp s')
         (set_boost (boostActive s') (boostTemp s') (boostEndTime s')
            (set_lastUpdateTime (Some (now clk)) s)) /\
  temperatureHistory s' = temperatureHistory s /\
  trendWindow s' = trendWindow s /\
  performanceHistory s' = performanceHistory s /\
  integral s' = integral s /\
  lastError s' = lastError s /\
  lastTemp s' = lastTemp s /\
  lastOutput s' = lastOutput s.
Proof.
  intros Hoff Hp. unfold update.
  rewrite beginCycle_operatingMode, Hoff. cbn [String.eqb Ascii.eqb Bool.eqb].
  pose proof (beginCycle_frame clk s) as Hframe. cbv zeta in Hframe.
  set (s' := beginCycle clk s) in *.
  assert (Hprec : precision s' = precision s) by (now rewrite Hframe).
  assert (Hmin : minTemp s' = minTemp s) by (now rewrite Hframe).
  split.
  - cbn [createOutput output]. rewrite Hmin.
    unfold roundToPrecision at 1 2. rewrite Hprec.
    apply (roundToPrecision_idempotent s), Hp.
  - split; [exact Hframe|]. rewrite Hframe. repeat split.
Qed.

Lemma update_off_frame_witness :
  output (fst (update (sundayNoon 1000) 19 switchedOff))
  == roundToPrecision switchedOff (minTemp switchedOff).
Proof.
  pose proof (update_off_frame (sundayNoon 1000) 19 switchedOff
                eq_refl eq_refl) as H.
  destruct (update (sundayNoon 1000) 19 switchedOff) as [result s'].
  exact (proj1 H).
Defined.

(** C10 as stated fails: besides the boost triple and the target, a cycle in
    mode off also stamps the instant of the last update. *)
Lemma update_off_stamps_lastUpdateTime :
  operatingMode switchedOff = "off" /\
  ~ exists (target : Q) (active : bool) (btemp : option Q) (expiry : option Z),
      snd (update (sundayNoon 1000) 19 switchedOff)
      = set_targetTemp target (set_boost active btemp expiry switchedOff).
Proof.
  split; [reflexivity|].
  intros (target & active & btemp & expiry & H).
  apply (f_equal lastUpdateTime) in H. vm_compute in H. discriminate H.
Qed.

(** ** What each step of a cycle writes *)

Lemma recordTemperature_frame (t : Q) (ts : Z) (s : Controller) :
  exists history window,
    recordTemperature t ts s
    = set_trendWindow window (set_temperatureHistory history s).
Proof. unfold recordTemperature. eexists _, _. reflexivity. Qed.

Lemma limitGains_frame (s : Controller) :
  limitGains s
  = set_Kd (clamp (Kd s) 0 2)
      (set_Ki (clamp (Ki s) 0.001 0.5) (set_Kp (clamp (Kp s) 0.1 5) s)).
Proof. unfold limitGains. same_instance s. Qed.

Lemma adaptPIDParameters_frame (c : Characteristics) (s : Controller) :
  exists kp ki kd changed,
    adaptPIDParameters c s
    = set_parametersChanged changed (set_Kd kd (set_Ki ki (set_Kp kp s))) /\
    (0.001 <= Ki s -> 0.001 <= ki).
Proof.
  assert (Hfloor : forall x, 0.001 <= clamp x 0.001 0.5)
    by (intros x; apply clamp_bounds; lra).
  unfold adaptPIDParameters.
  destruct (Qle_bool (timeConstant c) 0 || Qle_bool (deadTime c) 0).
  { exists (Kp s), (Ki s), (Kd s), (parametersChanged s).
    split; [same_instance s | tauto]. }
  rewrite limitGains_frame.
  set (ratio := deadTime c / timeConstant c). clearbody ratio.
  destruct (Qltb ratio 0.1); [|destruct (Qltb ratio 0.5)].
  - exists (clamp (1.35 / ratio) 0.1 5),
           (clamp (1.35 / ratio / (2.5 * deadTime c)) 0.001 0.5),
           (clamp (1.35 / ratio * 0.37 * deadTime c) 0 2), true.
    split; [same_instance s | intros _; apply Hfloor].
  - exists (clamp ((1.35 + 0.25 * ratio) / ratio) 0.1 5),
           (clamp ((1.35 + 0.25 * ratio) / ratio
                   / ((2.5 - 2.0 * ratio) * deadTime c)) 0.001 0.5),
           (clamp ((1.35 + 0.25 * ratio) / ratio
                   * (0.37 - 0.3 * ratio) * deadTime c) 0 2), true.
    split; [same_instance s | intros _; apply Hfloor].
  - exists (clamp (0.9 / ratio) 0.1 5),
           (clamp (0.9 / ratio / (3.3 * deadTime c)) 0.001 0.5),
           (clamp (0.9 / ratio * 0.2 * deadTime c) 0 2), true.
    split; [same_instance s | intros _; apply Hfloor].
Qed.

Lemma learn_frame (clk : Clock) (s : Controller) :
  exists kp ki kd changed start phase complete,
    learn clk s
    = set_learningPhase phase (set_learningComplete complete
        (set_parametersChanged changed (set_Kd kd (set_Ki ki (set_Kp kp
           (set_learningStartTime start s)))))) /\
    (0.001 <= Ki s -> 0.001 <= ki).
Proof.
  unfold learn.
  set (started := if truthyZ (learningStartTime s) then s
                  else set_learningStartTime (Some (now clk)) s).
  assert (Hstarted : exists start, started = set_learningStartTime start s).
  { subst started. destruct (truthyZ (learningStartTime s)).
    - exists (learningStartTime s). same_instance s.
    - now eexists. }
  destruct Hstarted as (start & Hstarted). clearbody started. subst started.
  destruct (length _ <? samplesNeeded)%nat.
  { exists (Kp s), (Ki s), (Kd s), (parametersChanged s), start,
           (learningPhase s), (learningComplete s).
    split; [same_instance s | tauto]. }
  destruct (adaptPIDParameters_frame
              (estimateThermalCharacteristics (set_learningStartTime start s))
              (set_learningStartTime start s))
    as (kp & ki & kd & changed & Hadapt & HKi).
  destruct (Qltb 0 _ && Qltb 0 _).
  - rewrite Hadapt.
    exists kp, ki, kd, changed, start, false, true.
    split; [|exact HKi].
    match goal with |- context [if ?c then _ else _] => destruct c end;
      same_instance s.
  - match goal with |- context [if ?c then _ else _] => destruct c end.
    + exists (Kp s), (Ki s), (Kd s), (parametersChanged s), start, false, true.
      split; [same_instance s | tauto].
    + exists (Kp s), (Ki s), (Kd s), (parametersChanged s), start,
             (learningPhase s), (learningComplete s).
      split; [same_instance s | tauto].
Qed.

Lemma continuousAdaptation_frame (s : Controller) :
  exists kp ki kd changed,
    continuousAdaptation s
    = set_parametersChanged changed (set_Kd kd (set_Ki ki (set_Kp kp s))) /\
    (0.001 <= Ki s -> 0.001 <= ki <= Ki s).
Proof.
  assert (Hclamp : 0.001 <= Ki s -> 0.001 <= clamp (Ki s) 0.001 0.5 <= Ki s).
  { intros HKi. split; [apply clamp_bounds; lra|].
    unfold clamp. rewrite (Q.max_l _ _ HKi). apply Q.le_min_l. }
  unfold continuousAdaptation.
  destruct (length (performanceHistory s) <? adaptationInterval)%nat.
  { exists (Kp s), (Ki s), (Kd s), (parametersChanged s).
    split; [same_instance s | lra]. }
  match goal with
  | |- context [limitGains ?a] => set (adjusted := a)
  end.
  assert (Hadj : exists kp kd,
             adjusted = set_Kd kd (set_Kp kp s) /\ Ki adjusted = Ki s).
  { subst adjusted. destruct (sqrt_gt _ _); [|destruct (Qltb _ _)].
    - eexists _, _. split; reflexivity.
    - exists (Kp s * 1.02), (Kd s). split; [same_instance s | reflexivity].
    - exists (Kp s), (Kd s). split; [same_instance s | reflexivity]. }
  destruct Hadj as (kp & kd & Hadj & HKi). clearbody adjusted.
  rewrite limitGains_frame, HKi. subst adjusted.
  match goal with
  | |- context [if ?c then set_parametersChanged true _ else _] => destruct c
  end.
  - exists (clamp kp 0.1 5), (clamp (Ki s) 0.001 0.5), (clamp kd 0 2), true.
    split; [same_instance s | exact Hclamp].
  - exists (clamp kp 0.1 5), (clamp (Ki s) 0.001 0.5), (clamp kd 0 2),
           (parametersChanged s).
    split; [same_instance s | exact Hclamp].
Qed.

Lemma trackPerformance_frame (error : Q) (s : Controller) :
  exists kp ki kd changed history,
    trackPerformance error s
    = set_parametersChanged changed (set_Kd kd (set_Ki ki (set_Kp kp
        (set_performanceHistory history s)))) /\
    (0.001 <= Ki s -> 0.001 <= ki <= Ki s).
Proof.
  unfold trackPerformance.
  match goal with
  | |- context [continuousAdaptation (set_performanceHistory ?h s)] =>
      set (history := h)
  end.
  clearbody history.
  destruct (_ && _).
  - destruct (continuousAdaptation_frame (set_performanceHistory history s))
      as (kp & ki & kd & changed & -> & HKi).
    exists kp, ki, kd, changed, history. split; [reflexivity | exact HKi].
  - exists (Kp s), (Ki s), (Kd s), (parametersChanged s), history.
    split; [same_instance s | lra].
Qed.
(** ** The three branches of a cycle *)

Lemma update_off (clk : Clock) (t : Q) (s : Controller) :
  String.eqb (operatingMode s) "off" = true ->
  snd (update clk t s) = beginCycle clk s.
Proof.
  intros Hoff. unfold update. rewrite beginCycle_operatingMode, Hoff.
  reflexivity.
Qed.

Lemma update_idle (clk : Clock) (t : Q) (s : Controller) :
  String.eqb (operatingMode s) "off" = false ->
  modeMismatch (recorded clk t s) (cycleError clk t s) = true ->
  update clk t s
  = idleCycle t (cycleError clk t s)
      (activeModeOf (recorded clk t s) (cycleError clk t s)) (recorded clk t s).
Proof.
  intros Hoff Hidle. unfold update.
  rewrite beginCycle_operatingMode, Hoff.
  fold (recorded clk t s). fold (cycleError clk t s).
  now rewrite Hidle.
Qed.

Lemma update_regulating (clk : Clock) (t : Q) (s : Controller) :
  regulating clk t s = true ->
  update clk t s
  = regulate clk t (cycleError clk t s) (elapsed clk s)
      (activeModeOf (recorded clk t s) (cycleError clk t s))
      (Qltb (Qabs (cycleError clk t s)) (hysteresis (recorded clk t s)))
      (recorded clk t s).
Proof.
  unfold regulating. rewrite andb_true_iff, !negb_true_iff.
  intros [Hoff Hidle]. unfold update.
  rewrite beginCycle_operatingMode, Hoff.
  fold (recorded clk t s). fold (cycleError clk t s).
  now rewrite Hidle.
Qed.

(** The instance a regulating step leaves: the PID step on the instance
    after learning, the three stores, then adaptation outside learning. *)
Lemma regulate_state (clk : Clock) (t error dt : Q) (activeMode : string)
    (inHysteresis : bool) (s : Controller) :
  let learned :=
    if learningPhase s && negb (learningComplete s) then learn clk s else s in
  let pid := calculatePID error dt activeMode learned in
  let out :=
    roundToPrecision (snd pid)
      (clamp (shapeOutput (snd pid) activeMode inHysteresis (adjustment (fst pid)))
         (minTemp (snd pid)) (maxTemp (snd pid))) in
  let stored :=
    set_lastOutput (Some out) (set_lastTemp (Some t) (set_lastError error (snd pid))) in
  let final :=
    if negb (learningPhase stored) then trackPerformance error stored else stored in
  regulate clk t error dt activeMode inHysteresis s
  = (createOutput final out t error
       (if inHysteresis then "stable" else detectTrend final)
       (Some (fst pid)) activeMode,
     final).
Proof.
  cbv zeta. unfold regulate.
  destruct (calculatePID error dt activeMode _) as [pidResult s3].
  reflexivity.
Qed.

(** ** Fields carried through a cycle *)

Lemma settings_fields (a b : Controller) :
  settings a = settings b ->
  minTemp a = minTemp b /\ maxTemp a = maxTemp b /\
  precision a = precision b /\ maxOutputChange a = maxOutputChange b /\
  hysteresis a = hysteresis b /\ mode a = mode b /\
  operatingMode a = operatingMode b.
Proof.
  unfold settings. intros H. injection H as H1 H2 H3 H4 H5 H6 H7.
  repeat split; assumption.
Qed.

Lemma beginCycle_carries (clk : Clock) (s : Controller) :
  settings (beginCycle clk s) = settings s /\
  Ki (beginCycle clk s) = Ki s /\
  integral (beginCycle clk s) = integral s /\
  lastOutput (beginCycle clk s) = lastOutput s.
Proof. unfold settings. rewrite beginCycle_frame. fields. repeat split. Qed.

Lemma recorded_carries (clk : Clock) (t : Q) (s : Controller) :
  settings (recorded clk t s) = settings s /\
  Ki (recorded clk t s) = Ki s /\
  integral (recorded clk t s) = integral s /\
  lastOutput (recorded clk t s) = lastOutput s /\
  targetTemp (recorded clk t s) = targetTemp (beginCycle clk s).
Proof.
  destruct (beginCycle_carries clk s) as (Hs & HK & Hi & Hl).
  unfold recorded, recordTemperature, settings in *. fields.
  exact (conj Hs (conj HK (conj Hi (conj Hl eq_refl)))).
Qed.

Lemma beforePID_carries (clk : Clock) (t : Q) (s : Controller) :
  settings (beforePID clk t s) = settings s /\
  integral (beforePID clk t s) = integral s /\
  lastOutput (beforePID clk t s) = lastOutput s /\
  targetTemp (beforePID clk t s) = targetTemp (beginCycle clk s) /\
  (0.001 <= Ki s -> 0.001 <= Ki (beforePID clk t s)).
Proof.
  destruct (recorded_carries clk t s) as (Hs & HK & Hi & Hl & Ht).
  unfold beforePID.
  destruct (learningPhase _ && negb (learningComplete _)).
  - destruct (learn_frame clk (recorded clk t s))
      as (kp & ki & kd & ch & st & ph & co & -> & Hk).
    rewrite HK in Hk. unfold settings in *. fields.
    exact (conj Hs (conj Hi (conj Hl (conj Ht Hk)))).
  - rewrite HK. exact (conj Hs (conj Hi (conj Hl (conj Ht (fun H => H))))).
Qed.

Lemma calculatePID_frame (error dt : Q) (activeMode : string) (s : Controller) :
  snd (calculatePID error dt activeMode s)
  = set_integral (integral (snd (calculatePID error dt activeMode s))) s.
Proof. reflexivity. Qed.

Lemma adaptation_identity (s : Controller) :
  s = set_parametersChanged (parametersChanged s) (set_Kd (Kd s) (set_Ki (Ki s)
        (set_Kp (Kp s) (set_performanceHistory (performanceHistory s) s)))).
Proof. same_instance s. Qed.

(** The instance a regulating step leaves, as field updates of the instance
    [learned] that reached the PID step. *)
Lemma regulate_final (clk : Clock) (t error dt : Q) (activeMode : string)
    (inHysteresis : bool) (s : Controller) :
  let learned :=
    if learningPhase s && negb (learningComplete s) then learn clk s else s in
  let pid := calculatePID error dt activeMode learned in
  let out :=
    roundToPrecision (snd pid)
      (clamp (shapeOutput (snd pid) activeMode inHysteresis (adjustment (fst pid)))
         (minTemp (snd pid)) (maxTemp (snd pid))) in
  exists kp ki kd changed history,
    snd (regulate clk t error dt activeMode inHysteresis s)
    = set_parametersChanged changed (set_Kd kd (set_Ki ki (set_Kp kp
        (set_performanceHistory history
           (set_lastOutput (Some out) (set_lastTemp (Some t)
              (set_lastError error
                 (set_integral (integral (snd pid)) learned)))))))) /\
    (0.001 <= Ki learned -> 0.001 <= ki <= Ki learned).
Proof.
  cbv zeta. rewrite regulate_state. cbv zeta. cbn [snd].
  set (learned :=
         if learningPhase s && negb (learningComplete s) then learn clk s else s).
  set (pid := calculatePID error dt activeMode learned).
  set (out := roundToPrecision (snd pid) _).
  clearbody out.
  assert (Hpid : exists acc,
             snd pid = set_integral acc learned /\ acc = integral (snd pid))
    by (eexists; split; reflexivity).
  destruct Hpid as (acc & Hpid & Hacc). rewrite <- Hacc, Hpid.
  clear Hacc Hpid. clearbody pid learned.
  set (stored := set_lastOutput _ _).
  assert (HK : Ki stored = Ki learned) by (subst stored; fields; reflexivity).
  destruct (negb (learningPhase stored)).
  - destruct (trackPerformance_frame error stored)
      as (kp & ki & kd & ch & h & -> & Hk).
    rewrite HK in Hk. exists kp, ki, kd, ch, h. split; [reflexivity | exact Hk].
  - exists (Kp stored), (Ki stored), (Kd stored), (parametersChanged stored),
           (performanceHistory stored).
    split; [apply adaptation_identity | rewrite HK; lra].
Qed.

Lemma createOutput_output (s : Controller) (out t error : Q) (trend : string)
    (pidResult : option PidResult) (activeMode : string) :
  output (createOutput s out t error trend pidResult activeMode)
  = roundToPrecision s out.
Proof. reflexivity. Qed.

(** What a regulating cycle leaves and emits. *)
Lemma update_regulating_final (clk : Clock) (t : Q) (s : Controller) :
  regulating clk t s = true ->
  let learned := beforePID clk t s in
  let error := cycleError clk t s in
  let activeMode := activeModeOf (recorded clk t s) error in
  let inHysteresis := Qltb (Qabs error) (hysteresis (recorded clk t s)) in
  let pid := calculatePID error (elapsed clk s) activeMode learned in
  let out :=
    roundToPrecision (snd pid)
      (clamp (shapeOutput (snd pid) activeMode inHysteresis (adjustment (fst pid)))
         (minTemp (snd pid)) (maxTemp (snd pid))) in
  exists kp ki kd changed history,
    snd (update clk t s)
    = set_parametersChanged changed (set_Kd kd (set_Ki ki (set_Kp kp
        (set_performanceHistory history
           (set_lastOutput (Some out) (set_lastTemp (Some t)
              (set_lastError error
                 (set_integral (integral (snd pid)) learned)))))))) /\
    output (fst (update clk t s)) = roundToPrecision (snd (update clk t s)) out /\
    (0.001 <= Ki learned -> 0.001 <= ki <= Ki learned).
Proof.
  intros Hreg. cbv zeta. unfold beforePID.
  rewrite (update_regulating clk t s Hreg).
  set (error := cycleError clk t s).
  set (activeMode := activeModeOf (recorded clk t s) error).
  set (inHysteresis := Qltb (Qabs error) (hysteresis (recorded clk t s))).
  destruct (regulate_final clk t error (elapsed clk s) activeMode inHysteresis
              (recorded clk t s)) as (kp & ki & kd & ch & h & Hfinal & Hk).
  exists kp, ki, kd, ch, h. split; [exact Hfinal|]. split; [|exact Hk].
  rewrite regulate_state. cbn [fst snd]. apply createOutput_output.
Qed.

Lemma update_idle_final (clk : Clock) (t : Q) (s : Controller) :
  String.eqb (operatingMode s) "off" = false ->
  modeMismatch (recorded clk t s) (cycleError clk t s) = true ->
  let out := roundToPrecision (recorded clk t s) (targetTemp (recorded clk t s)) in
  snd (update clk t s)
  = set_integral (Qmax 0 (integral (recorded clk t s)
                          - Qabs (cycleError clk t s)))
      (set_lastOutput (Some out) (recorded clk t s)) /\
  output (fst (update clk t s)) = roundToPrecision (snd (update clk t s)) out.
Proof.
  intros Hoff Hidle. cbv zeta. rewrite (update_idle clk t s Hoff Hidle).
  unfold idleCycle. cbv zeta. cbn [fst snd]. rewrite createOutput_output.
  set (out := roundToPrecision (recorded clk t s) _).
  assert (Hint : integral (set_lastOutput (Some out) (recorded clk t s))
                 = integral (recorded clk t s)) by (fields; reflexivity).
  rewrite Hint. split; reflexivity.
Qed.

Lemma update_settings (clk : Clock) (t : Q) (s : Controller) :
  settings (snd (update clk t s)) = settings s.
Proof.
  destruct (String.eqb (operatingMode s) "off") eqn:Hoff.
  { rewrite update_off by exact Hoff. apply beginCycle_carries. }
  destruct (modeMismatch (recorded clk t s) (cycleError clk t s)) eqn:Hidle.
  { destruct (update_idle_final clk t s Hoff Hidle) as [-> _].
    unfold settings. fields. apply recorded_carries. }
  destruct (update_regulating_final clk t s) as (kp & ki & kd & ch & h & -> & _).
  { unfold regulating. now rewrite Hoff, Hidle. }
  unfold settings. fields. apply beforePID_carries.
Qed.

(** ** Anti-windup *)

Lemma Qdiv_nonneg (a b : Q) : 0 <= a -> 0 < b -> 0 <= a / b.
Proof.
  intros Ha Hb. apply Qle_shift_div_l; [exact Hb | lra].
Qed.


Lemma integralLimit_nonneg (s : Controller) :
  minTemp s <= maxTemp s -> 0 < Ki s -> 0 <= integralLimit s.
Proof.
  intros Hb HKi. apply Qdiv_nonneg; lra.
Qed.









(** The constructor builds a well-formed instance from a configuration whose
    bounds, defaults applied, are ordered and whose integral gain, default
    applied, is at or above the floor. *)
Lemma constructor_wellFormed (config : Config) :
  or_default (cfg_minTemp config) 15 <= or_default (cfg_maxTemp config) 25 ->
  0.001 <= or_default (cfg_Ki config) 0.02 ->
  wellFormed (constructor config).
Proof.
  intros Hbounds HKi. unfold wellFormed.
  split; [exact Hbounds|]. split; [exact HKi|].
  split; [apply Qle_refl|].
  apply integralLimit_nonneg; [exact Hbounds|].
  change (Ki (constructor config)) with (or_default (cfg_Ki config) 0.02).
  lra.
Qed.




(** ** Rate limiting *)

Lemma roundToPrecision_ext (s1 s2 : Controller) (x : Q) :
  precision s1 = precision s2 -> roundToPrecision s1 x = roundToPrecision s2 x.
Proof. unfold roundToPrecision. now intros ->. Qed.




Lemma beginCycle_target_in_range (clk : Clock) (s : Controller) :
  minTemp s <= maxTemp s ->
  minTemp s <= targetTemp (beginCycle clk s) <= maxTemp s.
Proof.
  intros Hb. unfold beginCycle, calculateEffectiveTarget.
  destruct (checkBoostExpiry_frame clk (set_lastUpdateTime (Some (now clk)) s))
    as (active & btemp & expiry & ->).
  fields. now apply clamp_bounds.
Qed.

Lemma calculatePID_carries (error dt : Q) (activeMode : string) (s : Controller) :
  settings (snd (calculatePID error dt activeMode s)) = settings s /\
  lastOutput (snd (calculatePID error dt activeMode s)) = lastOutput s.
Proof.
  rewrite calculatePID_frame. unfold settings. fields. split; reflexivity.
Qed.





(** ** The activation latch *)

Lemma update_off_result (clk : Clock) (t : Q) (s : Controller) :
  String.eqb (operatingMode s) "off" = true ->
  d_trend (debug (fst (update clk t s))) = "off".
Proof.
  intros Hoff. unfold update. rewrite beginCycle_operatingMode, Hoff.
  reflexivity.
Qed.

Lemma detectTrend_labels (s : Controller) :
  In (detectTrend s) ["unknown"; "heating"; "cooling"; "stable"].
Proof.
  unfold detectTrend.
  destruct (_ <? 3)%nat; [|destruct (Qltb 0.1 _); [|destruct (Qltb _ (-0.1))]];
    cbn; tauto.
Qed.

Lemma createOutput_trend (s : Controller) (out t error : Q) (trend : string)
    (pidResult : option PidResult) (activeMode : string) :
  d_trend (debug (createOutput s out t error trend pidResult activeMode)) = trend.
Proof. reflexivity. Qed.

(** The trend labels a cycle can report. *)
Lemma update_trend_labels (clk : Clock) (t : Q) (s : Controller) :
  In (d_trend (debug (fst (update clk t s))))
     ["off"; "idle"; "stable"; "unknown"; "heating"; "cooling"].
Proof.
  destruct (String.eqb (operatingMode s) "off") eqn:Hoff.
  { rewrite update_off_result by exact Hoff. cbn [In]. tauto. }
  destruct (modeMismatch (recorded clk t s) (cycleError clk t s)) eqn:Hidle.
  { rewrite (update_idle clk t s Hoff Hidle). unfold idleCycle. cbn [fst].
    rewrite createOutput_trend. cbn [In]. tauto. }
  rewrite (update_regulating clk t s)
    by (unfold regulating; now rewrite Hoff, Hidle).
  rewrite regulate_state. cbv zeta. cbn [fst]. rewrite createOutput_trend.
  destruct (Qltb _ _); [cbn [In]; tauto|].
  match goal with |- context [detectTrend ?final] =>
    pose proof (detectTrend_labels final) as H;
    set (label := detectTrend final) in *; clearbody label;
    cbn [In] in H |- *; tauto
  end.
Qed.

(** No cycle reports the label the cooling latch waits for, so its
    proactive condition never holds on a result of [update]. *)
Lemma coolingProactive_never (clk : Clock) (t prec : Q) (s : Controller) :
  coolingProactive prec (fst (update clk t s)) = false.
Proof.
  unfold coolingProactive.
  pose proof (update_trend_labels clk t s) as H.
  destruct (String.eqb_spec (d_trend (debug (fst (update clk t s)))) "warming")
    as [E|_].
  - rewrite E in H. cbn in H. intuition discriminate.
  - now rewrite andb_false_r.
Qed.

(** C5 (evaluation at the failing input). In cooling direction, with the
    room 0.2 above the target, the setpoint more than one precision step
    below the target and the newest of the last five readings 0.3 above the
    oldest, trend detection reports "heating", the handler compares with
    "warming", and the latch stays off. *)
Theorem cooling_latch_misses_rising_trend :
  let final := default fresh (last (run (constructor coolingConfig) warmingReadings)) in
  let '(result, isActive) :=
    default (fst (update (sundayNoon 0) 0 fresh), true)
            (last (feed (constructor coolingConfig, mkLatch false false)
                        warmingReadings)) in
  d_activeMode (debug result) = "cool" /\
  output result < d_targetTemp (debug result) - precision final /\
  d_error (debug result) < 0 /\
  ~ d_error (debug result) < - hysteresis final /\
  trendWindow final = [20.9; 21; 21.2; 21.2; 21.2] /\
  detectTrend final = "heating" /\
  d_trend (debug result) = "heating" /\
  coolingProactive (precision final) result = false /\
  isActive = false.
Proof.
  vm_compute. repeat split; try reflexivity. intros H. discriminate H.
Qed.

(** The heating direction, which compares with a label that trend
    detection does produce, switches on proactively in the mirror
    situation. *)
Lemma heating_latch_catches_falling_trend :
  let '(result, isActive) :=
    default (fst (update (sundayNoon 0) 0 fresh), false)
            (last (feed (fresh, mkLatch false false) coolingDownReadings)) in
  ~ hysteresis fresh < d_error (debug result) /\
  heatingProactive (precision fresh) result = true /\
  isActive = true.
Proof.
  vm_compute. repeat split; try reflexivity. intros H. discriminate H.
Qed.

(** ** The learning timeout *)

(** Below the sample threshold [learn] returns before it looks at the
    clock: the learning state is left as it was, however long ago learning
    started. *)
Lemma learn_below_samplesNeeded (clk : Clock) (s : Controller) :
  (length (temperatureHistory s) < samplesNeeded)%nat ->
  learningComplete (learn clk s) = learningComplete s /\
  learningPhase (learn clk s) = learningPhase s.
Proof.
  intros Hfew. unfold learn.
  set (started := if truthyZ (learningStartTime s) then s
                  else set_learningStartTime (Some (now clk)) s).
  assert (Hstarted : temperatureHistory started = temperatureHistory s /\
                     learningComplete started = learningComplete s /\
                     learningPhase started = learningPhase s)
    by (subst started; destruct (truthyZ _); repeat split).
  destruct Hstarted as (Hh & Hc & Hp). clearbody started.
  rewrite Hh. apply Nat.ltb_lt in Hfew. rewrite Hfew. now split.
Qed.

(** With enough samples, a learning step taken more than an hour after
    learning started ends the learning phase whether or not the estimation
    succeeded; if it did not, the gains are the ones already set. *)
Lemma learn_times_out (clk : Clock) (s : Controller) (t0 : Z) :
  learningStartTime s = Some t0 -> t0 <> 0%Z ->
  (3600000 < now clk - t0)%Z ->
  (samplesNeeded <= length (temperatureHistory s))%nat ->
  learningComplete (learn clk s) = true /\
  learningPhase (learn clk s) = false /\
  (let c := estimateThermalCharacteristics s in
   ~ (0 < timeConstant c /\ 0 < deadTime c) ->
   Kp (learn clk s) = Kp s /\ Ki (learn clk s) = Ki s /\ Kd (learn clk s) = Kd s).
Proof.
  intros Hstart Ht0 Hlate Hmany. unfold learn.
  rewrite Hstart. cbn [truthyZ].
  replace (t0 =? 0)%Z with false by (symmetry; now apply Z.eqb_neq).
  cbn [negb].
  replace (length (temperatureHistory s) <? samplesNeeded)%nat with false
    by (symmetry; apply Nat.ltb_ge, Hmany).
  set (c := estimateThermalCharacteristics s). clearbody c.
  destruct (Qltb 0 (timeConstant c) && Qltb 0 (deadTime c)) eqn:Hest.
  - fields.
    destruct (adaptPIDParameters_frame c s) as (kp & ki & kd & ch & -> & _).
    fields. rewrite Hstart. cbn [from_option id].
    replace (3600000 <? now clk - t0)%Z with true
      by (symmetry; now apply Z.ltb_lt).
    fields. split; [reflexivity|]. split; [reflexivity|].
    intros Hfail. exfalso. apply Hfail.
    apply andb_true_iff in Hest. now rewrite <- !Qltb_lt.
  - rewrite Hstart. cbn [from_option id].
    replace (3600000 <? now clk - t0)%Z with true
      by (symmetry; now apply Z.ltb_lt).
    fields. repeat split.
Qed.

(** C4 (evaluation at the failing input). Readings arrive every five
    minutes.  When the fourteenth is processed, 65 minutes after learning
    started, the cycle regulates and reaches the learning step, the
    one-hour history holds fewer than thirty readings, and the controller is
    still learning: the timeout is not reached. *)
Theorem learning_timeout_skipped_with_few_samples :
  let s' := snd (update timeoutClock 20 beforeTimeout) in
  learningPhase beforeTimeout = true /\
  learningComplete beforeTimeout = false /\
  learningStartTime beforeTimeout = Some 1000%Z /\
  (3600000 < now timeoutClock - 1000)%Z /\
  regulating timeoutClock 20 beforeTimeout = true /\
  length (temperatureHistory s') = 12%nat /\
  learningComplete s' = false /\
  learningPhase s' = true.
Proof. vm_compute. repeat split; reflexivity. Qed.

Lemma recorded_learning (clk : Clock) (t : Q) (s : Controller) :
  learningPhase (recorded clk t s) = learningPhase s /\
  learningComplete (recorded clk t s) = learningComplete s /\
  learningStartTime (recorded clk t s) = learningStartTime s.
Proof.
  unfold recorded, recordTemperature. fields.
  rewrite beginCycle_frame. fields. repeat split.
Qed.

(** The timeout as the code implements it: a regulating cycle of a learning
    controller, taken more than an hour after learning started and with at
    least thirty readings in the one-hour history, leaves the controller
    tuned. *)
Lemma update_learning_times_out (clk : Clock) (t : Q) (s : Controller) (t0 : Z) :
  regulating clk t s = true ->
  learningPhase s = true -> learningComplete s = false ->
  learningStartTime s = Some t0 -> t0 <> 0%Z ->
  (3600000 < now clk - t0)%Z ->
  (samplesNeeded <= length (temperatureHistory (recorded clk t s)))%nat ->
  learningComplete (snd (update clk t s)) = true /\
  learningPhase (snd (update clk t s)) = false.
Proof.
  intros Hreg Hphase Hcomplete Hstart Ht0 Hlate Hmany.
  destruct (update_regulating_final clk t s Hreg)
    as (kp & ki & kd & ch & h & -> & _).
  fields. unfold beforePID.
  destruct (recorded_learning clk t s) as (Hp & Hc & Hs).
  rewrite Hp, Hc, Hphase, Hcomplete. cbn [andb negb].
  rewrite Hstart in Hs.
  destruct (learn_times_out clk (recorded clk t s) t0 Hs Ht0 Hlate Hmany)
    as (Hdone & Hoff & _).
  now split.
Qed.

(** * Further properties of the controller *)

(** ** The rolling buffers *)

Lemma beforePID_buffers (clk : Clock) (t : Q) (s : Controller) :
  trendWindow (beforePID clk t s) = trendWindow (recorded clk t s) /\
  temperatureHistory (beforePID clk t s) = temperatureHistory (recorded clk t s).
Proof.
  unfold beforePID.
  destruct (learningPhase _ && negb (learningComplete _)); [|now split].
  destruct (learn_frame clk (recorded clk t s))
    as (kp & ki & kd & ch & st & ph & co & -> & _).
  fields. now split.
Qed.

Lemma recorded_buffers (clk : Clock) (t : Q) (s : Controller) :
  trendWindow (recorded clk t s)
  = trendWindow (recordTemperature t (now clk) s) /\
  temperatureHistory (recorded clk t s)
  = temperatureHistory (recordTemperature t (now clk) s).
Proof.
  unfold recorded, recordTemperature. fields.
  rewrite beginCycle_frame. fields. now split.
Qed.

(** The buffers a cycle leaves are those of [recordTemperature] on the
    instance the cycle started from; in mode off they are not touched. *)
Lemma update_buffers (clk : Clock) (t : Q) (s : Controller) :
  let s' := snd (update clk t s) in
  let kept := if String.eqb (operatingMode s) "off" then s
              else recordTemperature t (now clk) s in
  trendWindow s' = trendWindow kept /\
  temperatureHistory s' = temperatureHistory kept.
Proof.
  cbv zeta.
  destruct (String.eqb (operatingMode s) "off") eqn:Hoff.
  { rewrite update_off by exact Hoff. rewrite beginCycle_frame. fields.
    now split. }
  destruct (recorded_buffers clk t s) as [Hw Hh].
  destruct (modeMismatch (recorded clk t s) (cycleError clk t s)) eqn:Hidle.
  { destruct (update_idle_final clk t s Hoff Hidle) as [-> _].
    fields. now split. }
  destruct (update_regulating_final clk t s)
    as (kp & ki & kd & ch & h & -> & _).
  { unfold regulating. now rewrite Hoff, Hidle. }
  fields. destruct (beforePID_buffers clk t s) as [-> ->]. now split.
Qed.

Lemma recordTemperature_window (t : Q) (ts : Z) (s : Controller) :
  (length (trendWindow s) <= trendWindowSize)%nat ->
  (length (trendWindow (recordTemperature t ts s)) <= trendWindowSize)%nat /\
  last (trendWindow (recordTemperature t ts s)) = Some t.
Proof.
  intros Hlen. unfold recordTemperature. fields.
  unfold trendWindowSize in *.
  set (w := trendWindow s) in *. clearbody w.
  rewrite length_app. cbn [length].
  destruct (5 <? length w + 1)%nat eqn:Hfull.
  - apply Nat.ltb_lt in Hfull. destruct w as [|a w]; [cbn in Hfull; lia|].
    cbn [app tail length] in *. split; [rewrite length_app; cbn; lia|].
    apply last_snoc.
  - apply Nat.ltb_ge in Hfull. split; [rewrite length_app; cbn; lia|].
    apply last_snoc.
Qed.

(** X1. A cycle keeps the trend window at five readings or fewer, and
    outside operating mode off the window ends with the reading just
    processed. *)
Theorem update_keeps_trend_window_bounded
    (clk : Clock) (t : Q) (s : Controller) :
  (length (trendWindow s) <= 5)%nat ->
  (length (trendWindow (snd (update clk t s))) <= 5)%nat /\
  (operatingMode s <> "off" ->
   last (trendWindow (snd (update clk t s))) = Some t).
Proof.
  intros Hlen. destruct (update_buffers clk t s) as [Hw _]. cbv zeta in Hw.
  rewrite Hw.
  destruct (recordTemperature_window t (now clk) s Hlen) as [Hbound Hlast].
  destruct (String.eqb_spec (operatingMode s) "off") as [Hoff|Hon].
  - split; [exact Hlen | intros H; contradiction].
  - split; [exact Hbound | intros _; exact Hlast].
Qed.

Lemma update_keeps_trend_window_bounded_witness :
  (length (trendWindow (snd (update (sundayNoon 1000) 20 fresh))) <= 5)%nat.
Proof.
  apply (update_keeps_trend_window_bounded (sundayNoon 1000) 20 fresh).
  cbn. lia.
Defined.

(** X2. Outside operating mode off, the temperature history a cycle leaves
    holds only readings younger than one hour, taken in their order from
    the previous history followed by the new reading, and the new reading
    is its last entry. *)
Theorem update_keeps_history_within_hour
    (clk : Clock) (t : Q) (s : Controller) :
  operatingMode s <> "off" ->
  let history := temperatureHistory (snd (update clk t s)) in
  Forall (fun r => (now clk - 3600000 < timestamp r)%Z) history /\
  sublist history (temperatureHistory s ++ [mkReading t (now clk)]) /\
  last history = Some (mkReading t (now clk)).
Proof.
  intros Hon. cbv zeta. destruct (update_buffers clk t s) as [_ Hh].
  cbv zeta in Hh. rewrite Hh.
  apply String.eqb_neq in Hon. rewrite Hon.
  unfold recordTemperature. fields.
  split; [|split].
  - apply list.Forall_forall. intros r Hr.
    apply list_elem_of_filter in Hr. exact (proj1 Hr).
  - apply sublist_filter.
  - rewrite filter_app. cbn [filter list_filter].
    rewrite decide_True by (cbn; lia).
    apply last_snoc.
Qed.

Lemma update_keeps_history_within_hour_witness :
  last (temperatureHistory (snd (update (sundayNoon 1000) 20 fresh)))
  = Some (mkReading 20 1000).
Proof.
  apply (update_keeps_history_within_hour (sundayNoon 1000) 20 fresh).
  discriminate.
Defined.

Lemma continuousAdaptation_history (s : Controller) :
  performanceHistory (continuousAdaptation s) = performanceHistory s.
Proof.
  destruct (continuousAdaptation_frame s) as (kp & ki & kd & ch & -> & _).
  fields. reflexivity.
Qed.

Lemma trackPerformance_history (error : Q) (s : Controller) :
  performanceHistory (trackPerformance error s)
  = if (1000 <? length (performanceHistory s ++ [Qabs error]))%nat
    then tail (performanceHistory s ++ [Qabs error])
    else performanceHistory s ++ [Qabs error].
Proof.
  unfold trackPerformance.
  match goal with |- context [if ?c then continuousAdaptation _ else _] =>
    destruct c
  end.
  - rewrite continuousAdaptation_history. fields. reflexivity.
  - fields. reflexivity.
Qed.

(** X3. Recording an error keeps the performance buffer at a thousand
    entries or fewer, all of them non-negative, with the new absolute error
    as its last entry. *)
Theorem trackPerformance_keeps_buffer_capped (error : Q) (s : Controller) :
  (length (performanceHistory s) <= 1000)%nat ->
  Forall (fun e => 0 <= e) (performanceHistory s) ->
  let history := performanceHistory (trackPerformance error s) in
  (length history <= 1000)%nat /\
  Forall (fun e => 0 <= e) history /\
  last history = Some (Qabs error).
Proof.
  intros Hlen Hpos. cbv zeta. rewrite trackPerformance_history.
  set (h := performanceHistory s) in *. clearbody h.
  assert (Hall : Forall (fun e => 0 <= e) (h ++ [Qabs error])).
  { apply Forall_app. split; [exact Hpos|].
    constructor; [apply Qabs_nonneg | constructor]. }
  rewrite length_app. cbn [length].
  destruct (1000 <? length h + 1)%nat eqn:Hfull.
  - apply Nat.ltb_lt in Hfull. destruct h as [|a h]; [cbn in Hfull; lia|].
    cbn [app tail length] in *.
    split; [rewrite length_app; cbn; lia|].
    split; [now inversion Hall | apply last_snoc].
  - apply Nat.ltb_ge in Hfull.
    split; [rewrite length_app; cbn; lia|].
    split; [exact Hall | apply last_snoc].
Qed.

Lemma trackPerformance_keeps_buffer_capped_witness :
  (length (performanceHistory (trackPerformance 0.3 fullBuffer)) <= 1000)%nat.
Proof.
  apply (trackPerformance_keeps_buffer_capped 0.3 fullBuffer).
  - apply Nat.leb_le. vm_compute. reflexivity.
  - apply List.Forall_forall. intros e He. apply repeat_spec in He. subst e.
    vm_compute. discriminate.
Defined.

(** X4. While the performance buffer holds fewer than a thousand entries,
    an error whose arrival does not bring the count to a multiple of a
    hundred is only appended.  Once the buffer holds a thousand entries the
    count stays at a thousand, a multiple of a hundred, and every further
    error runs continuous adaptation. *)
Theorem trackPerformance_adaptation_schedule (error : Q) (s : Controller) :
  ((length (performanceHistory s) < 1000)%nat ->
   S (length (performanceHistory s)) mod 100 <> 0%nat ->
   trackPerformance error s
   = set_performanceHistory (performanceHistory s ++ [Qabs error]) s) /\
  (length (performanceHistory s) = 1000%nat ->
   trackPerformance error s
   = continuousAdaptation
       (set_performanceHistory (tail (performanceHistory s ++ [Qabs error])) s)).
Proof.
  assert (Hsnoc : forall h : list Q,
             length (h ++ [Qabs error]) = S (length h))
    by (intros h; rewrite length_app; cbn; lia).
  split.
  - intros Hlen Hmod. unfold trackPerformance.
    replace (1000 <? length (performanceHistory s ++ [Qabs error]))%nat
      with false by (symmetry; apply Nat.ltb_ge; rewrite Hsnoc; lia).
    rewrite Hsnoc. unfold adaptationInterval.
    replace (S (length (performanceHistory s)) mod 100 =? 0)%nat with false
      by (symmetry; now apply Nat.eqb_neq).
    now rewrite andb_false_r.
  - intros Hlen. unfold trackPerformance.
    replace (1000 <? length (performanceHistory s ++ [Qabs error]))%nat
      with true by (symmetry; apply Nat.ltb_lt; rewrite Hsnoc; lia).
    assert (Htail : length (tail (performanceHistory s ++ [Qabs error]))
                    = 1000%nat).
    { destruct (performanceHistory s) as [|a h]; [discriminate Hlen|].
      cbn [app tail]. rewrite Hsnoc. cbn in Hlen. lia. }
    rewrite Htail. reflexivity.
Qed.

Lemma trackPerformance_adaptation_schedule_witness :
  trackPerformance 0.3 fullBuffer
  = continuousAdaptation
      (set_performanceHistory
         (tail (performanceHistory fullBuffer ++ [Qabs 0.3])) fullBuffer).
Proof.
  apply (trackPerformance_adaptation_schedule 0.3 fullBuffer).
  vm_compute. reflexivity.
Defined.

(** ** The gains *)

Lemma gainsInBounds_ext (a b : Controller) :
  Kp a = Kp b -> Ki a = Ki b -> Kd a = Kd b ->
  gainsInBounds b -> gainsInBounds a.
Proof. unfold gainsInBounds. now intros -> -> ->. Qed.

Lemma limitGains_in_bounds (s : Controller) : gainsInBounds (limitGains s).
Proof.
  rewrite limitGains_frame. unfold gainsInBounds. fields.
  repeat split; apply clamp_bounds; lra.
Qed.

Lemma adaptPIDParameters_in_bounds (c : Characteristics) (s : Controller) :
  gainsInBounds s \/ (0 < timeConstant c /\ 0 < deadTime c) ->
  gainsInBounds (adaptPIDParameters c s).
Proof.
  intros H. unfold adaptPIDParameters.
  destruct (Qle_bool (timeConstant c) 0) eqn:Htc.
  { cbn [orb]. destruct H as [H|[H _]]; [exact H|].
    apply Qle_bool_iff in Htc. lra. }
  destruct (Qle_bool (deadTime c) 0) eqn:Hdt.
  { cbn [orb]. destruct H as [H|[_ H]]; [exact H|].
    apply Qle_bool_iff in Hdt. lra. }
  cbn [orb].
  match goal with |- gainsInBounds (set_parametersChanged true (limitGains ?x)) =>
    apply (gainsInBounds_ext _ (limitGains x));
      [fields; reflexivity | fields; reflexivity | fields; reflexivity
      | apply limitGains_in_bounds]
  end.
Qed.

Lemma continuousAdaptation_in_bounds (s : Controller) :
  gainsInBounds s \/ (100 <= length (performanceHistory s))%nat ->
  gainsInBounds (continuousAdaptation s).
Proof.
  intros H. unfold continuousAdaptation, adaptationInterval.
  destruct (length (performanceHistory s) <? 100)%nat eqn:Hlen.
  { destruct H as [H|H]; [exact H|]. apply Nat.ltb_lt in Hlen. lia. }
  match goal with |- context [limitGains ?x] =>
    pose proof (limitGains_in_bounds x) as Hb; set (limited := limitGains x) in *
  end.
  clearbody limited.
  destruct (_ || _); [|exact Hb].
  apply (gainsInBounds_ext _ limited); try exact Hb; fields; reflexivity.
Qed.

Lemma trackPerformance_in_bounds (error : Q) (s : Controller) :
  gainsInBounds s -> gainsInBounds (trackPerformance error s).
Proof.
  intros H. unfold trackPerformance.
  match goal with |- context [continuousAdaptation ?x] =>
    assert (Hx : gainsInBounds x)
      by (apply (gainsInBounds_ext _ s); try exact H; fields; reflexivity);
    set (pushed := x) in *
  end.
  clearbody pushed.
  destruct (_ && _); [|exact Hx].
  apply continuousAdaptation_in_bounds. now left.
Qed.

Lemma learn_in_bounds (clk : Clock) (s : Controller) :
  gainsInBounds s -> gainsInBounds (learn clk s).
Proof.
  intros H. unfold learn.
  set (started := if truthyZ (learningStartTime s) then s
                  else set_learningStartTime (Some (now clk)) s).
  assert (Hstarted : gainsInBounds started).
  { subst started. destruct (truthyZ _); [exact H|].
    apply (gainsInBounds_ext _ s); try exact H; fields; reflexivity. }
  clearbody started.
  destruct (_ <? samplesNeeded)%nat; [exact Hstarted|].
  set (c := estimateThermalCharacteristics started). clearbody c.
  pose proof (adaptPIDParameters_in_bounds c started (or_introl Hstarted))
    as Hadapted.
  set (adapted := adaptPIDParameters c started) in *. clearbody adapted.
  destruct (Qltb 0 _ && Qltb 0 _).
  - match goal with |- context [if ?b then _ else _] => destruct b end;
      (eapply gainsInBounds_ext; [| | |exact Hadapted]); fields; reflexivity.
  - match goal with |- context [if ?b then _ else _] => destruct b end;
      [|exact Hstarted].
    apply (gainsInBounds_ext _ started); try exact Hstarted; fields; reflexivity.
Qed.

Lemma recorded_gains (clk : Clock) (t : Q) (s : Controller) :
  Kp (recorded clk t s) = Kp s /\ Ki (recorded clk t s) = Ki s /\
  Kd (recorded clk t s) = Kd s.
Proof.
  unfold recorded, recordTemperature. fields.
  rewrite beginCycle_frame. fields. repeat split.
Qed.

(** X5. Gains within Kp in [0.1, 5], Ki in [0.001, 0.5] and Kd in [0, 2]
    stay within these bounds through every cycle, whatever tuning or
    adaptation the cycle performs; a tuning step that applies and an
    adaptation step over a hundred or more errors bring any gains into the
    bounds. *)
Theorem gains_stay_in_bounds
    (clk : Clock) (t : Q) (c : Characteristics) (s : Controller) :
  (gainsInBounds s -> gainsInBounds (snd (update clk t s))) /\
  (0 < timeConstant c -> 0 < deadTime c ->
   gainsInBounds (adaptPIDParameters c s)) /\
  ((100 <= length (performanceHistory s))%nat ->
   gainsInBounds (continuousAdaptation s)).
Proof.
  split; [|split].
  - intros H. destruct (recorded_gains clk t s) as (Hp & Hi & Hd).
    assert (Hrec : gainsInBounds (recorded clk t s))
      by (now apply (gainsInBounds_ext _ s)).
    destruct (String.eqb (operatingMode s) "off") eqn:Hoff.
    { rewrite update_off by exact Hoff.
      apply (gainsInBounds_ext _ s); try exact H;
        rewrite beginCycle_frame; fields; reflexivity. }
    destruct (modeMismatch (recorded clk t s) (cycleError clk t s)) eqn:Hidle.
    { destruct (update_idle_final clk t s Hoff Hidle) as [-> _].
      apply (gainsInBounds_ext _ (recorded clk t s)); try exact Hrec;
        fields; reflexivity. }
    rewrite (update_regulating clk t s)
      by (unfold regulating; now rewrite Hoff, Hidle).
    rewrite regulate_state. cbv zeta. cbn [snd].
    match goal with |- context [calculatePID _ _ _ ?x] =>
      set (learned := x)
    end.
    assert (Hlearned : gainsInBounds learned).
    { subst learned. destruct (_ && _); [|exact Hrec].
      now apply learn_in_bounds. }
    clearbody learned.
    match goal with |- context [trackPerformance ?e ?x] =>
      assert (Hstored : gainsInBounds x);
        [|set (stored := x) in *; clearbody stored]
    end.
    { apply (gainsInBounds_ext _ learned); try exact Hlearned;
        rewrite calculatePID_frame; fields; reflexivity. }
    destruct (negb (learningPhase stored)); [|exact Hstored].
    now apply trackPerformance_in_bounds.
  - intros Htc Hdt. apply adaptPIDParameters_in_bounds. now right.
  - intros Hlen. apply continuousAdaptation_in_bounds. now right.
Qed.

Lemma gains_stay_in_bounds_witness :
  gainsInBounds (snd (update tuningClock 21 beforeTuning)).
Proof.
  apply (proj1 (gains_stay_in_bounds tuningClock 21 (mkCharacteristics 100 5)
                  beforeTuning)).
  unfold gainsInBounds. vm_compute. repeat split; discriminate.
Defined.

Lemma scanMaxChange_below (t0 bound : Q) (temps : list Q) (i : nat)
    (acc : Q * nat) :
  fst acc < bound ->
  Forall (fun x => Qabs (x - t0) < bound) temps ->
  fst (scanMaxChange t0 temps i acc) < bound.
Proof.
  revert i acc. induction temps as [|x rest IH]; intros i acc Hacc Hall.
  - exact Hacc.
  - inversion Hall as [|? ? Hx Hrest]; subst. cbn [scanMaxChange].
    apply IH; [|exact Hrest].
    destruct (Qltb (fst acc) (Qabs (x - t0))); [exact Hx | exact Hacc].
Qed.

Lemma flatHistory_inconclusive (s : Controller) :
  flatHistory s ->
  estimateThermalCharacteristics s = mkCharacteristics 0 0.
Proof.
  unfold flatHistory, estimateThermalCharacteristics. intros Hflat.
  destruct (length (temperatureHistory s) <? 10)%nat; [reflexivity|].
  destruct (temperatureHistory s) as [|first rest].
  - cbn. reflexivity.
  - cbn [map tail lookup list_lookup from_option id].
    pose proof (scanMaxChange_below (rtemp first) 0.5 (map rtemp rest) 1
                  (0, 0%nat)) as Hscan.
    destruct (scanMaxChange (rtemp first) (map rtemp rest) 1 (0, 0%nat))
      as [maxChange changeEndIdx].
    cbn [fst] in Hscan.
    replace (Qltb maxChange 0.5) with true; [reflexivity|].
    symmetry. apply Qltb_lt, Hscan; [reflexivity|].
    apply Forall_map. exact Hflat.
Qed.

(** X6. When no reading of the history lies half a degree or more from the
    first one, the estimation is inconclusive (time constant and dead time
    0) and a learning step leaves the gains and the parameters-changed flag
    as they were, however many readings there are. *)
Theorem flat_history_teaches_nothing (clk : Clock) (s : Controller) :
  flatHistory s ->
  estimateThermalCharacteristics s = mkCharacteristics 0 0 /\
  Kp (learn clk s) = Kp s /\ Ki (learn clk s) = Ki s /\
  Kd (learn clk s) = Kd s /\
  parametersChanged (learn clk s) = parametersChanged s.
Proof.
  intros Hflat. split; [now apply flatHistory_inconclusive|].
  unfold learn.
  set (started := if truthyZ (learningStartTime s) then s
                  else set_learningStartTime (Some (now clk)) s).
  assert (Hstarted : Kp started = Kp s /\ Ki started = Ki s /\
                     Kd started = Kd s /\
                     parametersChanged started = parametersChanged s /\
                     flatHistory started).
  { subst started. destruct (truthyZ _); repeat split; exact Hflat. }
  destruct Hstarted as (Hp & Hi & Hd & Hc & Hf). clearbody started.
  destruct (_ <? samplesNeeded)%nat; [now repeat split|].
  rewrite (flatHistory_inconclusive started Hf).
  cbn [timeConstant deadTime].
  replace (Qltb 0 0) with false by reflexivity. cbn [andb].
  destruct (3600000 <? _)%Z; fields; now repeat split.
Qed.

Lemma flat_history_teaches_nothing_witness :
  estimateThermalCharacteristics steadyRoom = mkCharacteristics 0 0.
Proof.
  apply (flat_history_teaches_nothing (sundayNoon 0) steadyRoom).
  unfold flatHistory. vm_compute. repeat constructor.
Defined.

(** ** Target resolution, boost and away *)

Lemma set_targetTemp_twice (x y : Q) (s : Controller) :
  set_targetTemp y (set_targetTemp x s) = set_targetTemp y s.
Proof. same_instance s. Qed.

(** The resolved target depends only on the fields the resolution reads. *)
Lemma calculateEffectiveTarget_ext (clk : Clock) (a b : Controller) :
  baseTargetTemp a = baseTargetTemp b -> schedule a = schedule b ->
  awayMode a = awayMode b -> awayTemp a = awayTemp b ->
  boostActive a = boostActive b -> boostTemp a = boostTemp b ->
  minTemp a = minTemp b -> maxTemp a = maxTemp b ->
  targetTemp (calculateEffectiveTarget clk a)
  = targetTemp (calculateEffectiveTarget clk b).
Proof.
  intros Hbase Hsch Haway HawayT Hactive Htemp Hmin Hmax.
  unfold calculateEffectiveTarget, getScheduledTemp. fields.
  now rewrite Hbase, Hsch, Haway, HawayT, Hactive, Htemp, Hmin, Hmax.
Qed.

(** X7. Resolving the target twice with nothing changed in between gives
    the same instance and the same value as resolving it once. *)
Theorem target_resolution_idempotent (clk : Clock) (s : Controller) :
  calculateEffectiveTarget clk (calculateEffectiveTarget clk s)
  = calculateEffectiveTarget clk s /\
  fst (syncSchedule clk (snd (syncSchedule clk s))) = fst (syncSchedule clk s).
Proof.
  assert (Hcalc : calculateEffectiveTarget clk (calculateEffectiveTarget clk s)
                  = calculateEffectiveTarget clk s).
  { destruct (calculateEffectiveTarget_frame clk s) as (x & Hx).
    destruct (calculateEffectiveTarget_frame clk (set_targetTemp x s))
      as (y & Hy).
    assert (Hsame : targetTemp (calculateEffectiveTarget clk (set_targetTemp x s))
                    = targetTemp (calculateEffectiveTarget clk s))
      by (apply calculateEffectiveTarget_ext; fields; reflexivity).
    rewrite Hx at 1. rewrite Hy, set_targetTemp_twice.
    rewrite Hy, Hx in Hsame. fields_in Hsame. rewrite Hsame.
    symmetry. exact Hx. }
  split; [exact Hcalc|].
  unfold syncSchedule. cbn [fst snd]. now rewrite Hcalc.
Qed.




(** X9. A boost request with a temperature and a positive duration holds
    the resolved target at the requested temperature (clamped) in every
    cycle up to and including the expiry instant; the first cycle after the
    expiry clears the boost and resolves the target as if no boost had ever
    been requested.  A request with a duration of zero or less is ignored. *)
Theorem boost_holds_then_expires
    (clk0 clk : Clock) (temp : Q) (duration : Z) (s : Controller) :
  minTemp s <= maxTemp s ->
  (0 <= now clk0)%Z ->
  let boosted := setBoost clk0 (BoostObject (Some temp) (Some duration)) s in
  let expiry := (now clk0 + duration * 60 * 1000)%Z in
  ((0 < duration)%Z -> (now clk <= expiry)%Z ->
   targetTemp (beginCycle clk boosted) == clamp temp (minTemp s) (maxTemp s)) /\
  ((0 < duration)%Z -> (expiry < now clk)%Z ->
   boostActive (beginCycle clk boosted) = false /\
   boostTemp (beginCycle clk boosted) = None /\
   boostEndTime (beginCycle clk boosted) = None /\
   targetTemp (beginCycle clk boosted)
   = targetTemp (calculateEffectiveTarget clk (set_boost false None None s))) /\
  ((duration <= 0)%Z -> boosted = s).
Proof.
  intros Hb Hnow. cbv zeta. unfold setBoost.
  split; [|split].
  - intros Hd Hlive. replace (0 <? duration)%Z with true
      by (symmetry; now apply Z.ltb_lt).
    unfold beginCycle.
    rewrite checkBoostExpiry_not_expired.
    + rewrite (calculateEffectiveTarget_boost clk _
                 (clamp temp (minTemp s) (maxTemp s)))
        by (fields; reflexivity).
      fields. apply clamp_inside. now apply clamp_bounds.
    + fields. intros e [= <-]. exact Hlive.
  - intros Hd Hpast. replace (0 <? duration)%Z with true
      by (symmetry; now apply Z.ltb_lt).
    unfold beginCycle, checkBoostExpiry. fields. cbn [truthyZ andb].
    replace (now clk0 + duration * 60 * 1000 =? 0)%Z with false
      by (symmetry; apply Z.eqb_neq; lia).
    replace (now clk0 + duration * 60 * 1000 <? now clk)%Z with true
      by (symmetry; now apply Z.ltb_lt).
    cbn [negb].
    split; [|split; [|split]].
    + unfold calculateEffectiveTarget. fields. reflexivity.
    + unfold calculateEffectiveTarget. fields. reflexivity.
    + unfold calculateEffectiveTarget. fields. reflexivity.
    + apply calculateEffectiveTarget_ext; fields; reflexivity.
  - intros Hd. replace (0 <? duration)%Z with false
      by (symmetry; now apply Z.ltb_ge).
    reflexivity.
Qed.

Lemma boost_holds_then_expires_witness :
  targetTemp
    (beginCycle (tuesdayNight 61000)
       (setBoost (tuesdayNight 1000) (BoostObject (Some 24) (Some 60%Z))
          (set_schedule (Some sampleSchedule) fresh)))
  == clamp 24 (minTemp fresh) (maxTemp fresh).
Proof.
  apply (proj1 (boost_holds_then_expires (tuesdayNight 1000) (tuesdayNight 61000)
                  24 60 (set_schedule (Some sampleSchedule) fresh)
                  ltac:(vm_compute; discriminate) ltac:(cbn; lia))).
  - reflexivity.
  - cbn. lia.
Defined.

(** ** Schedule lookup *)

Lemma find_over_app {A : Type} (p : A -> bool) (l1 l2 : list A) :
  List.find p (l1 ++ l2)
  = match List.find p l1 with
    | Some x => Some x
    | None => List.find p l2
    end.
Proof.
  induction l1 as [|a l1 IH]; [reflexivity|].
  cbn [app List.find]. now destruct (p a).
Qed.

Lemma find_nowhere {A : Type} (p : A -> bool) (l : list A) :
  Forall (fun x => p x = false) l -> List.find p l = None.
Proof.
  induction 1 as [|a l Ha _ IH]; [reflexivity|].
  cbn [List.find]. now rewrite Ha.
Qed.

Lemma find_refined {A : Type} (p q : A -> bool) (l : list A) (x : A) :
  List.find p l = Some x -> q x = true ->
  List.find (fun y => p y && q y) l = Some x.
Proof.
  intros Hfind Hq. induction l as [|a l IH]; [discriminate Hfind|].
  cbn [List.find] in *. destruct (p a); cbn [andb].
  - injection Hfind as ->. now rewrite Hq.
  - exact (IH Hfind).
Qed.

(** The forward scan of [getScheduledTemp], from any starting slot: it ends
    on the slot a backward scan meets first, slots without [temp] passed
    over. *)
Lemma scan_forward (currentTime : Q) (l : list Slot) (acc : option Slot) :
  fold_left
    (fun activeSlot slot =>
       if negb (String.eqb (time slot) "") && hasTemp slot
       then if number_le (slotMinutes slot) currentTime
            then Some slot
            else activeSlot
       else activeSlot) l acc
  = match List.find (fun slot => atOrBefore currentTime slot && hasTemp slot)
            (rev l) with
    | Some slot => Some slot
    | None => acc
    end.
Proof.
  revert acc. induction l as [|slot l IH]; intros acc; [reflexivity|].
  cbn [fold_left rev]. rewrite IH, find_over_app.
  destruct (List.find _ (rev l)); [reflexivity|].
  cbn [List.find]. unfold atOrBefore.
  destruct (negb (String.eqb (time slot) "")); [|reflexivity].
  destruct (hasTemp slot), (number_le (slotMinutes slot) currentTime);
    reflexivity.
Qed.

Lemma findActiveSlot_backward (l : list Slot) (currentTime : Q) :
  findActiveSlot l currentTime
  = List.find (fun slot => atOrBefore currentTime slot && hasTemp slot) (rev l).
Proof.
  unfold findActiveSlot. rewrite scan_forward.
  now destruct (List.find _ _).
Qed.

Lemma current_slot_temp
    (clk : Clock) (s : Controller) (slot : Slot) (v : Q) :
  getCurrentScheduleSlot clk s = Some slot -> temp slot = Some v ->
  getScheduledTemp clk s = v.
Proof.
  unfold getCurrentScheduleSlot, getScheduledTemp.
  destruct (schedule s) as [sch|]; [|discriminate].
  cbv zeta.
  destruct (daySlots sch (dayIndex (getTimeInTimezone clk (timezone sch))))
    as [|earlier lastTime lastTemp]; [discriminate|].
  intros Hfind Htemp.
  rewrite findActiveSlot_backward, (find_refined _ hasTemp _ slot Hfind).
  - now rewrite Htemp.
  - unfold hasTemp. now rewrite Htemp.
Qed.

(** X10. Whenever [getCurrentScheduleSlot] reports a slot that carries a
    temperature, the scheduled temperature is the temperature of that slot:
    the backward scan of the one and the forward scan of the other then
    select the same slot.  (The backward scan also stops at a slot without
    [temp], which the forward scan passes over.) *)
Theorem current_slot_gives_scheduled_temp
    (clk : Clock) (s : Controller) (slot : Slot) (v : Q) :
  getCurrentScheduleSlot clk s = Some slot -> temp slot = Some v ->
  getScheduledTemp clk s = v.
Proof.
  unfold getCurrentScheduleSlot, getScheduledTemp.
  destruct (schedule s) as [sch|]; [|discriminate].
  cbv zeta.
  destruct (daySlots sch (dayIndex (getTimeInTimezone clk (timezone sch))))
    as [|earlier lastTime lastTemp]; [discriminate|].
  intros Hfind Htemp.
  rewrite findActiveSlot_backward, (find_refined _ hasTemp _ slot Hfind).
  - now rewrite Htemp.
  - unfold hasTemp. now rewrite Htemp.
Qed.

Lemma current_slot_gives_scheduled_temp_witness :
  getScheduledTemp (sundayNoon 1000) scheduled = 21.
Proof.
  apply (current_slot_gives_scheduled_temp (sundayNoon 1000) scheduled
           (mkSlot "06:00" (Some 21)) 21).
  - vm_compute. reflexivity.
  - reflexivity.
Defined.

(** X11. If today's list holds a slot that carries a temperature and lies at
    or before the current time, and no slot after it in the list is at or
    before the current time, the scheduled temperature is the temperature of
    that slot, whatever precedes it in the list and whatever yesterday
    held. *)
Theorem schedule_selects_last_started_slot
    (clk : Clock) (s : Controller) (sch : Schedule)
    (before after : list Slot) (slot : Slot) (v : Q) :
  schedule s = Some sch ->
  let t := getTimeInTimezone clk (timezone sch) in
  let currentTime := inject_Z (hours t * 60 + minutes t) in
  slotsOf (daySlots sch (dayIndex t)) = before ++ slot :: after ->
  atOrBefore currentTime slot = true ->
  temp slot = Some v ->
  Forall (fun later => atOrBefore currentTime later = false) after ->
  getScheduledTemp clk s = v /\
  getCurrentScheduleSlot clk s = Some slot.
Proof.
  intros Hsch t currentTime Htoday Hslot Htemp Hafter.
  assert (Hfind : List.find (atOrBefore currentTime)
                    (rev (before ++ slot :: after)) = Some slot).
  { rewrite rev_app_distr. cbn [rev]. rewrite <- app_assoc, find_over_app.
    assert (Hnone : List.find (atOrBefore currentTime) (rev after) = None)
      by (apply find_nowhere, Forall_rev, Hafter).
    rewrite Hnone. cbn [app List.find]. now rewrite Hslot. }
  assert (Hcur : getCurrentScheduleSlot clk s = Some slot).
  { unfold getCurrentScheduleSlot. rewrite Hsch. cbv zeta.
    fold t. fold currentTime.
    destruct (daySlots sch (dayIndex t)) as [|earlier lastTime lastTemp].
    - destruct before; discriminate Htoday.
    - rewrite Htoday. exact Hfind. }
  split; [|exact Hcur].
  exact (current_slot_temp clk s slot v Hcur Htemp).
Qed.

Lemma schedule_selects_last_started_slot_witness :
  getScheduledTemp (sundayNoon 1000) scheduled = 21.
Proof.
  refine (proj1 (schedule_selects_last_started_slot (sundayNoon 1000) scheduled
                   sundaySchedule [] [mkSlot "22:00" (Some 18)]
                   (mkSlot "06:00" (Some 21)) 21 eq_refl _ _ _ _)).
  - reflexivity.
  - vm_compute. reflexivity.
  - reflexivity.
  - repeat constructor.
Defined.

(** ** The manual setpoint against the schedule *)

Lemma getCurrentScheduleSlot_ext (clk : Clock) (a b : Controller) :
  schedule a = schedule b ->
  getCurrentScheduleSlot clk a = getCurrentScheduleSlot clk b.
Proof. unfold getCurrentScheduleSlot. now intros ->. Qed.

(** X12. A manual setpoint within the bounds becomes the resolved target
    when there is no schedule, away mode is off and no boost is in force.
    While the schedule has a current slot that carries a temperature, a
    manual setpoint of any value leaves the resolved target where the
    schedule puts it. *)
Theorem manual_setpoint_yields_to_schedule
    (clk : Clock) (x : Q) (s : Controller) :
  (schedule s = None -> awayMode s = false -> boosting s = false ->
   minTemp s <= x <= maxTemp s ->
   targetTemp (calculateEffectiveTarget clk (setSetpoint (JNum x) s)) == x) /\
  (forall (slot : Slot) (v : Q),
   getCurrentScheduleSlot clk s = Some slot -> temp slot = Some v ->
   targetTemp (calculateEffectiveTarget clk (setSetpoint (JNum x) s))
   = targetTemp (calculateEffectiveTarget clk s)).
Proof.
  unfold setSetpoint. split.
  - intros Hsch Haway Hboost Hx.
    unfold calculateEffectiveTarget. fields.
    rewrite Hsch, Haway.
    unfold boosting in Hboost.
    assert (Hin : clamp (clamp x (minTemp s) (maxTemp s)) (minTemp s) (maxTemp s)
                  == x)
      by (rewrite !clamp_inside; [reflexivity | exact Hx |
          rewrite clamp_inside; exact Hx || reflexivity]).
    destruct (boostActive s); [|exact Hin].
    destruct (boostTemp s); [discriminate Hboost | exact Hin].
  - intros slot v Hcur Htemp.
    set (s' := set_integral 0 _).
    assert (Hcur' : getCurrentScheduleSlot clk s' = Some slot).
    { rewrite <- Hcur. apply getCurrentScheduleSlot_ext.
      subst s'. fields. reflexivity. }
    assert (Hsch : exists sch, schedule s = Some sch).
    { unfold getCurrentScheduleSlot in Hcur.
      destruct (schedule s); [now eexists | discriminate]. }
    destruct Hsch as (sch & Hsch).
    assert (Hsch' : schedule s' = Some sch)
      by (subst s'; fields; exact Hsch).
    unfold calculateEffectiveTarget. fields.
    rewrite Hsch, Hsch'.
    rewrite (current_slot_temp clk s' slot v Hcur' Htemp).
    rewrite (current_slot_temp clk s slot v Hcur Htemp).
    subst s'. fields. reflexivity.
Qed.

Lemma manual_setpoint_yields_to_schedule_witness :
  targetTemp (calculateEffectiveTarget (sundayMorning 1000)
                (setSetpoint (JNum 24) scheduled))
  = targetTemp (calculateEffectiveTarget (sundayMorning 1000) scheduled).
Proof.
  apply (proj2 (manual_setpoint_yields_to_schedule (sundayMorning 1000) 24
                  scheduled) (mkSlot "06:00" (Some 21)) 21).
  - vm_compute. reflexivity.
  - reflexivity.
Defined.

(** ** Persistence and reset *)

Ltac restore_all :=
  cbv [setState getState restore b_Kp b_Ki b_Kd b_integral b_lastError
       b_lastTemp b_lastOutput b_learningPhase b_learningComplete
       b_temperatureHistory b_performanceHistory b_mode b_baseTargetTemp
       b_operatingMode b_schedule b_boostActive b_boostTemp b_boostEndTime
       b_awayMode b_awayTemp].

(** X13. Restoring the snapshot of an instance into that instance changes
    nothing.  Restoring it into any other instance copies every persisted
    field (gains, accumulator, last error, temperature and setpoint,
    learning flags, both histories, modes, base target, schedule, boost and
    away state) and leaves the rest of that instance (bounds, hysteresis,
    precision, rate limit, current target, last-update and learning-start
    instants, trend window, parameters-changed flag) as it was; with equal
    bounds the two then resolve the same target. *)
Theorem snapshot_restores (clk : Clock) (s c : Controller) :
  setState (Some (getState s)) s = s /\
  persisted (setState (Some (getState s)) c) = persisted s /\
  unpersisted (setState (Some (getState s)) c) = unpersisted c /\
  (minTemp c = minTemp s -> maxTemp c = maxTemp s ->
   targetTemp (calculateEffectiveTarget clk (setState (Some (getState s)) c))
   = targetTemp (calculateEffectiveTarget clk s)).
Proof.
  split; [restore_all; same_instance s|].
  split; [destruct s, c; unfold persisted; restore_all; fields_cbv; reflexivity|].
  split; [destruct s, c; unfold unpersisted; restore_all; fields_cbv;
          reflexivity|].
  intros Hmin Hmax.
  apply calculateEffectiveTarget_ext;
    try (destruct s, c; restore_all; fields_cbv; reflexivity).
  - rewrite <- Hmin. destruct s, c; restore_all; fields_cbv; reflexivity.
  - rewrite <- Hmax. destruct s, c; restore_all; fields_cbv; reflexivity.
Qed.

Lemma snapshot_restores_witness :
  targetTemp (calculateEffectiveTarget (sundayNoon 1000)
                (setState (Some (getState warmedUp)) fresh))
  = targetTemp (calculateEffectiveTarget (sundayNoon 1000) warmedUp).
Proof.
  apply (snapshot_restores (sundayNoon 1000) warmedUp fresh); reflexivity.
Defined.

(** X14. Resetting twice is resetting once.  On a controller just built
    from a configuration that names no gains, a reset changes exactly one
    field: the integral gain, built as 0.02, is reset to 0.01. *)
Theorem reset_restores_construction_except_Ki (cfg : Config) (s : Controller) :
  reset (reset s) = reset s /\
  (cfg_Kp cfg = None -> cfg_Ki cfg = None -> cfg_Kd cfg = None ->
   reset (constructor cfg) = set_Ki 0.01 (constructor cfg) /\
   Ki (constructor cfg) = 0.02 /\
   Ki (reset (constructor cfg)) = 0.01).
Proof.
  split; [unfold reset; same_instance s|].
  intros Hp Hi Hd. unfold reset, constructor. rewrite Hp, Hi, Hd.
  cbn [or_default]. fields_cbv. repeat split.
Qed.

Lemma reset_restores_construction_except_Ki_witness :
  reset fresh = set_Ki 0.01 fresh.
Proof.
  apply (proj2 (reset_restores_construction_except_Ki defaultConfig fresh));
    reflexivity.
Defined.

(** ** What every cycle guarantees *)




Lemma beginCycle_boost (clk : Clock) (s : Controller) :
  boostTriple (beginCycle clk s) = boostTriple s \/
  boostTriple (beginCycle clk s) = (false, None, None).
Proof.
  unfold beginCycle.
  destruct (calculateEffectiveTarget_frame clk
              (checkBoostExpiry clk (set_lastUpdateTime (Some (now clk)) s)))
    as (target & ->).
  unfold checkBoostExpiry, boostTriple.
  match goal with |- context [if ?c then _ else _] => destruct c end;
    fields; [now right | now left].
Qed.

Lemma beforePID_choices (clk : Clock) (t : Q) (s : Controller) :
  userChoices (beforePID clk t s) = userChoices (beginCycle clk s) /\
  boostTriple (beforePID clk t s) = boostTriple (beginCycle clk s).
Proof.
  unfold beforePID, recorded, recordTemperature, userChoices, boostTriple.
  match goal with |- context [if ?c then _ else _] => destruct c end.
  - match goal with |- context [learn clk ?x] =>
      destruct (learn_frame clk x) as (kp & ki & kd & ch & st & ph & co & -> & _)
    end.
    fields. now split.
  - fields. now split.
Qed.

(** X16. A cycle never alters what the user chose: the bounds, precision,
    rate limit, hysteresis, thermal and operating mode, base target,
    schedule, away flag and away temperature, sample interval and learning
    switch are after the cycle what they were before.  The boost is either
    left as it was or cleared; no cycle starts or changes one. *)
Theorem cycle_respects_user_choices (clk : Clock) (t : Q) (s : Controller) :
  let s' := snd (update clk t s) in
  settings s' = settings s /\
  userChoices s' = userChoices s /\
  (boostTriple s' = boostTriple s \/ boostTriple s' = (false, None, None)).
Proof.
  cbv zeta. split; [apply update_settings|].
  assert (Hbegin : userChoices (beginCycle clk s) = userChoices s)
    by (unfold userChoices; rewrite beginCycle_frame; fields; reflexivity).
  pose proof (beginCycle_boost clk s) as Hboost.
  destruct (String.eqb (operatingMode s) "off") eqn:Hoff.
  { rewrite update_off by exact Hoff. now split. }
  destruct (modeMismatch (recorded clk t s) (cycleError clk t s)) eqn:Hidle.
  { destruct (update_idle_final clk t s Hoff Hidle) as [-> _].
    unfold userChoices, boostTriple, recorded, recordTemperature in *.
    fields. now split. }
  destruct (update_regulating_final clk t s)
    as (kp & ki & kd & ch & h & -> & _).
  { unfold regulating. now rewrite Hoff, Hidle. }
  destruct (beforePID_choices clk t s) as [Hc Hb].
  unfold userChoices, boostTriple in *. fields.
  rewrite Hc, Hb. now split.
Qed.

(** ** The PID step and the shaping of the setpoint *)

(** X17. Cooling is the mirror image of heating in the PID step: for an
    error [e] in direction cool the step leaves the same instance, and
    computes the same P, I and D terms and adjustment, as for the error
    [-e] in direction heat. *)
Theorem pid_cooling_mirrors_heating (e dt : Q) (s : Controller) :
  let cool := calculatePID e dt "cool" s in
  let heat := calculatePID (- e) dt "heat" s in
  snd cool = snd heat /\
  pid_P (fst cool) == pid_P (fst heat) /\
  pid_I (fst cool) = pid_I (fst heat) /\
  pid_D (fst cool) == pid_D (fst heat) /\
  adjustment (fst cool) == adjustment (fst heat).
Proof.
  cbv zeta. unfold calculatePID.
  cbn [String.eqb Ascii.eqb Bool.eqb fst snd pid_P pid_I pid_D adjustment].
  assert (Habs : Qabs (- e) == Qabs e) by apply Qabs_opp.
  assert (HD : Kd s * (if Qltb 0 dt
                       then (Qabs e - Qabs (lastError s)) / dt else 0)
               == Kd s * (if Qltb 0 dt
                          then (Qabs (- e) - Qabs (lastError s)) / dt else 0)).
  { destruct (Qltb 0 dt); [|reflexivity]. now rewrite Habs. }
  split; [reflexivity|]. split; [now rewrite Habs|].
  split; [reflexivity|]. split; [exact HD|].
  apply Qplus_comp; [|exact HD].
  apply Qplus_comp; [|reflexivity].
  apply Qmult_comp; [reflexivity | symmetry; exact Habs].
Qed.

(** X18. On a well-formed instance, a PID step in direction heat with the
    room at or below the target never lowers the accumulator, and an error
    of zero leaves it where it was. *)
Theorem pid_accumulates_below_target (e dt : Q) (s : Controller) :
  wellFormed s -> 0 <= dt -> 0 <= e ->
  integral s <= integral (snd (calculatePID e dt "heat" s)) /\
  (e == 0 -> integral (snd (calculatePID e dt "heat" s)) == integral s).
Proof.
  intros (Hb & HKi & Hint) Hdt He. unfold integralLimit in Hint.
  unfold calculatePID. cbn [String.eqb Ascii.eqb Bool.eqb snd]. fields.
  replace (Qeq_bool (2 * Ki s) 0) with false
    by (symmetry; apply not_true_iff_false; rewrite Qeq_bool_iff; lra).
  set (limit := (maxTemp s - minTemp s) / (2 * Ki s)) in *. clearbody limit.
  assert (Hgrow : 0 <= e * dt) by (apply Qmult_le_0_compat; assumption).
  set (step := e * dt) in *.
  split.
  - clearbody step. unfold clamp.
    destruct (Q.max_spec (integral s + step) 0) as [[Hm Em] | [Hm Em]];
      destruct (Q.min_spec (Qmax (integral s + step) 0) limit)
        as [[Hn En] | [Hn En]];
      rewrite En; try rewrite Em; lra.
  - intros Hzero.
    assert (Hstep : step == 0) by (subst step; rewrite Hzero; ring).
    clearbody step. rewrite clamp_inside; lra.
Qed.

Lemma pid_accumulates_below_target_witness :
  integral warmedUp
  <= integral (snd (calculatePID 1 60 "heat" warmedUp)).
Proof.
  apply (pid_accumulates_below_target 1 60 warmedUp).
  - unfold wellFormed. vm_compute. repeat split; discriminate.
  - vm_compute. discriminate.
  - vm_compute. discriminate.
Defined.

Lemma roundToPrecision_monotone (s : Controller) (x y : Q) :
  0 < precision s -> x <= y -> roundToPrecision s x <= roundToPrecision s y.
Proof.
  intros Hp Hxy. unfold roundToPrecision, Math_round.
  apply Qmult_le_compat_r; [|lra].
  rewrite <- Zle_Qle. apply Qfloor_resp_le.
  apply Qplus_le_l. apply Qmult_le_compat_r; [exact Hxy|].
  apply Qinv_le_0_compat. lra.
Qed.

Lemma roundToPrecision_comp (s : Controller) (x y : Q) :
  x == y -> roundToPrecision s x == roundToPrecision s y.
Proof.
  intros Hxy. unfold roundToPrecision, Math_round.
  assert (H : x / precision s + 0.5 == y / precision s + 0.5)
    by (now rewrite Hxy).
  now rewrite (Qfloor_comp _ _ H).
Qed.

Lemma clamp_monotone (x y lo hi : Q) : x <= y -> clamp x lo hi <= clamp y lo hi.
Proof.
  intros Hxy. unfold clamp.
  apply Q.min_le_compat_r, Q.max_le_compat_r, Hxy.
Qed.

(** Outside the hysteresis band and with no previous setpoint, the shaped
    heating setpoint is at least one precision step above the target. *)
Lemma shapeOutput_first_heat (s : Controller) (activeMode : string) (adj : Q) :
  lastOutput s = None -> String.eqb activeMode "cool" = false ->
  targetTemp s + precision s <= shapeOutput s activeMode false adj.
Proof.
  intros Hlast Hheat. unfold shapeOutput. rewrite Hlast, Hheat. cbn [negb andb].
  destruct (Qltb (targetTemp s + adj) (targetTemp s + precision s)) eqn:Hlow.
  - lra.
  - apply Qltb_ge, Hlow.
Qed.

(** X19. In thermal mode heat, outside operating mode off and with ordered
    bounds and a positive precision, the first setpoint ever emitted (no
    previous setpoint to rate-limit against) for a room below the target by
    the hysteresis or more is at least the rounding of target plus one
    precision step, clamped; when that step fits under [maxTemp], the
    setpoint exceeds the target by at least half a step. *)
Theorem first_heating_setpoint_steps_above_target
    (clk : Clock) (t : Q) (s : Controller) :
  minTemp s <= maxTemp s -> 0 < precision s ->
  mode s = "heat" -> operatingMode s <> "off" -> lastOutput s = None ->
  0 <= cycleError clk t s -> hysteresis s <= cycleError clk t s ->
  let target := targetTemp (beginCycle clk s) in
  let out := output (fst (update clk t s)) in
  roundToPrecision s (clamp (target + precision s) (minTemp s) (maxTemp s))
  <= out /\
  (target + precision s <= maxTemp s -> target + precision s / 2 <= out).
Proof.
  intros Hb Hp Hheat Hon Hlast Herr Hhyst. cbv zeta.
  apply String.eqb_neq in Hon.
  pose proof (beginCycle_target_in_range clk s Hb) as Hrange.
  destruct (recorded_carries clk t s) as (Hs1 & _ & _ & _ & _).
  apply settings_fields in Hs1.
  destruct Hs1 as (_ & _ & _ & _ & Hh1 & Hm1 & _).
  assert (Hreg : regulating clk t s = true).
  { unfold regulating, modeMismatch. rewrite Hon, Hm1, Hheat.
    cbn [negb andb String.eqb Ascii.eqb Bool.eqb orb].
    replace (Qltb (cycleError clk t s) 0) with false
      by (symmetry; now apply Qltb_ge).
    reflexivity. }
  destruct (update_regulating_final clk t s Hreg)
    as (kp & ki & kd & ch & h & _ & Hout & _).
  destruct (settings_fields _ _ (update_settings clk t s))
    as (_ & _ & Hp5 & _).
  destruct (beforePID_carries clk t s) as (Hs2 & _ & Hl2 & Ht2 & _).
  assert (Hmode : activeModeOf (recorded clk t s) (cycleError clk t s) = "heat")
    by (unfold activeModeOf; now rewrite Hm1, Hheat).
  assert (Hband : Qltb (Qabs (cycleError clk t s)) (hysteresis (recorded clk t s))
                  = false).
  { apply Qltb_ge. rewrite Hh1, Qabs_pos by exact Herr. exact Hhyst. }
  rewrite Hmode, Hband in Hout.
  destruct (calculatePID_carries (cycleError clk t s) (elapsed clk s) "heat"
              (beforePID clk t s)) as (Hs3 & Hl3).
  rewrite Hs2 in Hs3. apply settings_fields in Hs3.
  destruct Hs3 as (Hmin3 & Hmax3 & Hp3 & _).
  rewrite Hl2, Hlast in Hl3.
  set (pid := calculatePID (cycleError clk t s) (elapsed clk s) "heat"
                (beforePID clk t s)) in *.
  assert (Ht3 : targetTemp (snd pid) = targetTemp (beginCycle clk s)).
  { subst pid. rewrite calculatePID_frame. fields. exact Ht2. }
  pose proof (shapeOutput_first_heat (snd pid) "heat" (adjustment (fst pid))
                Hl3 eq_refl) as Hshape.
  rewrite Ht3, Hp3 in Hshape.
  set (raw := shapeOutput (snd pid) "heat" false (adjustment (fst pid))) in *.
  clearbody raw.
  rewrite Hout.
  rewrite (roundToPrecision_ext _ s _ Hp5).
  rewrite (roundToPrecision_ext (snd pid) s _ Hp3), Hmin3, Hmax3.
  rewrite (roundToPrecision_idempotent s _ Hp).
  set (target := targetTemp (beginCycle clk s)) in *. clearbody target.
  assert (Hlow : roundToPrecision s
                   (clamp (target + precision s) (minTemp s) (maxTemp s))
                 <= roundToPrecision s (clamp raw (minTemp s) (maxTemp s)))
    by (apply roundToPrecision_monotone; [exact Hp|];
        now apply clamp_monotone).
  split; [exact Hlow|].
  intros Hfits.
  assert (Hin : clamp (target + precision s) (minTemp s) (maxTemp s)
                == target + precision s)
    by (apply clamp_inside; lra).
  pose proof (roundToPrecision_comp s _ _ Hin) as Hsame.
  pose proof (roundToPrecision_near s (target + precision s) Hp) as Hnear.
  rewrite Qhalf in *. apply Qabs_Qle_condition in Hnear. lra.
Qed.

Lemma first_heating_setpoint_steps_above_target_witness :
  targetTemp (beginCycle (sundayNoon 1000) fresh) + precision fresh / 2
  <= output (fst (update (sundayNoon 1000) 20 fresh)).
Proof.
  refine (proj2 (first_heating_setpoint_steps_above_target (sundayNoon 1000) 20
                   fresh _ _ eq_refl _ eq_refl _ _) _).
  - vm_compute. discriminate.
  - reflexivity.
  - discriminate.
  - vm_compute. discriminate.
  - vm_compute. discriminate.
  - vm_compute. discriminate.
Defined.

(** ** The activation signal of the node *)

Lemma createOutput_debug (s : Controller) (out t error : Q) (trend : string)
    (pidResult : option PidResult) (activeMode : string) :
  let d := debug (createOutput s out t error trend pidResult activeMode) in
  d_error d = round2 error /\
  d_activeMode d = str_or activeMode (mode s) /\
  d_operatingMode d = operatingMode s /\
  d_targetTemp d = targetTemp s.
Proof. repeat split. Qed.

Lemma update_off_debug (clk : Clock) (t : Q) (s : Controller) :
  String.eqb (operatingMode s) "off" = true ->
  d_operatingMode (debug (fst (update clk t s))) = "off".
Proof.
  intros Hoff. unfold update. rewrite beginCycle_operatingMode, Hoff.
  cbn [fst]. destruct (createOutput_debug (beginCycle clk s)
      (roundToPrecision (beginCycle clk s) (minTemp (beginCycle clk s)))
      t 0 "off" None (mode (beginCycle clk s))) as (_ & _ & -> & _).
  rewrite beginCycle_operatingMode. now apply String.eqb_eq.
Qed.

(** The entries of the debug record the latch reads, for a cycle outside
    mode off. *)
Lemma update_debug (clk : Clock) (t : Q) (s : Controller) :
  String.eqb (operatingMode s) "off" = false ->
  let d := debug (fst (update clk t s)) in
  d_error d = round2 (cycleError clk t s) /\
  d_activeMode d
  = str_or (activeModeOf (recorded clk t s) (cycleError clk t s)) (mode s) /\
  d_operatingMode d = operatingMode s.
Proof.
  intros Hoff. cbv zeta.
  destruct (settings_fields _ _ (update_settings clk t s))
    as (_ & _ & _ & _ & _ & Hmode & Hop).
  destruct (modeMismatch (recorded clk t s) (cycleError clk t s)) eqn:Hidle.
  - rewrite (update_idle clk t s Hoff Hidle) in *.
    unfold idleCycle in *. cbv zeta in *. cbn [fst snd] in *.
    match goal with |- context [createOutput ?a _ _ _ _ _ _] =>
      set (final := a) in *; clearbody final
    end.
    match goal with |- context [createOutput ?a ?b ?c ?d ?e ?f ?g] =>
      destruct (createOutput_debug a b c d e f g) as (-> & -> & -> & _)
    end.
    rewrite Hmode, Hop. repeat split; reflexivity.
  - assert (Hreg : regulating clk t s = true)
      by (unfold regulating; now rewrite Hoff, Hidle).
    rewrite (update_regulating clk t s Hreg) in *.
    rewrite regulate_state in *. cbv zeta in *. cbn [fst snd] in *.
    match goal with |- context [createOutput ?a _ _ _ _ _ _] =>
      set (final := a) in *; clearbody final
    end.
    match goal with |- context [createOutput ?a ?b ?c ?d ?e ?f ?g] =>
      destruct (createOutput_debug a b c d e f g) as (-> & -> & -> & _)
    end.
    rewrite Hmode, Hop. repeat split; reflexivity.
Qed.

(** X20. In operating mode off a message leaves both latches released and
    reports the actuator inactive, whatever the latches held and whatever
    the reading. *)
Theorem off_mode_releases_latches
    (clk : Clock) (t : Q) (s : Controller) (l : Latch) :
  operatingMode s = "off" ->
  let '(result, isActive, (s', l')) := onInput clk t (s, l) in
  isActive = false /\ l' = mkLatch false false.
Proof.
  intros Hoff. unfold onInput.
  assert (Hd : d_operatingMode (debug (fst (update clk t s))) = "off")
    by (apply update_off_debug; rewrite Hoff; reflexivity).
  destruct (update clk t s) as [result s']. cbn [fst] in Hd.
  unfold activation. rewrite Hd. cbn. now split.
Qed.

Lemma off_mode_releases_latches_witness :
  snd (fst (onInput (sundayNoon 1000) 12 (switchedOff, mkLatch true true)))
  = false.
Proof.
  pose proof (off_mode_releases_latches (sundayNoon 1000) 12 switchedOff
                (mkLatch true true) eq_refl) as H.
  destruct (onInput (sundayNoon 1000) 12 (switchedOff, mkLatch true true))
    as [[result isActive] [s' l']].
  exact (proj1 H).
Defined.

Lemma round2_bounds (x : Q) : x - 0.005 < round2 x /\ round2 x <= x + 0.005.
Proof.
  destruct (Math_round_bracket (x * 100)) as [Hlo Hhi].
  assert (H : round2 x * 100 == inject_Z (Math_round (x * 100)))
    by (unfold round2; field).
  set (r := round2 x) in *. set (k := inject_Z (Math_round (x * 100))) in *.
  clearbody r k. split; lra.
Qed.

Lemma round2_nonpos (x : Q) : x <= 0 -> round2 x <= 0.
Proof.
  intros Hx. destruct (Math_round_bracket (x * 100)) as [_ Hhi].
  assert (Hk : (Math_round (x * 100) <= 0)%Z).
  { assert (Hlt : (Math_round (x * 100) < 1)%Z)
      by (rewrite Zlt_Qlt; change (inject_Z 1) with 1; lra).
    lia. }
  rewrite Zle_Qle in Hk. change (inject_Z 0) with 0 in Hk.
  assert (H : round2 x * 100 == inject_Z (Math_round (x * 100)))
    by (unfold round2; field).
  set (r := round2 x) in *. set (k := inject_Z (Math_round (x * 100))) in *.
  clearbody r k. lra.
Qed.

(** X21. In thermal mode heat, outside operating mode off and with a
    non-negative hysteresis: a reading that leaves the room below the
    target by the hysteresis plus 0.005 or more (the error is rounded to
    two decimals before the latch compares it) switches the heating signal
    on, a reading at or above the target switches it off, and neither
    touches the cooling latch. *)
Theorem heating_signal_follows_demand
    (clk : Clock) (t : Q) (s : Controller) (l : Latch) :
  mode s = "heat" -> operatingMode s <> "off" -> 0 <= hysteresis s ->
  let '(result, isActive, (s', l')) := onInput clk t (s, l) in
  (hysteresis s + 0.005 <= cycleError clk t s ->
   isActive = true /\ wasHeatingActive l' = true) /\
  (cycleError clk t s <= 0 ->
   isActive = false /\ wasHeatingActive l' = false) /\
  wasCoolingActive l' = wasCoolingActive l.
Proof.
  intros Hheat Hon Hhyst. apply String.eqb_neq in Hon. unfold onInput.
  destruct (update_debug clk t s Hon) as (Herr & Hactive & Hop).
  destruct (recorded_carries clk t s) as (Hs1 & _).
  apply settings_fields in Hs1. destruct Hs1 as (_ & _ & _ & _ & _ & Hm1 & _).
  unfold activeModeOf in Hactive. rewrite Hm1, Hheat in Hactive.
  cbn in Hactive.
  destruct (update clk t s) as [result s']. cbn [fst] in *.
  unfold activation. rewrite Hop, Hon, Hactive, Herr.
  cbn [String.eqb Ascii.eqb Bool.eqb].
  destruct (round2_bounds (cycleError clk t s)) as [Hlo Hhi].
  split; [|split; [|reflexivity]].
  - intros Hcold.
    replace (Qltb (hysteresis s) (round2 (cycleError clk t s))) with true
      by (symmetry; apply Qltb_lt; lra).
    now split.
  - intros Hwarm. pose proof (round2_nonpos _ Hwarm) as Hr.
    replace (Qltb (hysteresis s) (round2 (cycleError clk t s))) with false
      by (symmetry; apply Qltb_ge; lra).
    unfold heatingProactive. rewrite Herr.
    replace (Qltb 0 (round2 (cycleError clk t s))) with false
      by (symmetry; apply Qltb_ge; exact Hr).
    rewrite andb_false_r.
    replace (Qle_bool (round2 (cycleError clk t s)) 0) with true
      by (symmetry; apply Qle_bool_iff; exact Hr).
    now split.
Qed.

Lemma heating_signal_follows_demand_witness :
  snd (fst (onInput (sundayNoon 1000) 20 (fresh, mkLatch false false))) = true.
Proof.
  pose proof (heating_signal_follows_demand (sundayNoon 1000) 20 fresh
                (mkLatch false false) eq_refl
                ltac:(discriminate) ltac:(vm_compute; discriminate)) as H.
  destruct (onInput (sundayNoon 1000) 20 (fresh, mkLatch false false))
    as [[result isActive] [s' l']].
  apply (proj1 H). vm_compute. discriminate.
Defined.

Lemma round2_nonneg (x : Q) : 0 <= x -> 0 <= round2 x.
Proof.
  intros Hx. destruct (Math_round_bracket (x * 100)) as [Hlo _].
  assert (Hk : (0 <= Math_round (x * 100))%Z).
  { assert (Hlt : (-1 < Math_round (x * 100))%Z)
      by (rewrite Zlt_Qlt; change (inject_Z (-1)) with (-1); lra).
    lia. }
  rewrite Zle_Qle in Hk. change (inject_Z 0) with 0 in Hk.
  assert (H : round2 x * 100 == inject_Z (Math_round (x * 100)))
    by (unfold round2; field).
  set (r := round2 x) in *. set (k := inject_Z (Math_round (x * 100))) in *.
  clearbody r k. lra.
Qed.

(** X22. In thermal mode cool, outside operating mode off and with a
    non-negative hysteresis, the cooling signal is a plain hysteresis
    latch: a room above the target by more than the hysteresis plus 0.005
    switches it on, a room at or below the target switches it off, and for
    every reading in between (rounded error in [[-hysteresis, 0)]) the
    signal keeps its previous value.  The heating latch is not touched. *)
Theorem cooling_signal_is_plain_hysteresis
    (clk : Clock) (t : Q) (s : Controller) (l : Latch) :
  mode s = "cool" -> operatingMode s <> "off" -> 0 <= hysteresis s ->
  let '(result, isActive, (s', l')) := onInput clk t (s, l) in
  (cycleError clk t s < - (hysteresis s + 0.005) -> isActive = true) /\
  (0 <= cycleError clk t s -> isActive = false) /\
  (- hysteresis s <= round2 (cycleError clk t s) < 0 ->
   isActive = wasCoolingActive l) /\
  wasCoolingActive l' = isActive /\
  wasHeatingActive l' = wasHeatingActive l.
Proof.
  intros Hcool Hon Hhyst. apply String.eqb_neq in Hon. unfold onInput.
  destruct (update_debug clk t s Hon) as (Herr & Hactive & Hop).
  pose proof (coolingProactive_never clk t (precision s) s) as Hnever.
  destruct (recorded_carries clk t s) as (Hs1 & _).
  apply settings_fields in Hs1. destruct Hs1 as (_ & _ & _ & _ & _ & Hm1 & _).
  unfold activeModeOf in Hactive. rewrite Hm1, Hcool in Hactive.
  cbn in Hactive.
  destruct (update clk t s) as [result s']. cbn [fst] in *.
  unfold activation. rewrite Hop, Hon, Hactive, Herr, Hnever.
  cbn [String.eqb Ascii.eqb Bool.eqb].
  destruct (round2_bounds (cycleError clk t s)) as [Hlo Hhi].
  split; [|split; [|split; [|split; reflexivity]]].
  - intros Hhot.
    replace (Qltb (round2 (cycleError clk t s)) (- hysteresis s)) with true
      by (symmetry; apply Qltb_lt; lra).
    reflexivity.
  - intros Hcold. pose proof (round2_nonneg _ Hcold) as Hr.
    replace (Qltb (round2 (cycleError clk t s)) (- hysteresis s)) with false
      by (symmetry; apply Qltb_ge; lra).
    replace (Qle_bool 0 (round2 (cycleError clk t s))) with true
      by (symmetry; apply Qle_bool_iff; exact Hr).
    reflexivity.
  - intros [Hin Hneg].
    replace (Qltb (round2 (cycleError clk t s)) (- hysteresis s)) with false
      by (symmetry; apply Qltb_ge; exact Hin).
    replace (Qle_bool 0 (round2 (cycleError clk t s))) with false
      by (symmetry; apply Qle_bool_gt; exact Hneg).
    reflexivity.
Qed.

Lemma cooling_signal_is_plain_hysteresis_witness :
  snd (fst (onInput (sundayNoon 1000) 22
              (constructor coolingConfig, mkLatch false false))) = true.
Proof.
  pose proof (cooling_signal_is_plain_hysteresis (sundayNoon 1000) 22
                (constructor coolingConfig) (mkLatch false false) eq_refl
                ltac:(discriminate) ltac:(vm_compute; discriminate)) as H.
  destruct (onInput (sundayNoon 1000) 22
              (constructor coolingConfig, mkLatch false false))
    as [[result isActive] [s' l']].
  apply (proj1 H). vm_compute. reflexivity.
Defined.
